(** * devicetool: registration tool for the Google Assistant device registry

    A shallow embedding of
    [googlesamples/assistant/grpc/devicetool.py] and the properties of its
    error translator, response formatter, project resolver and upsert
    commands.

    Conventions of the embedding.
    - A Python [str] is a [string]; each [ascii] stands for one character
      (characters above code point 255 are outside the model).
    - A decoded JSON document is a [json] value; numbers are integers
      (floating point documents are outside the model); a Python [dict] is
      an association list in insertion order.
    - What the Python runtime and the libraries do (decoding and encoding
      JSON, [repr] of a string, the text of a library exception) is the
      interface [PyRuntime]; what the machine and the network do (files,
      OAuth, the registry server) is the interface [Environment].  The
      commands are written over any implementation of the two.
    - An exception is a value of [exn]; code that may raise returns a
      [result]; code that also talks to the outside is a function of the
      [world] (server state, requests sent, lines printed, files opened,
      logging level). *)

From Stdlib Require Import ZArith List String Ascii Bool Lia DecimalString.
Import ListNotations.
Open Scope string_scope.
Open Scope Z_scope.
Set Warnings "-register-all".

(** ** Values *)

Inductive json : Type :=
| JNull
| JBool (b : bool)
| JInt (n : Z)
| JStr (s : string)
| JArr (items : list json)
| JObj (fields : list (string * json)).

Definition dict := list (string * json).

(** [d.get(k)]: the value stored under [k], if any. *)
Fixpoint dict_get (k : string) (d : dict) : option json :=
  match d with
  | [] => None
  | (k', v) :: d' => if String.eqb k k' then Some v else dict_get k d'
  end.

(** [d[k] = v]: an existing key keeps its place, a new key goes last. *)
Fixpoint dict_set (k : string) (v : json) (d : dict) : dict :=
  match d with
  | [] => [(k, v)]
  | (k', v') :: d' =>
      if String.eqb k k' then (k', v) :: d' else (k', v') :: dict_set k v d'
  end.

(** [k in d]. *)
Definition dict_has (k : string) (d : dict) : bool :=
  match dict_get k d with Some _ => true | None => false end.

(** ** Exceptions and results *)

Inductive exn : Type :=
| ClickException (message : string)
| KeyError (key : string)
| TypeError (culprit : json)
| ValueError (document : string)
| OSError (path : string)
| AuthError (info : json).

Inductive result (A : Type) : Type :=
| Ok (a : A)
| Raise (e : exn).
Arguments Ok {A} a.
Arguments Raise {A} e.

Definition rbind {A B} (r : result A) (k : A -> result B) : result B :=
  match r with
  | Ok a => k a
  | Raise e => Raise e
  end.

Declare Scope result_scope.
Delimit Scope result_scope with result.
Notation "'let?' x ':=' r 'in' k" := (rbind r (fun x => k))
  (at level 10, x name, r at level 100, k at level 200) : result_scope.
Open Scope result_scope.

Fixpoint rmap {A B} (f : A -> result B) (l : list A) : result (list B) :=
  match l with
  | [] => Ok []
  | a :: l' => let? b := f a in let? bs := rmap f l' in Ok (b :: bs)
  end.

(** ** The Python runtime *)

Class PyRuntime : Type := {
  (** [json.loads]: [None] when it raises [ValueError]. *)
  loads : string -> option json;
  (** [json.dumps]. *)
  dumps : json -> string;
  (** [repr] of a [str]. *)
  repr_str : string -> string;
  (** [str(e)] of an exception raised by the runtime or a library. *)
  exc_str : exn -> string
}.

(** Decimal notation of an integer, as [str(n)] and [%d] print it. *)
Definition decimal (n : Z) : string := NilZero.string_of_int (Z.to_int n).

(** [sep.join(l)] *)
Definition join (sep : string) (l : list string) : string :=
  String.concat sep l.

(** Does [s] start with [p]? *)
Fixpoint starts_with (p s : string) : bool :=
  match p, s with
  | EmptyString, _ => true
  | String a p', String b s' => Ascii.eqb a b && starts_with p' s'
  | String _ _, EmptyString => false
  end.

(** [p in s] for two strings. *)
Fixpoint is_substring (p s : string) : bool :=
  starts_with p s ||
  match s with
  | EmptyString => false
  | String _ s' => is_substring p s'
  end.

Definition chars (s : string) : list string :=
  map (fun c => String c EmptyString) (list_ascii_of_string s).

Definition is_JStr (k : string) (v : json) : bool :=
  match v with JStr s => String.eqb k s | _ => false end.

(** [v[k]] with a string key. *)
Definition getitem (v : json) (k : string) : result json :=
  match v with
  | JObj d =>
      match dict_get k d with
      | Some x => Ok x
      | None => Raise (KeyError k)
      end
  | _ => Raise (TypeError v)
  end.

(** [k in v] with a string key. *)
Definition contains (k : string) (v : json) : result bool :=
  match v with
  | JObj d => Ok (dict_has k d)
  | JArr l => Ok (existsb (is_JStr k) l)
  | JStr s => Ok (is_substring k s)
  | _ => Raise (TypeError v)
  end.

(** The items a [for] loop over [v] visits. *)
Definition iterate (v : json) : result (list json) :=
  match v with
  | JArr l => Ok l
  | JObj d => Ok (map (fun kv => JStr (fst kv)) d)
  | JStr s => Ok (map JStr (chars s))
  | _ => Raise (TypeError v)
  end.

(** [v] where a [str] is required. *)
Definition as_str (v : json) : result string :=
  match v with
  | JStr s => Ok s
  | _ => Raise (TypeError v)
  end.

(** ['%d' % v] *)
Definition format_d (v : json) : result string :=
  match v with
  | JInt n => Ok (decimal n)
  | JBool b => Ok (if b then "1" else "0")
  | _ => Raise (TypeError v)
  end.

Section Runtime.
Context {RT : PyRuntime}.

(** [repr(v)] *)
Fixpoint py_repr (v : json) : string :=
  match v with
  | JNull => "None"
  | JBool b => if b then "True" else "False"
  | JInt n => decimal n
  | JStr s => repr_str s
  | JArr l => "[" ++ join ", " (map py_repr l) ++ "]"
  | JObj d =>
      "{" ++ join ", "
        (map (fun kv => repr_str (fst kv) ++ ": " ++ py_repr (snd kv)) d)
      ++ "}"
  end.

(** [str(v)], which is what ['%s' % v] prints. *)
Definition py_str (v : json) : string :=
  match v with
  | JStr s => s
  | _ => py_repr v
  end.

(** ** Responses and the error translator *)

Record response : Type := {
  status_code : Z;
  text : string
}.

Definition newline : string := String (ascii_of_nat 10) EmptyString.

(** The [try] block of [failed_request_exception], once the body is
    decoded. *)
Definition structured_error (message : string) (resp : json)
  : result exn :=
  let? error := getitem resp "error" in
  let? code := getitem error "code" in
  let? error' := getitem resp "error" in
  let? msg := getitem error' "message" in
  let? code_text := format_d code in
  let message := message ++ ": " ++ code_text ++ " " ++ py_str msg in
  let? error := getitem resp "error" in
  let? has_details := contains "details" error in
  if has_details then
    let? error := getitem resp "error" in
    let? details := getitem error "details" in
    let? ds := iterate details in
    let? items := rmap (fun d => getitem d "detail") ds in
    let? strs := rmap as_str items in
    let details := join newline strs in
    Ok (ClickException (message ++ " " ++ details))
  else Ok (ClickException message).

(** The [except ValueError] block. *)
Definition raw_error (message : string) (r : response) : exn :=
  ClickException
    (message ++ ": " ++ decimal (status_code r) ++ newline ++ text r).

Definition failed_request_exception (message : string) (r : response)
  : result exn :=
  match loads (text r) with
  | Some resp => structured_error message resp
  | None => Ok (raw_error message r)
  end.

End Runtime.

(** ** The outside world *)

Inductive method : Type := GET | PUT | POST | DELETE.

Record request : Type := {
  req_method : method;
  req_url : string;
  req_data : option string
}.

Class Environment : Type := {
  (** The registry behind the authorized session: every request is
      answered (failures of the transport itself are outside the
      model). *)
  server : Type;
  serve : server -> request -> response * server;
  (** [open(path, 'r')] and reading it whole: [None] when it raises. *)
  read_file : string -> option string;
  (** [Credentials(token=None, **d)] followed by [refresh]: the
      [client_id] of the credentials, [None] when either raises. *)
  authorize : json -> option json
}.

(** What reaches the terminal: [click.echo] writes to standard output, the
    logging handler installed by [logging.basicConfig] to standard error. *)
Inductive output : Type :=
| Stdout (line : string)
| Stderr (line : string).

Inductive loglevel : Type := DEBUG | INFO | WARNING.

Definition level_no (l : loglevel) : Z :=
  match l with DEBUG => 10 | INFO => 20 | WARNING => 30 end.

Section Commands.
Context {RT : PyRuntime} {ENV : Environment}.

Record world : Type := {
  srv : server;
  sent : list request;
  out : list output;
  opened : list string;
  level : loglevel
}.

Definition M (A : Type) : Type := world -> result A * world.

Definition ret {A} (a : A) : M A := fun w => (Ok a, w).

Definition raise {A} (e : exn) : M A := fun w => (Raise e, w).

Definition bind {A B} (m : M A) (k : A -> M B) : M B :=
  fun w =>
    match m w with
    | (Ok a, w') => k a w'
    | (Raise e, w') => (Raise e, w')
    end.

Definition lift {A} (r : result A) : M A := fun w => (r, w).

(** [raise f(...)] where building the exception may itself raise. *)
Definition raise_from {A} (r : result exn) : M A :=
  fun w =>
    match r with
    | Ok e => (Raise e, w)
    | Raise e => (Raise e, w)
    end.

(** [try: body except Exception as e: handler(e)] *)
Definition try_except {A} (body : M A) (handler : exn -> M A) : M A :=
  fun w =>
    match body w with
    | (Ok a, w') => (Ok a, w')
    | (Raise e, w') => handler e w'
    end.

Declare Scope io_scope.
Delimit Scope io_scope with io.
Notation "x <- m ;; k" := (bind m (fun x => k))
  (at level 61, m at next level, right associativity) : io_scope.
Notation "m ;; k" := (bind m (fun _ => k))
  (at level 61, right associativity) : io_scope.
Open Scope io_scope.

Fixpoint for_each {A} (l : list A) (body : A -> M unit) : M unit :=
  match l with
  | [] => ret tt
  | a :: l' => body a ;; for_each l' body
  end.

(** The world after more output, one more request, one more file opened,
    and with another logging level. *)
Definition add_out (new : list output) (w : world) : world :=
  {| srv := srv w; sent := sent w; out := out w ++ new;
     opened := opened w; level := level w |}.

Definition add_sent (q : request) (s : server) (w : world) : world :=
  {| srv := s; sent := sent w ++ [q]; out := out w;
     opened := opened w; level := level w |}.

Definition add_opened (path : string) (w : world) : world :=
  {| srv := srv w; sent := sent w; out := out w;
     opened := opened w ++ [path]; level := level w |}.

Definition set_level (l : loglevel) (w : world) : world :=
  {| srv := srv w; sent := sent w; out := out w;
     opened := opened w; level := l |}.

Definition emit (o : output) : M unit :=
  fun w => (Ok tt, add_out [o] w).

(** [click.echo(msg)] *)
Definition echo (msg : string) : M unit := emit (Stdout msg).

Definition log (l : loglevel) (msg : string) : M unit :=
  fun w =>
    if level_no (level w) <=? level_no l then emit (Stderr msg) w
    else (Ok tt, w).

(** [logging.info(msg)] *)
Definition logging_info (msg : string) : M unit := log INFO msg.

(** [logging.debug(msg)] *)
Definition logging_debug (msg : string) : M unit := log DEBUG msg.

(** [logging.basicConfig(format='', level=l)] *)
Definition logging_basicConfig (l : loglevel) : M unit :=
  fun w => (Ok tt, set_level l w).

(** One round trip of the session. *)
Definition send (q : request) : M response :=
  fun w =>
    let (r, s) := serve (srv w) q in
    (Ok r, add_sent q s w).

Definition get_request (url : string) : request :=
  {| req_method := GET; req_url := url; req_data := None |}.

Definition put_request (url data : string) : request :=
  {| req_method := PUT; req_url := url; req_data := Some data |}.

Definition post_request (url data : string) : request :=
  {| req_method := POST; req_url := url; req_data := Some data |}.

Definition delete_request (url : string) : request :=
  {| req_method := DELETE; req_url := url; req_data := None |}.

(** [session.get(url)] *)
Definition session_get (url : string) : M response :=
  send (get_request url).

(** [session.put(url, data=data)] *)
Definition session_put (url data : string) : M response :=
  send (put_request url data).

(** [session.post(url, data=data)] *)
Definition session_post (url data : string) : M response :=
  send (post_request url data).

(** [session.delete(url)] *)
Definition session_delete (url : string) : M response :=
  send (delete_request url).

(** [with open(path, 'r') as f] *)
Definition open_file (path : string) : M string :=
  fun w =>
    match read_file path with
    | Some content => (Ok content, add_opened path w)
    | None => (Raise (OSError path), add_opened path w)
    end.

(** [json.loads(s)] as a statement that may raise. *)
Definition json_loads (s : string) : result json :=
  match loads s with
  | Some v => Ok v
  | None => Raise (ValueError s)
  end.

(** ** The response formatter *)

Definition PRETTY_PRINT_MODEL (id project type : string) : string :=
  "Device Model Id: " ++ id ++ newline ++
  "        Project Id: " ++ project ++ newline ++
  "        Device Type: " ++ type.

Definition pretty_print_model (devicemodel : json) : M unit :=
  id <- lift (getitem devicemodel "deviceModelId") ;;
  project <- lift (getitem devicemodel "projectId") ;;
  type <- lift (getitem devicemodel "deviceType") ;;
  logging_info (PRETTY_PRINT_MODEL (py_str id) (py_str project) (py_str type)) ;;
  traits <- lift (getitem devicemodel "traits") ;;
  items <- lift (iterate traits) ;;
  for_each items (fun trait => logging_info ("        Trait " ++ py_str trait)) ;;
  logging_info "".

Definition pretty_print_device (device : json) : M unit :=
  id <- lift (getitem device "id") ;;
  logging_info ("Device Instance Id: " ++ py_str id) ;;
  has_nickname <- lift (contains "nickname" device) ;;
  (if has_nickname then
     nickname <- lift (getitem device "nickname") ;;
     logging_info ("    Nickname: " ++ py_str nickname)
   else ret tt) ;;
  has_model <- lift (contains "modelId" device) ;;
  (if has_model then
     model <- lift (getitem device "modelId") ;;
     logging_info ("    Model: " ++ py_str model)
   else ret tt) ;;
  logging_info "".

(** ** The group callback: credentials and project resolution *)

Record context : Type := {
  API_URL : string;
  PROJECT_ID : json
}.

Definition credentials_error (e : exn) : exn :=
  ClickException
    ("Error loading credentials: " ++ exc_str e ++ "." ++ newline ++
     "Run google-oauthlib-tool to initialize new OAuth 2.0 credentials.").

Definition client_secret_error (e : exn) (client_secret : string) : exn :=
  ClickException
    ("Error loading client secret: " ++ exc_str e ++ "." ++ newline ++
     "Run the register tool with --client-secret or --project option." ++
     newline ++
     "Or copy the " ++ client_secret ++ " file in the current directory.").

Definition cli (project client_secret : option string) (verbose : bool)
    (api_endpoint credentials : string) : M context :=
  client_id <-
    try_except
      (content <- open_file credentials ;;
       fields <- lift (json_loads content) ;;
       match authorize fields with
       | Some client_id => ret client_id
       | None => raise (AuthError fields)
       end)
      (fun e => raise (credentials_error e)) ;;
  project <-
    match project with
    | Some p => ret (JStr p)
    | None =>
        let client_secret :=
          match client_secret with
          | Some path => path
          | None => "client_secret_" ++ py_str client_id ++ ".json"
          end in
        try_except
          (content <- open_file client_secret ;;
           secret <- lift (json_loads content) ;;
           installed <- lift (getitem secret "installed") ;;
           lift (getitem installed "project_id"))
          (fun e => raise (client_secret_error e client_secret))
    end ;;
  logging_basicConfig (if verbose then DEBUG else INFO) ;;
  ret {| API_URL := "https://" ++ api_endpoint ++ "/v1alpha2/projects/"
                     ++ py_str project;
         PROJECT_ID := project |}.

(** ** The commands *)

(** The choices of [--type]. *)
Inductive device_type : Type := LIGHT | SWITCH | OUTLET.

Definition type_name (t : device_type) : string :=
  match t with
  | LIGHT => "LIGHT"
  | SWITCH => "SWITCH"
  | OUTLET => "OUTLET"
  end.

(** Truth value of a [str]. *)
Definition nonempty (s : string) : bool := negb (String.eqb s "").

(** Truth value of an option that is [None] or a [str]. *)
Definition given (o : option string) : bool :=
  match o with
  | Some s => nonempty s
  | None => false
  end.

(** [d.setdefault(k, v)]: the value under [k] and the dict afterwards. *)
Definition setdefault (k : string) (v : json) (d : dict) : json * dict :=
  match dict_get k d with
  | Some x => (x, d)
  | None => (v, dict_set k v d)
  end.

(** [payload.setdefault('manifest', {})[key] = value].  The assignment
    changes the dict that [payload] holds under ['manifest'], so the
    changed dict is stored back. *)
Definition manifest_set (key : string) (value : json) (payload : dict)
  : dict :=
  let (manifest, payload) := setdefault "manifest" (JObj []) payload in
  match manifest with
  | JObj fields =>
      dict_set "manifest" (JObj (dict_set key value fields)) payload
  | _ => payload
  end.

(** The payload [register_model] builds before its first request. *)
Definition register_model_payload (ctx : context) (model : string)
    (type : device_type) (trait : list string)
    (manufacturer product_name : string) (description : option string)
  : dict :=
  let payload :=
    [("device_model_id", JStr model);
     ("project_id", PROJECT_ID ctx);
     ("device_type", JStr ("action.devices.types." ++ type_name type))] in
  let payload :=
    match trait with
    | [] => payload
    | _ :: _ => dict_set "traits" (JArr (map JStr trait)) payload
    end in
  let payload :=
    if nonempty manufacturer
    then manifest_set "manufacturer" (JStr manufacturer) payload
    else payload in
  let payload :=
    if nonempty product_name
    then manifest_set "productName" (JStr product_name) payload
    else payload in
  match description with
  | Some d =>
      if nonempty d
      then manifest_set "deviceDescription" (JStr d) payload
      else payload
  | None => payload
  end.

Definition model_base_url (ctx : context) : string :=
  join "/" [API_URL ctx; "deviceModels"].

Definition model_url (ctx : context) (model : string) : string :=
  join "/" [model_base_url ctx; model].

Definition register_model (ctx : context) (model : string)
    (type : device_type) (trait : list string)
    (manufacturer product_name : string) (description : option string)
  : M unit :=
  let model_base_url := model_base_url ctx in
  let model_url := model_url ctx model in
  let payload :=
    register_model_payload ctx model type trait manufacturer product_name
      description in
  logging_debug (dumps (JObj payload)) ;;
  r <- session_get model_url ;;
  logging_debug (text r) ;;
  r <- (if status_code r =? 200 then
          echo ("Updating existing device model: " ++ model) ;;
          session_put model_url (dumps (JObj payload))
        else if (status_code r =? 400) || (status_code r =? 404) then
          echo "Creating new device model" ;;
          session_post model_base_url (dumps (JObj payload))
        else
          raise_from (failed_request_exception "Unknown error occurred" r)) ;;
  if negb (status_code r =? 200) then
    raise_from (failed_request_exception "Failed to register model" r)
  else
    echo ("Model " ++ model ++ " successfully registered").

(** The payload [register_device] builds before its first request. *)
Definition register_device_payload (device model : string)
    (nickname : option string) : dict :=
  let payload := [("id", JStr device); ("model_id", JStr model)] in
  match nickname with
  | Some n =>
      if nonempty n then dict_set "nickname" (JStr n) payload else payload
  | None => payload
  end.

Definition device_base_url (ctx : context) : string :=
  join "/" [API_URL ctx; "devices"].

Definition device_url (ctx : context) (device : string) : string :=
  join "/" [device_base_url ctx; device].

Definition register_device (ctx : context) (device model : string)
    (nickname : option string) : M unit :=
  let device_base_url := device_base_url ctx in
  let device_url := device_url ctx device in
  let payload := register_device_payload device model nickname in
  logging_debug (dumps (JObj payload)) ;;
  r <- session_get device_url ;;
  r <- (if status_code r =? 200 then
          echo ("Updating existing device: " ++ device) ;;
          session_delete device_url ;;
          session_post device_base_url (dumps (JObj payload))
        else if (status_code r =? 400) || (status_code r =? 404) then
          echo "Creating new device" ;;
          session_post device_base_url (dumps (JObj payload))
        else
          raise_from
            (failed_request_exception "Failed to check existing device" r)) ;;
  if negb (status_code r =? 200) then
    raise_from (failed_request_exception "Failed to register device" r)
  else
    echo ("Device instance " ++ device ++ " successfully registered") ;;
    logging_debug (text r).

Definition register (ctx : context) (model : string) (type : device_type)
    (trait : list string) (manufacturer product_name : string)
    (description : option string) (device : string)
    (nickname : option string) : M unit :=
  register_model ctx model type trait manufacturer product_name description ;;
  register_device ctx device model nickname.

Definition get (ctx : context) (resource id : string) : M unit :=
  let url := join "/" [API_URL ctx; resource; id] in
  r <- session_get url ;;
  if negb (status_code r =? 200) then
    raise_from (failed_request_exception "Failed to get resource" r)
  else
    response <- lift (json_loads (text r)) ;;
    (if String.eqb resource "deviceModels" then pretty_print_model response
     else if String.eqb resource "devices" then pretty_print_device response
     else ret tt) ;;
    logging_debug (text r).

(** The [list] command. *)
Definition list_resources (ctx : context) (resource : string) : M unit :=
  let url := join "/" [API_URL ctx; resource] in
  r <- session_get url ;;
  if negb (status_code r =? 200) then
    raise_from (failed_request_exception "Failed to list resources" r)
  else
    response <- lift (json_loads (text r)) ;;
    logging_debug (text r) ;;
    if String.eqb resource "deviceModels" then
      models <- lift (getitem response "deviceModels") ;;
      items <- lift (iterate models) ;;
      for_each items pretty_print_model
    else if String.eqb resource "devices" then
      devices <- lift (getitem response "devices") ;;
      items <- lift (iterate devices) ;;
      for_each items pretty_print_device
    else ret tt.

End Commands.

(** ** A reference runtime

    An executable implementation of [PyRuntime] on which the commands can
    be run: a decoder for JSON documents whose numbers are integers and
    whose strings use the one-letter escapes, the matching encoder, and
    [repr] for strings of printable characters. *)

Module Reference.

Definition quote : ascii := ascii_of_nat 34.
Definition backslash : ascii := ascii_of_nat 92.
Definition apostrophe : ascii := ascii_of_nat 39.

(** The text [s] between double quotes. *)
Definition quoted (s : string) : string :=
  String quote s ++ String quote EmptyString.

Definition is_space (c : ascii) : bool :=
  let n := nat_of_ascii c in
  Nat.eqb n 32 || Nat.eqb n 9 || Nat.eqb n 10 || Nat.eqb n 13.

Definition digit_of (c : ascii) : option Z :=
  let n := Z.of_nat (nat_of_ascii c) in
  if (48 <=? n) && (n <=? 57) then Some (n - 48) else None.

Fixpoint skip_space (cs : list ascii) : list ascii :=
  match cs with
  | c :: cs' => if is_space c then skip_space cs' else cs
  | [] => []
  end.

Local Open Scope char_scope.

(** The characters of a string literal after its opening quote. *)
Fixpoint scan_string (cs : list ascii) (acc : list ascii)
  : option (string * list ascii) :=
  match cs with
  | [] => None
  | c :: cs' =>
      if Ascii.eqb c quote then
        Some (string_of_list_ascii (rev acc), cs')
      else if Ascii.eqb c backslash then
        match cs' with
        | e :: cs'' =>
            let unescaped :=
              if Ascii.eqb e quote then Some quote
              else if Ascii.eqb e backslash then Some backslash
              else if Ascii.eqb e "/" then Some "/"%char
              else if Ascii.eqb e "n" then Some (ascii_of_nat 10)
              else if Ascii.eqb e "r" then Some (ascii_of_nat 13)
              else if Ascii.eqb e "t" then Some (ascii_of_nat 9)
              else if Ascii.eqb e "b" then Some (ascii_of_nat 8)
              else if Ascii.eqb e "f" then Some (ascii_of_nat 12)
              else None in
            match unescaped with
            | Some u => scan_string cs'' (u :: acc)
            | None => None
            end
        | [] => None
        end
      else if Nat.ltb (nat_of_ascii c) 32 then None
      else scan_string cs' (c :: acc)
  end.

Fixpoint scan_digits (cs : list ascii) (acc : Z) : Z * list ascii :=
  match cs with
  | c :: cs' =>
      match digit_of c with
      | Some d => scan_digits cs' (10 * acc + d)
      | None => (acc, cs)
      end
  | [] => (acc, [])
  end.

(** An integer literal without sign: no leading zero, no fraction, no
    exponent. *)
Definition scan_natural (cs : list ascii) : option (Z * list ascii) :=
  match cs with
  | c :: cs' =>
      match digit_of c with
      | Some d =>
          let (n, rest) :=
            if Z.eqb d 0 then (0, cs') else scan_digits cs' d in
          match rest with
          | c' :: _ =>
              if Ascii.eqb c' "." || Ascii.eqb c' "e" || Ascii.eqb c' "E"
                 || match digit_of c' with Some _ => true | None => false end
              then None else Some (n, rest)
          | [] => Some (n, rest)
          end
      | None => None
      end
  | [] => None
  end.

Fixpoint parse_value (fuel : nat) (cs : list ascii)
  : option (json * list ascii) :=
  match fuel with
  | O => None
  | S fuel =>
      match skip_space cs with
      | "n" :: "u" :: "l" :: "l" :: rest => Some (JNull, rest)
      | "t" :: "r" :: "u" :: "e" :: rest => Some (JBool true, rest)
      | "f" :: "a" :: "l" :: "s" :: "e" :: rest => Some (JBool false, rest)
      | "-" :: rest =>
          match scan_natural rest with
          | Some (n, rest') => Some (JInt (- n), rest')
          | None => None
          end
      | "[" :: rest =>
          match skip_space rest with
          | "]" :: rest' => Some (JArr [], rest')
          | _ =>
              match parse_items fuel rest with
              | Some (l, rest') => Some (JArr l, rest')
              | None => None
              end
          end
      | "{" :: rest =>
          match skip_space rest with
          | "}" :: rest' => Some (JObj [], rest')
          | _ =>
              match parse_members fuel rest [] with
              | Some (d, rest') => Some (JObj d, rest')
              | None => None
              end
          end
      | c :: rest =>
          if Ascii.eqb c quote then
            match scan_string rest [] with
            | Some (s, rest') => Some (JStr s, rest')
            | None => None
            end
          else
            match scan_natural (c :: rest) with
            | Some (n, rest') => Some (JInt n, rest')
            | None => None
            end
      | [] => None
      end
  end

with parse_items (fuel : nat) (cs : list ascii)
  : option (list json * list ascii) :=
  match fuel with
  | O => None
  | S fuel =>
      match parse_value fuel cs with
      | Some (v, rest) =>
          match skip_space rest with
          | "," :: rest' =>
              match parse_items fuel rest' with
              | Some (l, rest'') => Some (v :: l, rest'')
              | None => None
              end
          | "]" :: rest' => Some ([v], rest')
          | _ => None
          end
      | None => None
      end
  end

with parse_members (fuel : nat) (cs : list ascii) (acc : dict)
  : option (dict * list ascii) :=
  match fuel with
  | O => None
  | S fuel =>
      match skip_space cs with
      | c :: rest =>
          if Ascii.eqb c quote then
            match scan_string rest [] with
            | Some (k, rest1) =>
                match skip_space rest1 with
                | ":" :: rest2 =>
                    match parse_value fuel rest2 with
                    | Some (v, rest3) =>
                        let acc := dict_set k v acc in
                        match skip_space rest3 with
                        | "," :: rest4 => parse_members fuel rest4 acc
                        | "}" :: rest4 => Some (acc, rest4)
                        | _ => None
                        end
                    | None => None
                    end
                | _ => None
                end
            | None => None
            end
          else None
      | [] => None
      end
  end.

Definition decode (s : string) : option json :=
  let cs := list_ascii_of_string s in
  match parse_value (2 * List.length cs + 2) cs with
  | Some (v, rest) =>
      match skip_space rest with
      | [] => Some v
      | _ :: _ => None
      end
  | None => None
  end.

Local Close Scope char_scope.

(** The body of a string literal: quote, backslash and the usual control
    characters escaped. *)
Fixpoint escape (q : ascii) (s : string) : string :=
  match s with
  | EmptyString => EmptyString
  | String c s' =>
      let n := nat_of_ascii c in
      if Ascii.eqb c q || Ascii.eqb c backslash then
        String backslash (String c (escape q s'))
      else if Nat.eqb n 10 then String backslash (String "n"%char (escape q s'))
      else if Nat.eqb n 13 then String backslash (String "r"%char (escape q s'))
      else if Nat.eqb n 9 then String backslash (String "t"%char (escape q s'))
      else String c (escape q s')
  end.

Fixpoint encode (v : json) : string :=
  match v with
  | JNull => "null"
  | JBool b => if b then "true" else "false"
  | JInt n => decimal n
  | JStr s => quoted (escape quote s)
  | JArr l => "[" ++ join ", " (map encode l) ++ "]"
  | JObj d =>
      "{" ++ join ", "
        (map (fun kv => quoted (escape quote (fst kv)) ++ ": "
                        ++ encode (snd kv)) d)
      ++ "}"
  end.

Definition has_char (c : ascii) (s : string) : bool :=
  existsb (Ascii.eqb c) (list_ascii_of_string s).

(** [repr]: apostrophes around the text, double quotes when the text has
    an apostrophe and no double quote. *)
Definition repr (s : string) : string :=
  if has_char apostrophe s && negb (has_char quote s) then
    quoted (escape quote s)
  else
    String apostrophe (escape apostrophe s)
      ++ String apostrophe EmptyString.

Definition describe (e : exn) : string :=
  match e with
  | ClickException m => m
  | KeyError k => repr k
  | TypeError _ => "unsupported operand type"
  | ValueError _ => "Expecting value"
  | OSError p => "[Errno 2] No such file or directory: " ++ repr p
  | AuthError _ => "invalid_grant"
  end.

#[export] Instance runtime : PyRuntime := {
  loads := decode;
  dumps := encode;
  repr_str := repr;
  exc_str := describe
}.

End Reference.

(** ** Reference environments *)

(** A server that answers from a script, whatever the request; past the
    end of the script it answers 404 with an empty body. *)
Definition scripted (files : list (string * string))
    (client_id : option json) : Environment := {|
  server := list response;
  serve := fun s _ =>
    match s with
    | r :: s' => (r, s')
    | [] => ({| status_code := 404; text := "" |}, [])
    end;
  read_file := fun path =>
    match find (fun f => String.eqb path (fst f)) files with
    | Some f => Some (snd f)
    | None => None
    end;
  authorize := fun _ => client_id
|}.

(** ** What the terminal shows *)

(** Every record is written followed by a newline. *)
Definition line_of (o : output) : string :=
  match o with
  | Stdout l => l
  | Stderr l => l
  end.

Definition printed (os : list output) : string :=
  String.concat "" (map (fun o => line_of o ++ newline) os).

(** The lines of a text, each ended by a newline. *)
Fixpoint lines_from (s : string) (current : string) : list string :=
  match s with
  | EmptyString =>
      match current with
      | EmptyString => []
      | _ => [current]
      end
  | String c s' =>
      if Ascii.eqb c (ascii_of_nat 10) then current :: lines_from s' ""
      else lines_from s' (current ++ String c EmptyString)
  end.

Definition lines (s : string) : list string := lines_from s "".

(** ** A reference registry

    A small server with the behaviour the commands rely on: resources are
    kept by id, GET of a stored resource answers 200 and of a missing one
    404, PUT replaces, DELETE removes, POST to a collection stores a new
    resource, and a device is accepted only when its model is stored
    (the specification's invariant, enforced by the server). *)

Record registry : Type := {
  models : list (string * string);
  devices : list (string * string)
}.

Fixpoint strip_prefix (p s : string) : option string :=
  match p, s with
  | EmptyString, _ => Some s
  | String a p', String b s' =>
      if Ascii.eqb a b then strip_prefix p' s' else None
  | String _ _, EmptyString => None
  end.

Fixpoint lookup (k : string) (l : list (string * string)) : option string :=
  match l with
  | [] => None
  | (k', v) :: l' => if String.eqb k k' then Some v else lookup k l'
  end.

Definition remove (k : string) (l : list (string * string))
  : list (string * string) :=
  filter (fun kv => negb (String.eqb k (fst kv))) l.

Definition error_body (code : Z) (message : string) : string :=
  "{" ++ Reference.quoted "error" ++ ":{" ++ Reference.quoted "code" ++ ":"
  ++ decimal code ++ "," ++ Reference.quoted "message" ++ ":"
  ++ Reference.quoted message ++ "}}".

Definition answer (code : Z) (body : string) : response :=
  {| status_code := code; text := body |}.

Definition refuse (code : Z) (message : string) : response :=
  answer code (error_body code message).

(** A request for the resource [id] of a collection. *)
Definition on_resource (m : method) (id : string) (data : option string)
    (l : list (string * string)) : response * list (string * string) :=
  match lookup id l with
  | None => (refuse 404 "not found", l)
  | Some doc =>
      match m, data with
      | GET, _ => (answer 200 doc, l)
      | DELETE, _ => (answer 200 "{}", remove id l)
      | PUT, Some d => (answer 200 d, (id, d) :: remove id l)
      | _, _ => (refuse 400 "bad request", l)
      end
  end.

(** POST of the document [data] to a collection whose resources are
    named by the field [key]; [accept] is the server's check of the
    document. *)
Definition on_create (key : string) (accept : json -> bool)
    (data : option string) (l : list (string * string))
  : response * list (string * string) :=
  match data with
  | None => (refuse 400 "bad request", l)
  | Some d =>
      match Reference.decode d with
      | Some doc =>
          match getitem doc key with
          | Ok (JStr id) =>
              if negb (accept doc) then (refuse 400 "unknown model", l)
              else
                match lookup id l with
                | Some _ => (refuse 409 "already exists", l)
                | None => (answer 200 d, (l ++ [(id, d)])%list)
                end
          | _ => (refuse 400 "bad request", l)
          end
      | None => (refuse 400 "bad request", l)
      end
  end.

Definition listing (name : string) (l : list (string * string)) : string :=
  "{" ++ Reference.quoted name ++ ": [" ++ join ", " (map snd l) ++ "]}".

Definition has_model (reg : registry) (doc : json) : bool :=
  match getitem doc "model_id" with
  | Ok (JStr m) =>
      match lookup m (models reg) with Some _ => true | None => false end
  | _ => false
  end.

Definition registry_serve (api : string) (reg : registry) (q : request)
  : response * registry :=
  match strip_prefix (api ++ "/deviceModels") (req_url q) with
  | Some EmptyString =>
      match req_method q with
      | GET => (answer 200 (listing "deviceModels" (models reg)), reg)
      | POST =>
          let (r, l) :=
            on_create "device_model_id" (fun _ => true) (req_data q)
              (models reg) in
          (r, {| models := l; devices := devices reg |})
      | _ => (refuse 400 "bad request", reg)
      end
  | Some (String _ id) =>
      let (r, l) :=
        on_resource (req_method q) id (req_data q) (models reg) in
      (r, {| models := l; devices := devices reg |})
  | None =>
      match strip_prefix (api ++ "/devices") (req_url q) with
      | Some EmptyString =>
          match req_method q with
          | GET => (answer 200 (listing "devices" (devices reg)), reg)
          | POST =>
              let (r, l) :=
                on_create "id" (has_model reg) (req_data q) (devices reg) in
              (r, {| models := models reg; devices := l |})
          | _ => (refuse 400 "bad request", reg)
          end
      | Some (String _ id) =>
          let (r, l) :=
            on_resource (req_method q) id (req_data q) (devices reg) in
          (r, {| models := models reg; devices := l |})
      | None => (refuse 404 "not found", reg)
      end
  end.

Definition registry_at (api : string) : Environment := {|
  server := registry;
  serve := registry_serve api;
  read_file := fun _ => None;
  authorize := fun _ => None
|}.

(** ** Example data *)

(** The world when the process starts: nothing sent, printed or opened,
    and the root logger at its default level. *)
Definition start {ENV : Environment} (s : server) : world :=
  {| srv := s; sent := []; out := []; opened := []; level := WARNING |}.

(** A context as [cli] leaves it for project [p] on the default host. *)
Definition example_context : context :=
  {| API_URL :=
       "https://embeddedassistant.googleapis.com/v1alpha2/projects/p";
     PROJECT_ID := JStr "p" |}.

(** A machine with a credentials file and the client-secret file of the
    client [abc], whose project is [p]. *)
Definition example_files : list (string * string) :=
  [("credentials.json", "{}");
   ("client_secret_abc.json",
    "{" ++ Reference.quoted "installed" ++ ":{"
    ++ Reference.quoted "project_id" ++ ":" ++ Reference.quoted "p"
    ++ "}}")].

(** The structured error body of the specification's example:
    an [error] object with [code] 404 and [message] [not found]. *)
Definition body_not_found : string :=
  "{" ++ Reference.quoted "error" ++ ":{" ++ Reference.quoted "code"
  ++ ":404," ++ Reference.quoted "message" ++ ":"
  ++ Reference.quoted "not found" ++ "}}".

(** A structured error body: code 500, message [boom]. *)
Definition body_boom : string :=
  "{" ++ Reference.quoted "error" ++ ":{" ++ Reference.quoted "code"
  ++ ":500," ++ Reference.quoted "message" ++ ":"
  ++ Reference.quoted "boom" ++ "}}".

(** The registry of project [p] with the model [m1] and the device [d1]
    of that model. *)
Definition example_registry : Environment :=
  registry_at (API_URL example_context).

Definition example_stock : registry :=
  {| models :=
       [("m1", Reference.encode
                 (JObj (register_model_payload example_context "m1" LIGHT
                          [] "maker" "lamp" None)))];
     devices :=
       [("d1", Reference.encode
                 (JObj (register_device_payload "d1" "m1" None)))] |}.

(** The model [foo] and a list of two devices, as the registry answers. *)
Definition body_model : string :=
  "{" ++ Reference.quoted "deviceModelId" ++ ":" ++ Reference.quoted "foo"
  ++ "," ++ Reference.quoted "projectId" ++ ":" ++ Reference.quoted "p"
  ++ "," ++ Reference.quoted "deviceType" ++ ":" ++ Reference.quoted "t"
  ++ "," ++ Reference.quoted "traits" ++ ":[" ++ Reference.quoted "a"
  ++ "," ++ Reference.quoted "b" ++ "]}".

(** A model object without the [traits] field. *)
Definition body_model_no_traits : string :=
  "{" ++ Reference.quoted "deviceModelId" ++ ":" ++ Reference.quoted "foo"
  ++ "," ++ Reference.quoted "projectId" ++ ":" ++ Reference.quoted "p"
  ++ "," ++ Reference.quoted "deviceType" ++ ":" ++ Reference.quoted "t"
  ++ "}".

Definition body_devices : string :=
  "{" ++ Reference.quoted "devices" ++ ":[{" ++ Reference.quoted "id"
  ++ ":" ++ Reference.quoted "d1" ++ "},{" ++ Reference.quoted "id" ++ ":"
  ++ Reference.quoted "d2" ++ "," ++ Reference.quoted "nickname" ++ ":"
  ++ Reference.quoted "n" ++ "}]}".

(** ** Vocabulary of the statements *)

(** Well-formed [error.details]: objects whose [detail] is a string. *)
Definition detail_of (d : json) (s : string) : Prop :=
  exists o, d = JObj o /\ dict_get "detail" o = Some (JStr s).

(** Characters of a number as [%d] prints it. *)
Definition numeric (c : ascii) : bool :=
  let n := nat_of_ascii c in
  (Nat.leb 48 n && Nat.leb n 57) || Nat.eqb n 45.

Fixpoint all_numeric (s : string) : bool :=
  match s with
  | EmptyString => true
  | String c s' => numeric c && all_numeric s'
  end.

(** The exception [raise f(...)] ends with, whether [f] returned it or
    raised it. *)
Definition raised (r : result exn) : exn :=
  match r with
  | Ok e => e
  | Raise e => e
  end.

(** The field [key] of the payload's manifest. *)
Definition manifest_field (key : string) (payload : dict) : option json :=
  match dict_get "manifest" payload with
  | Some (JObj m) => dict_get key m
  | _ => None
  end.

(** Requests of the model upsert and of the device upsert. *)
Definition to_model (ctx : context) (model : string) (q : request) : Prop :=
  req_url q = model_url ctx model \/ req_url q = model_base_url ctx.

Definition to_device (ctx : context) (device : string) (q : request)
  : Prop :=
  req_url q = device_url ctx device \/ req_url q = device_base_url ctx.

Section Vocabulary.
Context {RT : PyRuntime} {ENV : Environment}.

(** What [pretty_print_model] prints for a model object with its four
    fields: the three-line header, a line per trait, an empty line. *)
Definition model_block (id project type : json) (traits : list json)
  : list output :=
  (Stderr (PRETTY_PRINT_MODEL (py_str id) (py_str project) (py_str type))
   :: map (fun trait => Stderr ("        Trait " ++ py_str trait)) traits)
  ++ [Stderr ""].

(** What [pretty_print_device] prints for a device object: its id, the
    nickname and the model when it has them, an empty line. *)
Definition device_block (d : dict) (id : json) : list output :=
  [Stderr ("Device Instance Id: " ++ py_str id)]
  ++ match dict_get "nickname" d with
     | Some n => [Stderr ("    Nickname: " ++ py_str n)]
     | None => []
     end
  ++ match dict_get "modelId" d with
     | Some m => [Stderr ("    Model: " ++ py_str m)]
     | None => []
     end
  ++ [Stderr ""].

(** The world after a logging call. *)
Definition logged (l : loglevel) (msg : string) (w : world) : world :=
  snd (log l msg w).

(** What a logging call adds to the output. *)
Definition log_lines (l : loglevel) (msg : string) (w : world)
  : list output :=
  if level_no (level w) <=? level_no l then [Stderr msg] else [].

(** The body [register_model] sends. *)
Definition model_data ctx model type trait manufacturer product_name
    description : string :=
  dumps (JObj (register_model_payload ctx model type trait manufacturer
                 product_name description)).

(** The body [register_device] sends. *)
Definition device_data device model nickname : string :=
  dumps (JObj (register_device_payload device model nickname)).

Definition model_registered (model : string) : output :=
  Stdout ("Model " ++ model ++ " successfully registered").

Definition device_registered (device : string) : output :=
  Stdout ("Device instance " ++ device ++ " successfully registered").

(** The world when the answer to the first GET of [register_model] is
    in. *)
Definition model_checked ctx model type trait manufacturer product_name
    description (w : world) (r1 : response) (s1 : server) : world :=
  logged DEBUG (text r1)
    (add_sent (get_request (model_url ctx model)) s1
       (logged DEBUG
          (model_data ctx model type trait manufacturer product_name
             description) w)).

(** The outcome of [register_model] once the last request is answered by
    [r]. *)
Definition model_outcome (model : string) (r : response) (w : world)
  : result unit * world :=
  if status_code r =? 200 then (Ok tt, add_out [model_registered model] w)
  else
    (Raise (raised (failed_request_exception "Failed to register model" r)),
     w).

(** The world when the answer to the first GET of [register_device] is
    in. *)
Definition device_checked ctx device model nickname (w : world)
    (s1 : server) : world :=
  add_sent (get_request (device_url ctx device)) s1
    (logged DEBUG (device_data device model nickname) w).

(** The outcome of [register_device] once the last request is answered
    by [r]. *)
Definition device_outcome (device : string) (r : response) (w : world)
  : result unit * world :=
  if status_code r =? 200 then
    (Ok tt, logged DEBUG (text r) (add_out [device_registered device] w))
  else
    (Raise (raised (failed_request_exception "Failed to register device" r)),
     w).

(** The command ended well: it returned, and the confirmation is among
    what it printed. *)
Definition succeeded (confirmation : output) (w w' : world)
    (res : result unit) : Prop :=
  res = Ok tt /\
  exists before after,
    out w' = (out w ++ before ++ confirmation :: after)%list.

(** The command ended with the exception the error translator gives for
    [message] and [r]. *)
Definition failed_with (message : string) (r : response)
    (res : result unit) : Prop :=
  res = Raise (raised (failed_request_exception message r)).

(** How the answer [r] to the last request decides the outcome. *)
Definition concluded (confirmation : output) (message : string)
    (r : response) (w w' : world) (res : result unit) : Prop :=
  (status_code r = 200 -> succeeded confirmation w w' res) /\
  (status_code r <> 200 -> failed_with message r res).

(** The server answers a series of requests; [last] is the answer when
    the series is empty. *)
Fixpoint serve_all (s : server) (last : response) (qs : list request)
  : response * server :=
  match qs with
  | [] => (last, s)
  | q :: qs' => let (r, s') := serve s q in serve_all s' r qs'
  end.

(** The error translator's two formats for [message] and [r]: the status
    and the raw body when the body does not decode, the server's code and
    message when it is a structured error without details. *)
Definition formatted (message : string) (r : response) (e : exn) : Prop :=
  (loads (text r) = None ->
   e = ClickException
         (message ++ ": " ++ decimal (status_code r) ++ newline ++ text r))
  /\
  (forall fields err code smsg,
      loads (text r) = Some (JObj fields) ->
      dict_get "error" fields = Some (JObj err) ->
      dict_get "code" err = Some (JInt code) ->
      dict_get "message" err = Some (JStr smsg) ->
      dict_get "details" err = None ->
      e = ClickException (message ++ ": " ++ decimal code ++ " " ++ smsg)).

(** The shape the two upsert commands share.  [update] is what follows a
    GET answered 200; [check_message] and [failure_message] head the
    errors of the GET and of the last changing request. *)
Definition upsert (run : M unit) (url base data : string)
    (update : list request) (confirmation : output)
    (check_message failure_message : string) : Prop :=
  forall (w : world) r1 s1,
    serve (srv w) (get_request url) = (r1, s1) ->
    exists res w',
      run w = (res, w') /\
      (exists rest, sent w' = (sent w ++ get_request url :: rest)%list) /\
      (status_code r1 = 200 ->
       forall r s',
         serve_all s1 r1 update = (r, s') ->
         sent w' = (sent w ++ get_request url :: update)%list /\
         srv w' = s' /\
         concluded confirmation failure_message r w w' res) /\
      (status_code r1 = 400 \/ status_code r1 = 404 ->
       forall r s',
         serve s1 (post_request base data) = (r, s') ->
         sent w' =
           (sent w ++ [get_request url; post_request base data])%list /\
         srv w' = s' /\
         concluded confirmation failure_message r w w' res) /\
      (status_code r1 <> 200 ->
       status_code r1 <> 400 ->
       status_code r1 <> 404 ->
       sent w' = (sent w ++ [get_request url])%list /\
       srv w' = s1 /\
       failed_with check_message r1 res).

(** The client-secret file [cli] reads when no project is given. *)
Definition secret_path (client_secret : option string) (client_id : json)
  : string :=
  match client_secret with
  | Some path => path
  | None => "client_secret_" ++ py_str client_id ++ ".json"
  end.

(** The project id the file at [path] yields: the field [project_id] of
    the object [installed] of the decoded file. *)
Definition secret_project (path : string) : option json :=
  match read_file path with
  | Some content =>
      match loads content with
      | Some (JObj secret) =>
          match dict_get "installed" secret with
          | Some (JObj installed) => dict_get "project_id" installed
          | _ => None
          end
      | _ => None
      end
  | None => None
  end.

(** The context [cli] builds for a project id. *)
Definition context_of (api_endpoint : string) (project : json) : context :=
  {| API_URL := "https://" ++ api_endpoint ++ "/v1alpha2/projects/"
                 ++ py_str project;
     PROJECT_ID := project |}.

(** The second step of [cli] when no project is given. *)
Definition cli_secret (path : string) : M json :=
  try_except
    (bind (open_file path)
       (fun content =>
          bind (lift (json_loads content))
            (fun secret =>
               bind (lift (getitem secret "installed"))
                 (fun installed => lift (getitem installed "project_id")))))
    (fun e => raise (client_secret_error e path)).

End Vocabulary.

(** C1 as the specification words the unknown-status step: whatever the
    answer to the first GET, a status other than 200, 400 and 404 makes
    [register-model] raise an error whose message includes the response
    body. *)
Definition unknown_status_error_includes_body : Prop :=
  forall (RT : PyRuntime) (ENV : Environment) ctx model type trait
         manufacturer product_name description (w : world) r1 s1,
    serve (srv w) (get_request (model_url ctx model)) = (r1, s1) ->
    status_code r1 <> 200 ->
    status_code r1 <> 400 ->
    status_code r1 <> 404 ->
    exists message w',
      register_model ctx model type trait manufacturer product_name
        description w = (Raise (ClickException message), w') /\
      is_substring (text r1) message = true.

(** ** The entry point *)

(** A parsed command line: the subcommand and its options. *)
Inductive command : Type :=
| Register (model : string) (type : device_type) (trait : list string)
    (manufacturer product_name : string) (description : option string)
    (device : string) (nickname : option string)
| RegisterModel (model : string) (type : device_type) (trait : list string)
    (manufacturer product_name : string) (description : option string)
| RegisterDevice (device model : string) (nickname : option string)
| Get (resource id : string)
| List (resource : string).

Section EntryPoint.
Context {RT : PyRuntime} {ENV : Environment}.

(** The subcommand callback, run with the context the group callback
    filled. *)
Definition invoke (ctx : context) (c : command) : M unit :=
  match c with
  | Register model type trait manufacturer product_name description
      device nickname =>
      register ctx model type trait manufacturer product_name description
        device nickname
  | RegisterModel model type trait manufacturer product_name description =>
      register_model ctx model type trait manufacturer product_name
        description
  | RegisterDevice device model nickname =>
      register_device ctx device model nickname
  | Get resource id => get ctx resource id
  | List resource => list_resources ctx resource
  end.

(** [main]: [cli(obj={})] runs the group callback [cli] and then the
    subcommand. *)
Definition main (project client_secret : option string) (verbose : bool)
    (api_endpoint credentials : string) (c : command) : M unit :=
  bind (cli project client_secret verbose api_endpoint credentials)
    (fun ctx => invoke ctx c).

(** ** Vocabulary of further statements *)

(** A computation that sends nothing, prints nothing and leaves the
    server alone. *)
Definition quiet {A} (m : M A) : Prop :=
  forall w : world,
    sent (snd (m w)) = sent w /\
    srv (snd (m w)) = srv w /\
    out (snd (m w)) = out w.

(** A computation that sends nothing and leaves the server alone; it may
    print. *)
Definition silent {A} (m : M A) : Prop :=
  forall w : world,
    sent (snd (m w)) = sent w /\ srv (snd (m w)) = srv w.

(** The requests go to the API of [api_endpoint]. *)
Definition under_api (api_endpoint : string) (q : request) : Prop :=
  starts_with ("https://" ++ api_endpoint ++ "/v1alpha2/projects/")
    (req_url q) = true.

(** The request goes below the API URL of the context. *)
Definition below (ctx : context) (q : request) : Prop :=
  exists tail, req_url q = API_URL ctx ++ "/" ++ tail.

(** The block of a well-formed item of a device list. *)
Definition device_item (v : json) : option (list output) :=
  match v with
  | JObj d =>
      match dict_get "id" d with
      | Some id => Some (device_block d id)
      | None => None
      end
  | _ => None
  end.

(** The block of a well-formed item of a model list. *)
Definition model_item (v : json) : option (list output) :=
  match v with
  | JObj d =>
      match dict_get "deviceModelId" d, dict_get "projectId" d,
            dict_get "deviceType" d, dict_get "traits" d with
      | Some id, Some project, Some type, Some traits =>
          match iterate traits with
          | Ok items => Some (model_block id project type items)
          | Raise _ => None
          end
      | _, _, _, _ => None
      end
  | _ => None
  end.

(** The credentials cannot be loaded: the file does not open, does not
    decode, or the credentials are refused. *)
Definition credentials_fail (credentials : string) : Prop :=
  match read_file credentials with
  | Some content =>
      match loads content with
      | Some fields => authorize fields = None
      | None => True
      end
  | None => True
  end.

(** The requests an upsert may have sent. *)
Definition model_transcripts ctx model (data : string)
  : list (list request) :=
  [[get_request (model_url ctx model)];
   [get_request (model_url ctx model);
    put_request (model_url ctx model) data];
   [get_request (model_url ctx model);
    post_request (model_base_url ctx) data]].

Definition device_transcripts ctx device (data : string)
  : list (list request) :=
  [[get_request (device_url ctx device)];
   [get_request (device_url ctx device);
    post_request (device_base_url ctx) data];
   [get_request (device_url ctx device);
    delete_request (device_url ctx device);
    post_request (device_base_url ctx) data]].

End EntryPoint.

(** A value that is not a JSON object. *)
Definition not_an_object (v : json) : Prop :=
  match v with
  | JObj _ => False
  | _ => True
  end.

(** The exceptions a wrong document makes the decoded-body path raise. *)
Definition key_or_type_error (e : exn) : Prop :=
  match e with
  | KeyError _ | TypeError _ => True
  | _ => False
  end.

(** A value [%d] cannot print. *)
Definition not_a_number (v : json) : Prop :=
  match v with
  | JInt _ | JBool _ => False
  | _ => True
  end.

(** * Properties *)

(** ** The error translator *)

Section ErrorTranslator.
Context {RT : PyRuntime}.

Lemma append_assoc (a b c : string) : (a ++ b) ++ c = a ++ (b ++ c).
Proof. induction a as [| x a IH]; cbn; [reflexivity | now rewrite IH]. Qed.

Ltac norm_append :=
  repeat first [rewrite append_assoc | progress cbn [append]].

Lemma structured_error_plain message fields err code smsg :
  dict_get "error" fields = Some (JObj err) ->
  dict_get "code" err = Some (JInt code) ->
  dict_get "message" err = Some (JStr smsg) ->
  dict_get "details" err = None ->
  structured_error message (JObj fields) =
  Ok (ClickException (message ++ ": " ++ decimal code ++ " " ++ smsg)).
Proof.
  intros He Hc Hm Hd. unfold structured_error.
  cbn [getitem rbind contains format_d py_str].
  rewrite He. cbn [getitem rbind contains format_d py_str].
  rewrite Hc, Hm. cbn [getitem rbind contains format_d py_str].
  unfold dict_has. rewrite Hd. reflexivity.
Qed.

Lemma details_items ds details :
  Forall2 detail_of ds details ->
  rmap (fun d => getitem d "detail") ds = Ok (map JStr details).
Proof.
  induction 1 as [| d s ds details [o [-> Hd]] _ IH]; [reflexivity |].
  cbn [rmap getitem]. rewrite Hd. cbn [rbind]. rewrite IH. reflexivity.
Qed.

Lemma details_strings details :
  rmap as_str (map JStr details) = Ok details.
Proof.
  induction details as [| s l IH]; [reflexivity |].
  cbn [map rmap as_str rbind]. rewrite IH. reflexivity.
Qed.

Lemma structured_error_details message fields err code smsg ds details :
  dict_get "error" fields = Some (JObj err) ->
  dict_get "code" err = Some (JInt code) ->
  dict_get "message" err = Some (JStr smsg) ->
  dict_get "details" err = Some (JArr ds) ->
  Forall2 detail_of ds details ->
  structured_error message (JObj fields) =
  Ok (ClickException
        (message ++ ": " ++ decimal code ++ " " ++ smsg ++ " "
         ++ join newline details)).
Proof.
  intros He Hc Hm Hd Hds. unfold structured_error.
  cbn [getitem rbind contains format_d py_str].
  rewrite He. cbn [getitem rbind contains format_d py_str].
  rewrite Hc, Hm. cbn [getitem rbind contains format_d py_str].
  unfold dict_has. rewrite Hd. cbn [rbind iterate].
  rewrite (details_items _ _ Hds). cbn [rbind].
  rewrite details_strings. cbn [rbind].
  norm_append. reflexivity.
Qed.

(** *** The two formats never coincide *)

Lemma uint_numeric d : all_numeric (NilEmpty.string_of_uint d) = true.
Proof. induction d; cbn; auto. Qed.

Lemma decimal_numeric n : all_numeric (decimal n) = true.
Proof.
  unfold decimal, NilZero.string_of_int, NilZero.string_of_uint.
  destruct (Z.to_int n) as [d | d]; destruct d; cbn;
    rewrite ?uint_numeric; reflexivity.
Qed.

Lemma format_d_numeric v s : format_d v = Ok s -> all_numeric s = true.
Proof.
  destruct v as [| [|] | n | | |]; cbn; intros H; inversion H; subst;
    auto using decimal_numeric.
Qed.

Lemma append_cancel (p s1 s2 : string) : p ++ s1 = p ++ s2 -> s1 = s2.
Proof.
  induction p as [| c p IH]; cbn; intros H; [exact H |].
  injection H as H. auto.
Qed.

Lemma numeric_prefix_differs a b x y :
  all_numeric a = true -> all_numeric b = true ->
  a ++ String " " x <> b ++ String (ascii_of_nat 10) y.
Proof.
  revert b. induction a as [| c a IH]; intros [| c' b] Ha Hb H; cbn in *.
  - discriminate.
  - injection H as Hc _. subst c'. discriminate.
  - injection H as Hc _. subst c. discriminate.
  - injection H as _ H.
    apply andb_prop in Ha as [_ Ha]. apply andb_prop in Hb as [_ Hb].
    exact (IH b Ha Hb H).
Qed.

(** Every exception the [try] block returns shows a number followed by a
    space after the caller's message. *)
Lemma structured_error_shape message resp e :
  structured_error message resp = Ok e ->
  exists n rest,
    all_numeric n = true /\
    e = ClickException (message ++ ": " ++ n ++ String " " rest).
Proof.
  unfold structured_error. intros H.
  destruct (getitem resp "error") as [error |]; cbn [rbind] in H;
    [| discriminate].
  destruct (getitem error "code") as [code |]; cbn [rbind] in H;
    [| discriminate].
  destruct (getitem error "message") as [msg |]; cbn [rbind] in H;
    [| discriminate].
  destruct (format_d code) as [n |] eqn:Hn; cbn [rbind] in H;
    [| discriminate].
  apply format_d_numeric in Hn.
  destruct (contains "details" error) as [[|] |]; cbn [rbind] in H;
    [| | discriminate].
  - destruct (getitem error "details") as [details |]; cbn [rbind] in H;
      [| discriminate].
    destruct (iterate details) as [ds |]; cbn [rbind] in H;
      [| discriminate].
    destruct (rmap _ ds) as [items |]; cbn [rbind] in H; [| discriminate].
    destruct (rmap as_str items) as [strs |]; cbn [rbind] in H;
      [| discriminate].
    injection H as <-.
    exists n, (py_str msg ++ " " ++ join newline strs). split; [exact Hn |].
    f_equal. norm_append. reflexivity.
  - injection H as <-. exists n, (py_str msg). split; [exact Hn |].
    reflexivity.
Qed.

Lemma structured_error_not_raw message resp r :
  structured_error message resp <> Ok (raw_error message r).
Proof.
  intros H. apply structured_error_shape in H as [n [rest [Hn H]]].
  unfold raw_error in H. injection H as H.
  apply append_cancel in H.
  change (": " ++ decimal (status_code r) ++ newline ++ text r)
    with (": " ++ (decimal (status_code r) ++ newline ++ text r)) in H.
  apply (append_cancel ": ") in H.
  symmetry in H. revert H.
  apply numeric_prefix_differs; auto using decimal_numeric.
Qed.

End ErrorTranslator.

(** C2.  For a failed response whose body decodes to a structured error
    (an object whose [error] is an object with an integer [code] and a
    string [message]) the translator returns a [ClickException] reading
    [<message>: <code> <serverMessage>], followed by a space and the
    newline-joined [detail] strings when [error.details] is present (a
    list of objects with a string [detail]); when the body does not decode
    it returns the fallback [<message>: <httpStatus>\n<rawBody>].  On the
    reference runtime, the body with code 404 and message [not found]
    gives a message ending in [404 not found], and the body [oops] with
    status 500 a message ending in [500\noops]. *)
Theorem failed_request_exception_formats :
  (forall (RT : PyRuntime) message r fields err code smsg,
      loads (text r) = Some (JObj fields) ->
      dict_get "error" fields = Some (JObj err) ->
      dict_get "code" err = Some (JInt code) ->
      dict_get "message" err = Some (JStr smsg) ->
      (dict_get "details" err = None ->
       failed_request_exception message r =
       Ok (ClickException (message ++ ": " ++ decimal code ++ " " ++ smsg)))
      /\
      (forall ds details,
          dict_get "details" err = Some (JArr ds) ->
          Forall2 detail_of ds details ->
          failed_request_exception message r =
          Ok (ClickException
                (message ++ ": " ++ decimal code ++ " " ++ smsg ++ " "
                 ++ join newline details))))
  /\
  (forall (RT : PyRuntime) message r,
      loads (text r) = None ->
      failed_request_exception message r =
      Ok (ClickException
            (message ++ ": " ++ decimal (status_code r) ++ newline
             ++ text r)))
  /\
  (forall message status,
      @failed_request_exception Reference.runtime message
        {| status_code := status; text := body_not_found |} =
      Ok (ClickException (message ++ ": " ++ "404 not found")))
  /\
  (forall message,
      @failed_request_exception Reference.runtime message
        {| status_code := 500; text := "oops" |} =
      Ok (ClickException (message ++ ": " ++ "500" ++ newline ++ "oops"))).
Proof.
  split; [| split; [| split]].
  - intros RT message r fields err code smsg Hl He Hc Hm.
    unfold failed_request_exception. rewrite Hl. split.
    + intros Hd. eapply structured_error_plain; eassumption.
    + intros ds details Hd Hds.
      eapply structured_error_details; eassumption.
  - intros RT message r Hl. unfold failed_request_exception.
    rewrite Hl. reflexivity.
  - intros message status. unfold failed_request_exception.
    cbn [text].
    replace (@loads Reference.runtime body_not_found)
      with (Some (JObj [("error",
                         JObj [("code", JInt 404);
                               ("message", JStr "not found")])]))
      by (vm_compute; reflexivity).
    rewrite (structured_error_plain message
               [("error", JObj [("code", JInt 404);
                                ("message", JStr "not found")])]
               [("code", JInt 404); ("message", JStr "not found")]
               404 "not found" eq_refl eq_refl eq_refl eq_refl).
    reflexivity.
  - intros message. unfold failed_request_exception. cbn [text].
    replace (@loads Reference.runtime "oops") with (@None json)
      by (vm_compute; reflexivity).
    reflexivity.
Qed.

Lemma failed_request_exception_formats_witness :
  @failed_request_exception Reference.runtime "Failed to get resource"
    {| status_code := 404; text := body_not_found |} =
  Ok (ClickException "Failed to get resource: 404 not found")
  /\
  @failed_request_exception Reference.runtime "Failed to get resource"
    {| status_code := 500; text := "oops" |} =
  Ok (ClickException
        ("Failed to get resource: 500" ++ newline ++ "oops")).
Proof.
  split.
  - refine (proj1 (proj1 failed_request_exception_formats
                     Reference.runtime "Failed to get resource"
                     {| status_code := 404; text := body_not_found |}
                     [("error", JObj [("code", JInt 404);
                                      ("message", JStr "not found")])]
                     [("code", JInt 404); ("message", JStr "not found")]
                     404 "not found" _ _ _ _) _);
      vm_compute; reflexivity.
  - refine (proj1 (proj2 failed_request_exception_formats)
              Reference.runtime "Failed to get resource"
              {| status_code := 500; text := "oops" |} _).
    vm_compute; reflexivity.
Defined.

(** C8.  The raw-body fallback belongs to the decoding failure alone.
    When the body decodes to an object that lacks [error], or whose
    [error] object lacks [code] or [message], the translator raises
    [KeyError] and returns no exception at all; whenever the body decodes,
    what it returns is never the fallback; on the reference runtime the
    body [{}] raises [KeyError] for the key [error]. *)
Theorem failed_request_exception_key_error :
  (forall (RT : PyRuntime) message r fields,
      loads (text r) = Some (JObj fields) ->
      (dict_get "error" fields = None ->
       failed_request_exception message r = Raise (KeyError "error"))
      /\
      (forall err,
          dict_get "error" fields = Some (JObj err) ->
          dict_get "code" err = None ->
          failed_request_exception message r = Raise (KeyError "code"))
      /\
      (forall err code,
          dict_get "error" fields = Some (JObj err) ->
          dict_get "code" err = Some code ->
          dict_get "message" err = None ->
          failed_request_exception message r = Raise (KeyError "message")))
  /\
  (forall (RT : PyRuntime) message r resp,
      loads (text r) = Some resp ->
      failed_request_exception message r <> Ok (raw_error message r))
  /\
  (forall message status,
      @failed_request_exception Reference.runtime message
        {| status_code := status; text := "{}" |} =
      Raise (KeyError "error")).
Proof.
  split; [| split].
  - intros RT message r fields Hl.
    unfold failed_request_exception, structured_error. rewrite Hl.
    cbn [getitem rbind]. repeat split.
    + intros He. rewrite He. reflexivity.
    + intros err He Hc. rewrite He. cbn [getitem rbind]. rewrite Hc.
      reflexivity.
    + intros err code He Hc Hm. rewrite He. cbn [getitem rbind].
      rewrite Hc, Hm. reflexivity.
  - intros RT message r resp Hl. unfold failed_request_exception.
    rewrite Hl. apply structured_error_not_raw.
  - intros message status. reflexivity.
Qed.

Lemma failed_request_exception_key_error_witness :
  @failed_request_exception Reference.runtime "Failed to list resources"
    {| status_code := 500; text := "{}" |} =
  Raise (KeyError "error").
Proof.
  refine (proj1 (proj1 failed_request_exception_key_error
                   Reference.runtime "Failed to list resources"
                   {| status_code := 500; text := "{}" |} [] _) _);
    reflexivity.
Defined.

(** ** The response formatter *)


Section Running.
Context {RT : PyRuntime} {ENV : Environment}.

Lemma add_out_add_out a b (w : world) :
  add_out b (add_out a w) = add_out (a ++ b)%list w.
Proof. unfold add_out. cbn. now rewrite <- app_assoc. Qed.

Lemma bind_ok {A B} (m : M A) (k : A -> M B) w a w' :
  m w = (Ok a, w') -> bind m k w = k a w'.
Proof. unfold bind. now intros ->. Qed.

Lemma bind_raise {A B} (m : M A) (k : A -> M B) w e w' :
  m w = (Raise e, w') -> bind m k w = (Raise e, w').
Proof. unfold bind. now intros ->. Qed.

Lemma logging_info_on msg (w : world) :
  level w <> WARNING ->
  logging_info msg w = (Ok tt, add_out [Stderr msg] w).
Proof.
  unfold logging_info, log. destruct (level w); cbn; intros H;
    try reflexivity; congruence.
Qed.

Lemma logging_debug_off msg (w : world) :
  level w <> DEBUG -> logging_debug msg w = (Ok tt, w).
Proof.
  unfold logging_debug, log. destruct (level w); cbn; intros H;
    try reflexivity; congruence.
Qed.

Lemma logging_debug_on msg (w : world) :
  level w = DEBUG ->
  logging_debug msg w = (Ok tt, add_out [Stderr msg] w).
Proof. unfold logging_debug, log. now intros ->. Qed.

(** A loop of [logging.info] calls prints one record per item. *)
Lemma for_each_logging_info {A} (f : A -> string) items (w : world) :
  level w <> WARNING ->
  for_each items (fun x => logging_info (f x)) w =
  (Ok tt, add_out (map (fun x => Stderr (f x)) items) w).
Proof.
  revert w. induction items as [| x items IH]; intros w Hl.
  - cbn. unfold ret, add_out. destruct w; cbn. now rewrite app_nil_r.
  - cbn [for_each map].
    rewrite (bind_ok _ _ _ _ _ (logging_info_on (f x) w Hl)).
    rewrite IH by exact Hl. now rewrite add_out_add_out.
Qed.

Lemma pretty_print_model_ok d id project type traits items (w : world) :
  level w <> WARNING ->
  dict_get "deviceModelId" d = Some id ->
  dict_get "projectId" d = Some project ->
  dict_get "deviceType" d = Some type ->
  dict_get "traits" d = Some traits ->
  iterate traits = Ok items ->
  pretty_print_model (JObj d) w =
  (Ok tt, add_out (model_block id project type items) w).
Proof.
  intros Hl Hi Hp Ht Htr Hit. unfold pretty_print_model, lift, bind.
  cbn [getitem]. rewrite Hi, Hp, Ht.
  rewrite logging_info_on by exact Hl.
  rewrite Htr, Hit.
  rewrite for_each_logging_info by exact Hl.
  rewrite logging_info_on by exact Hl.
  rewrite !add_out_add_out. reflexivity.
Qed.

Lemma pretty_print_device_ok d id (w : world) :
  level w <> WARNING ->
  dict_get "id" d = Some id ->
  pretty_print_device (JObj d) w = (Ok tt, add_out (device_block d id) w).
Proof.
  intros Hl Hi. unfold pretty_print_device, device_block, lift, bind, ret.
  cbn [getitem contains]. rewrite Hi. unfold dict_has.
  rewrite logging_info_on by exact Hl.
  destruct (dict_get "nickname" d) as [n |];
    destruct (dict_get "modelId" d) as [m |];
    rewrite ?logging_info_on by exact Hl;
    rewrite ?add_out_add_out; reflexivity.
Qed.

End Running.

Section Reading.
Context {RT : PyRuntime} {ENV : Environment}.

Lemma send_run q (w : world) r s' :
  serve (srv w) q = (r, s') -> send q w = (Ok r, add_sent q s' w).
Proof. unfold send. now intros ->. Qed.

Lemma session_get_run url (w : world) r s' :
  serve (srv w) (get_request url) = (r, s') ->
  session_get url w = (Ok r, add_sent (get_request url) s' w).
Proof. apply send_run. Qed.

(** [get] on a 200 response decodes the body before it prints. *)
Lemma get_200 ctx resource id (w : world) r s' :
  serve (srv w) (get_request (join "/" [API_URL ctx; resource; id]))
    = (r, s') ->
  status_code r = 200 ->
  get ctx resource id w =
  bind (lift (json_loads (text r)))
    (fun response =>
       bind (if String.eqb resource "deviceModels"
             then pretty_print_model response
             else if String.eqb resource "devices"
                  then pretty_print_device response
                  else ret tt)
         (fun _ => logging_debug (text r)))
    (add_sent (get_request (join "/" [API_URL ctx; resource; id])) s' w).
Proof.
  intros Hs Hst. unfold get.
  rewrite (bind_ok _ _ _ _ _ (session_get_run _ _ _ _ Hs)).
  rewrite Hst. reflexivity.
Qed.

(** [list] on a 200 response decodes the body before it prints. *)
Lemma list_200 ctx resource (w : world) r s' :
  serve (srv w) (get_request (join "/" [API_URL ctx; resource]))
    = (r, s') ->
  status_code r = 200 ->
  list_resources ctx resource w =
  bind (lift (json_loads (text r)))
    (fun response =>
       bind (logging_debug (text r))
         (fun _ =>
            if String.eqb resource "deviceModels" then
              bind (lift (getitem response "deviceModels"))
                (fun models =>
                   bind (lift (iterate models))
                     (fun items => for_each items pretty_print_model))
            else if String.eqb resource "devices" then
              bind (lift (getitem response "devices"))
                (fun devices =>
                   bind (lift (iterate devices))
                     (fun items => for_each items pretty_print_device))
            else ret tt))
    (add_sent (get_request (join "/" [API_URL ctx; resource])) s' w).
Proof.
  intros Hs Hst. unfold list_resources.
  rewrite (bind_ok _ _ _ _ _ (session_get_run _ _ _ _ Hs)).
  rewrite Hst. reflexivity.
Qed.

End Reading.

(** C3.  [get --model foo] (no [--verbose]) on a 200 response whose body is
    the model [foo] of project [p], type [t], traits [a] and [b]: the
    command succeeds and prints five lines of text (id, project id, device
    type and one line per trait, two trait lines in all) and then a blank
    line which ends the output. *)
Theorem get_model_prints_five_lines_and_blank :
  forall (ENV : Environment) ctx (w : world) r s',
    level w = INFO ->
    serve (srv w)
      (get_request (join "/" [API_URL ctx; "deviceModels"; "foo"]))
      = (r, s') ->
    status_code r = 200 ->
    text r = body_model ->
    exists w' new,
      @get Reference.runtime ENV ctx "deviceModels" "foo" w = (Ok tt, w') /\
      out w' = (out w ++ new)%list /\
      new = [Stderr ("Device Model Id: foo" ++ newline ++
                     "        Project Id: p" ++ newline ++
                     "        Device Type: t");
             Stderr "        Trait a";
             Stderr "        Trait b";
             Stderr ""] /\
      lines (printed new) =
        ["Device Model Id: foo";
         "        Project Id: p";
         "        Device Type: t";
         "        Trait a";
         "        Trait b";
         ""] /\
      filter (starts_with "        Trait ") (lines (printed new)) =
        ["        Trait a"; "        Trait b"].
Proof.
  intros ENV ctx w r s' Hl Hs Hst Htx.
  rewrite (get_200 ctx _ _ w r s' Hs Hst). rewrite Htx.
  do 2 eexists. split; [| split; [| split; [reflexivity |]]].
  - unfold json_loads, lift.
    replace (@loads Reference.runtime body_model)
      with (Some (JObj [("deviceModelId", JStr "foo");
                        ("projectId", JStr "p");
                        ("deviceType", JStr "t");
                        ("traits", JArr [JStr "a"; JStr "b"])]))
      by (vm_compute; reflexivity).
    unfold bind at 1. cbn [String.eqb Ascii.eqb Bool.eqb].
    erewrite bind_ok.
    2: { eapply pretty_print_model_ok; try reflexivity.
         cbn [level add_sent]. rewrite Hl. discriminate. }
    apply logging_debug_off. cbn [level add_out add_sent]. rewrite Hl.
    discriminate.
  - reflexivity.
  - split; vm_compute; reflexivity.
Qed.

Lemma get_model_prints_five_lines_and_blank_witness :
  exists w' new,
    @get Reference.runtime (scripted [] None) example_context
      "deviceModels" "foo"
      (set_level INFO
         (@start (scripted [] None)
            [{| status_code := 200; text := body_model |}]))
    = (Ok tt, w') /\
    out w' = new /\
    List.length (lines (printed new)) = 6%nat.
Proof.
  destruct (get_model_prints_five_lines_and_blank
              (scripted [] None) example_context
              (set_level INFO
                 (@start (scripted [] None)
                    [{| status_code := 200; text := body_model |}]))
              {| status_code := 200; text := body_model |} []
              eq_refl eq_refl eq_refl eq_refl)
    as [w' [new [Hrun [Hout [Hnew [Hlines _]]]]]].
  exists w', new. split; [exact Hrun |]. split; [exact Hout |].
  rewrite Hlines. reflexivity.
Defined.

(** C7.  [list --device] (no [--verbose]) on a 200 response whose body
    lists the devices [d1] and [d2], the second with nickname [n]: the
    command prints one block per device, in the order of the list; each
    block starts with the device id and ends with a blank line; the block
    of [d2], and only that one, has a nickname line. *)
Theorem list_devices_prints_blocks :
  forall (ENV : Environment) ctx (w : world) r s',
    level w = INFO ->
    serve (srv w) (get_request (join "/" [API_URL ctx; "devices"]))
      = (r, s') ->
    status_code r = 200 ->
    text r = body_devices ->
    exists w',
      @list_resources Reference.runtime ENV ctx "devices" w = (Ok tt, w') /\
      out w' =
        (out w
         ++ [Stderr "Device Instance Id: d1"; Stderr ""]
         ++ [Stderr "Device Instance Id: d2"; Stderr "    Nickname: n";
             Stderr ""])%list.
Proof.
  intros ENV ctx w r s' Hl Hs Hst Htx.
  rewrite (list_200 ctx _ w r s' Hs Hst). rewrite Htx.
  unfold json_loads, lift.
  replace (@loads Reference.runtime body_devices)
    with (Some (JObj [("devices",
                       JArr [JObj [("id", JStr "d1")];
                             JObj [("id", JStr "d2");
                                   ("nickname", JStr "n")]])]))
    by (vm_compute; reflexivity).
  unfold bind at 1.
  erewrite bind_ok.
  2: { apply logging_debug_off. cbn [level add_sent]. rewrite Hl.
       discriminate. }
  cbn [String.eqb Ascii.eqb Bool.eqb getitem dict_get iterate].
  unfold bind at 1. cbn beta iota.
  unfold bind at 1. cbn beta iota. cbn [iterate for_each].
  erewrite bind_ok.
  2: { apply (pretty_print_device_ok [("id", JStr "d1")] (JStr "d1"));
       [cbn [level add_sent]; rewrite Hl; discriminate | reflexivity]. }
  erewrite bind_ok.
  2: { apply (pretty_print_device_ok
                [("id", JStr "d2"); ("nickname", JStr "n")] (JStr "d2"));
       [cbn [level add_sent add_out]; rewrite Hl; discriminate
       | reflexivity]. }
  eexists. split; [reflexivity |].
  cbn. rewrite <- app_assoc. reflexivity.
Qed.

Lemma list_devices_prints_blocks_witness :
  exists w',
    @list_resources Reference.runtime (scripted [] None) example_context
      "devices"
      (set_level INFO
         (@start (scripted [] None)
            [{| status_code := 200; text := body_devices |}]))
    = (Ok tt, w') /\
    out w' =
      [Stderr "Device Instance Id: d1"; Stderr "";
       Stderr "Device Instance Id: d2"; Stderr "    Nickname: n";
       Stderr ""].
Proof.
  destruct (list_devices_prints_blocks
              (scripted [] None) example_context
              (set_level INFO
                 (@start (scripted [] None)
                    [{| status_code := 200; text := body_devices |}]))
              {| status_code := 200; text := body_devices |} []
              eq_refl eq_refl eq_refl eq_refl)
    as [w' [Hrun Hout]].
  exists w'. split; [exact Hrun | exact Hout].
Defined.

(** C9.  The formatted error of [get] and [list] is for statuses other
    than 200.  On a 200 response whose body does not decode, both
    commands raise [ValueError] and print nothing; on a 200 response whose
    body is an object without [traits], [get --model] raises [KeyError]
    (for [traits] when the other three fields are there, after the header
    was printed).  Such responses exist: on the reference runtime, the
    body [oops] and the model object with no [traits]. *)
Theorem get_list_uncaught_errors :
  (forall (RT : PyRuntime) (ENV : Environment) ctx resource id
          (w : world) r s',
      serve (srv w) (get_request (join "/" [API_URL ctx; resource; id]))
        = (r, s') ->
      status_code r = 200 ->
      loads (text r) = None ->
      exists w',
        get ctx resource id w = (Raise (ValueError (text r)), w') /\
        out w' = out w)
  /\
  (forall (RT : PyRuntime) (ENV : Environment) ctx resource
          (w : world) r s',
      serve (srv w) (get_request (join "/" [API_URL ctx; resource]))
        = (r, s') ->
      status_code r = 200 ->
      loads (text r) = None ->
      exists w',
        list_resources ctx resource w = (Raise (ValueError (text r)), w') /\
        out w' = out w)
  /\
  (forall (RT : PyRuntime) (ENV : Environment) ctx id (w : world) r s' d,
      serve (srv w)
        (get_request (join "/" [API_URL ctx; "deviceModels"; id]))
        = (r, s') ->
      status_code r = 200 ->
      loads (text r) = Some (JObj d) ->
      dict_get "traits" d = None ->
      (exists key w',
          get ctx "deviceModels" id w = (Raise (KeyError key), w'))
      /\
      (forall model project type,
          dict_get "deviceModelId" d = Some model ->
          dict_get "projectId" d = Some project ->
          dict_get "deviceType" d = Some type ->
          level w = INFO ->
          exists w',
            get ctx "deviceModels" id w = (Raise (KeyError "traits"), w') /\
            out w' =
              (out w
               ++ [Stderr (PRETTY_PRINT_MODEL (py_str model)
                             (py_str project) (py_str type))])%list))
  /\
  (exists w',
      @get Reference.runtime (scripted [] None) example_context
        "deviceModels" "foo"
        (set_level INFO
           (@start (scripted [] None)
              [{| status_code := 200; text := "oops" |}]))
      = (Raise (ValueError "oops"), w') /\ out w' = [])
  /\
  (exists w',
      @get Reference.runtime (scripted [] None) example_context
        "deviceModels" "foo"
        (set_level INFO
           (@start (scripted [] None)
              [{| status_code := 200; text := body_model_no_traits |}]))
      = (Raise (KeyError "traits"), w') /\
      out w' = [Stderr ("Device Model Id: foo" ++ newline ++
                        "        Project Id: p" ++ newline ++
                        "        Device Type: t")]).
Proof.
  split; [| split; [| split; [| split]]].
  - intros RT ENV ctx resource id w r s' Hs Hst Hl.
    rewrite (get_200 ctx _ _ w r s' Hs Hst).
    unfold json_loads, lift, bind. rewrite Hl.
    eexists. split; reflexivity.
  - intros RT ENV ctx resource w r s' Hs Hst Hl.
    rewrite (list_200 ctx _ w r s' Hs Hst).
    unfold json_loads, lift, bind. rewrite Hl.
    eexists. split; reflexivity.
  - intros RT ENV ctx id w r s' d Hs Hst Hl Ht.
    rewrite (get_200 ctx _ _ w r s' Hs Hst).
    unfold json_loads, lift. rewrite Hl.
    unfold bind at 1. cbn beta iota.
    cbn [String.eqb Ascii.eqb Bool.eqb].
    unfold pretty_print_model, lift, bind. cbn [getitem]. split.
    + destruct (dict_get "deviceModelId" d);
        [| do 2 eexists; reflexivity].
      destruct (dict_get "projectId" d); [| do 2 eexists; reflexivity].
      destruct (dict_get "deviceType" d); [| do 2 eexists; reflexivity].
      destruct (logging_info _ _) as [[[] |] w1] eqn:Hlog.
      * rewrite Ht. do 2 eexists; reflexivity.
      * unfold logging_info, log in Hlog.
        destruct (_ <=? _) in Hlog; discriminate.
    + intros model project type Hm Hp Hty Hlv.
      rewrite Hm, Hp, Hty.
      rewrite logging_info_on
        by (cbn [level add_sent]; rewrite Hlv; discriminate).
      rewrite Ht. eexists. split; reflexivity.
  - eexists. split; vm_compute; reflexivity.
  - eexists. split; vm_compute; reflexivity.
Qed.

Lemma get_list_uncaught_errors_witness :
  exists w',
    @list_resources Reference.runtime (scripted [] None) example_context
      "devices"
      (set_level INFO
         (@start (scripted [] None)
            [{| status_code := 200; text := "oops" |}]))
    = (Raise (ValueError "oops"), w') /\ out w' = [].
Proof.
  exact (proj1 (proj2 get_list_uncaught_errors)
           Reference.runtime (scripted [] None) example_context "devices"
           (set_level INFO
              (@start (scripted [] None)
                 [{| status_code := 200; text := "oops" |}]))
           {| status_code := 200; text := "oops" |} []
           eq_refl eq_refl eq_refl).
Defined.

(** ** The upsert commands *)

Section Upsert.
Context {RT : PyRuntime} {ENV : Environment}.

Lemma log_run l msg (w : world) : log l msg w = (Ok tt, logged l msg w).
Proof.
  unfold logged, log. destruct (_ <=? _); reflexivity.
Qed.

Lemma srv_logged l msg (w : world) : srv (logged l msg w) = srv w.
Proof. unfold logged, log. destruct (_ <=? _); reflexivity. Qed.

Lemma sent_logged l msg (w : world) : sent (logged l msg w) = sent w.
Proof. unfold logged, log. destruct (_ <=? _); reflexivity. Qed.

Lemma level_logged l msg (w : world) : level (logged l msg w) = level w.
Proof. unfold logged, log. destruct (_ <=? _); reflexivity. Qed.

Lemma opened_logged l msg (w : world) :
  opened (logged l msg w) = opened w.
Proof. unfold logged, log. destruct (_ <=? _); reflexivity. Qed.

(** A logging call adds at most one record, on standard error. *)
Lemma out_logged l msg (w : world) :
  out (logged l msg w) = out w \/
  out (logged l msg w) = (out w ++ [Stderr msg])%list.
Proof. unfold logged, log. destruct (_ <=? _); cbn; auto. Qed.

Lemma raise_from_run {A} (r : result exn) (w : world) :
  raise_from (A := A) r w = (Raise (raised r), w).
Proof. destruct r; reflexivity. Qed.

Lemma echo_run msg (w : world) :
  echo msg w = (Ok tt, add_out [Stdout msg] w).
Proof. reflexivity. Qed.

Section RegisterModel.
Variables (ctx : context) (model : string) (type : device_type)
  (trait : list string) (manufacturer product_name : string)
  (description : option string).

Local Abbreviation data :=
  (model_data ctx model type trait manufacturer product_name description).
Local Abbreviation run :=
  (register_model ctx model type trait manufacturer product_name
     description).
Local Abbreviation checked :=
  (model_checked ctx model type trait manufacturer product_name
     description).
Local Abbreviation outcome := (model_outcome model).

Lemma register_model_checked (w : world) r1 s1 :
  serve (srv w) (get_request (model_url ctx model)) = (r1, s1) ->
  run w =
  bind
    (if status_code r1 =? 200 then
       bind (echo ("Updating existing device model: " ++ model))
         (fun _ => session_put (model_url ctx model) data)
     else if (status_code r1 =? 400) || (status_code r1 =? 404) then
       bind (echo "Creating new device model")
         (fun _ => session_post (model_base_url ctx) data)
     else
       raise_from (failed_request_exception "Unknown error occurred" r1))
    (fun r =>
       if negb (status_code r =? 200) then
         raise_from (failed_request_exception "Failed to register model" r)
       else echo ("Model " ++ model ++ " successfully registered"))
    (checked w r1 s1).
Proof.
  intros Hs. unfold register_model, logging_debug.
  rewrite (bind_ok _ _ _ _ _ (log_run _ _ _)).
  erewrite bind_ok
    by (apply session_get_run; rewrite srv_logged; exact Hs).
  rewrite (bind_ok _ _ _ _ _ (log_run _ _ _)).
  reflexivity.
Qed.

Lemma register_model_update (w : world) r1 s1 r2 s2 :
  serve (srv w) (get_request (model_url ctx model)) = (r1, s1) ->
  status_code r1 = 200 ->
  serve s1 (put_request (model_url ctx model) data) = (r2, s2) ->
  run w =
  outcome r2
    (add_sent (put_request (model_url ctx model) data) s2
       (add_out [Stdout ("Updating existing device model: " ++ model)]
          (checked w r1 s1))).
Proof.
  intros Hs Hst Hp. rewrite (register_model_checked w r1 s1 Hs).
  rewrite Hst. cbn [Z.eqb Pos.eqb].
  erewrite bind_ok.
  2: { erewrite bind_ok by apply echo_run.
       apply send_run. cbn [srv add_out]. unfold model_checked.
       rewrite srv_logged. cbn [srv add_sent]. exact Hp. }
  unfold model_outcome. destruct (status_code r2 =? 200); cbn [negb].
  - reflexivity.
  - apply raise_from_run.
Qed.

Lemma register_model_create (w : world) r1 s1 r2 s2 :
  serve (srv w) (get_request (model_url ctx model)) = (r1, s1) ->
  status_code r1 = 400 \/ status_code r1 = 404 ->
  serve s1 (post_request (model_base_url ctx) data) = (r2, s2) ->
  run w =
  outcome r2
    (add_sent (post_request (model_base_url ctx) data) s2
       (add_out [Stdout "Creating new device model"]
          (checked w r1 s1))).
Proof.
  intros Hs Hst Hp. rewrite (register_model_checked w r1 s1 Hs).
  replace (status_code r1 =? 200) with false
    by (destruct Hst as [-> | ->]; reflexivity).
  replace ((status_code r1 =? 400) || (status_code r1 =? 404)) with true
    by (destruct Hst as [-> | ->]; reflexivity).
  erewrite bind_ok.
  2: { erewrite bind_ok by apply echo_run.
       apply send_run. cbn [srv add_out]. unfold model_checked.
       rewrite srv_logged. cbn [srv add_sent]. exact Hp. }
  unfold model_outcome. destruct (status_code r2 =? 200); cbn [negb].
  - reflexivity.
  - apply raise_from_run.
Qed.

Lemma register_model_unknown (w : world) r1 s1 :
  serve (srv w) (get_request (model_url ctx model)) = (r1, s1) ->
  status_code r1 <> 200 ->
  status_code r1 <> 400 ->
  status_code r1 <> 404 ->
  run w =
  (Raise (raised (failed_request_exception "Unknown error occurred" r1)),
   checked w r1 s1).
Proof.
  intros Hs H200 H400 H404. rewrite (register_model_checked w r1 s1 Hs).
  apply Z.eqb_neq in H200, H400, H404. rewrite H200, H400, H404.
  cbn [orb]. apply bind_raise. apply raise_from_run.
Qed.

End RegisterModel.

Section RegisterDevice.
Variables (ctx : context) (device model : string)
  (nickname : option string).

Local Abbreviation data := (device_data device model nickname).
Local Abbreviation run := (register_device ctx device model nickname).
Local Abbreviation checked := (device_checked ctx device model nickname).
Local Abbreviation outcome := (device_outcome device).

Lemma register_device_checked (w : world) r1 s1 :
  serve (srv w) (get_request (device_url ctx device)) = (r1, s1) ->
  run w =
  bind
    (if status_code r1 =? 200 then
       bind (echo ("Updating existing device: " ++ device))
         (fun _ =>
            bind (session_delete (device_url ctx device))
              (fun _ => session_post (device_base_url ctx) data))
     else if (status_code r1 =? 400) || (status_code r1 =? 404) then
       bind (echo "Creating new device")
         (fun _ => session_post (device_base_url ctx) data)
     else
       raise_from
         (failed_request_exception "Failed to check existing device" r1))
    (fun r =>
       if negb (status_code r =? 200) then
         raise_from (failed_request_exception "Failed to register device" r)
       else
         bind
           (echo ("Device instance " ++ device ++ " successfully registered"))
           (fun _ => logging_debug (text r)))
    (checked w s1).
Proof.
  intros Hs. unfold register_device, logging_debug.
  rewrite (bind_ok _ _ _ _ _ (log_run _ _ _)).
  erewrite bind_ok
    by (apply session_get_run; rewrite srv_logged; exact Hs).
  reflexivity.
Qed.

Lemma device_outcome_run r (w : world) :
  (if negb (status_code r =? 200) then
     raise_from (failed_request_exception "Failed to register device" r)
   else
     bind
       (echo ("Device instance " ++ device ++ " successfully registered"))
       (fun _ => logging_debug (text r))) w =
  outcome r w.
Proof.
  unfold device_outcome. destruct (status_code r =? 200); cbn [negb].
  - erewrite bind_ok by apply echo_run. apply log_run.
  - apply raise_from_run.
Qed.

Lemma register_device_update (w : world) r1 s1 r2 s2 r3 s3 :
  serve (srv w) (get_request (device_url ctx device)) = (r1, s1) ->
  status_code r1 = 200 ->
  serve s1 (delete_request (device_url ctx device)) = (r2, s2) ->
  serve s2 (post_request (device_base_url ctx) data) = (r3, s3) ->
  run w =
  outcome r3
    (add_sent (post_request (device_base_url ctx) data) s3
       (add_sent (delete_request (device_url ctx device)) s2
          (add_out [Stdout ("Updating existing device: " ++ device)]
             (checked w s1)))).
Proof.
  intros Hs Hst Hd Hp. rewrite (register_device_checked w r1 s1 Hs).
  rewrite Hst. cbn [Z.eqb Pos.eqb].
  erewrite bind_ok.
  2: { erewrite bind_ok by apply echo_run.
       erewrite bind_ok by (apply send_run; exact Hd).
       apply send_run. exact Hp. }
  apply device_outcome_run.
Qed.

Lemma register_device_create (w : world) r1 s1 r2 s2 :
  serve (srv w) (get_request (device_url ctx device)) = (r1, s1) ->
  status_code r1 = 400 \/ status_code r1 = 404 ->
  serve s1 (post_request (device_base_url ctx) data) = (r2, s2) ->
  run w =
  outcome r2
    (add_sent (post_request (device_base_url ctx) data) s2
       (add_out [Stdout "Creating new device"] (checked w s1))).
Proof.
  intros Hs Hst Hp. rewrite (register_device_checked w r1 s1 Hs).
  replace (status_code r1 =? 200) with false
    by (destruct Hst as [-> | ->]; reflexivity).
  replace ((status_code r1 =? 400) || (status_code r1 =? 404)) with true
    by (destruct Hst as [-> | ->]; reflexivity).
  erewrite bind_ok.
  2: { erewrite bind_ok by apply echo_run. apply send_run. exact Hp. }
  apply device_outcome_run.
Qed.

Lemma register_device_unknown (w : world) r1 s1 :
  serve (srv w) (get_request (device_url ctx device)) = (r1, s1) ->
  status_code r1 <> 200 ->
  status_code r1 <> 400 ->
  status_code r1 <> 404 ->
  run w =
  (Raise (raised (failed_request_exception
                    "Failed to check existing device" r1)),
   checked w s1).
Proof.
  intros Hs H200 H400 H404. rewrite (register_device_checked w r1 s1 Hs).
  apply Z.eqb_neq in H200, H400, H404. rewrite H200, H400, H404.
  cbn [orb]. apply bind_raise. apply raise_from_run.
Qed.

End RegisterDevice.

End Upsert.

Section Protocol.
Context {RT : PyRuntime} {ENV : Environment}.

Lemma out_logged_eq l msg (w : world) :
  out (logged l msg w) = (out w ++ log_lines l msg w)%list.
Proof.
  unfold logged, log, log_lines. destruct (_ <=? _); cbn.
  - reflexivity.
  - now rewrite app_nil_r.
Qed.

Lemma raised_raw message r :
  loads (text r) = None ->
  raised (failed_request_exception message r) = raw_error message r.
Proof. unfold failed_request_exception. now intros ->. Qed.

Lemma model_outcome_concluded model r (w0 w : world) before :
  out w = (out w0 ++ before)%list ->
  concluded (model_registered model) "Failed to register model" r w0
    (snd (model_outcome model r w)) (fst (model_outcome model r w)).
Proof.
  intros Ho. unfold concluded, model_outcome. split; intros Hst.
  - rewrite Hst. cbn [Z.eqb Pos.eqb fst snd]. split; [reflexivity |].
    exists before, []. cbn [out add_out]. rewrite Ho.
    now rewrite <- app_assoc.
  - apply Z.eqb_neq in Hst. rewrite Hst. reflexivity.
Qed.

Lemma device_outcome_concluded device r (w0 w : world) before :
  out w = (out w0 ++ before)%list ->
  concluded (device_registered device) "Failed to register device" r w0
    (snd (device_outcome device r w)) (fst (device_outcome device r w)).
Proof.
  intros Ho. unfold concluded, device_outcome. split; intros Hst.
  - rewrite Hst. cbn [Z.eqb Pos.eqb fst snd]. split; [reflexivity |].
    exists before, (log_lines DEBUG (text r) w).
    rewrite out_logged_eq. cbn [out add_out level]. rewrite Ho.
    rewrite <- !app_assoc. reflexivity.
  - apply Z.eqb_neq in Hst. rewrite Hst. reflexivity.
Qed.

End Protocol.

Section ProtocolRuns.
Context {RT : PyRuntime} {ENV : Environment}.

Lemma sent_model_outcome model r (w : world) :
  sent (snd (model_outcome model r w)) = sent w.
Proof. unfold model_outcome. destruct (_ =? _); reflexivity. Qed.

Lemma srv_model_outcome model r (w : world) :
  srv (snd (model_outcome model r w)) = srv w.
Proof. unfold model_outcome. destruct (_ =? _); reflexivity. Qed.

Lemma sent_device_outcome device r (w : world) :
  sent (snd (device_outcome device r w)) = sent w.
Proof.
  unfold device_outcome. destruct (_ =? _); cbn [snd];
    rewrite ?sent_logged; reflexivity.
Qed.

Lemma srv_device_outcome device r (w : world) :
  srv (snd (device_outcome device r w)) = srv w.
Proof.
  unfold device_outcome. destruct (_ =? _); cbn [snd];
    rewrite ?srv_logged; reflexivity.
Qed.

(** The transcript of [register_model]. *)
Lemma register_model_protocol ctx model type trait manufacturer
    product_name description (w : world) r1 s1 :
  let url := model_url ctx model in
  let base := model_base_url ctx in
  let data :=
    model_data ctx model type trait manufacturer product_name description in
  serve (srv w) (get_request url) = (r1, s1) ->
  exists res w',
    register_model ctx model type trait manufacturer product_name
      description w = (res, w') /\
    (exists rest, sent w' = (sent w ++ get_request url :: rest)%list) /\
    (status_code r1 = 200 ->
     forall r2 s2,
       serve s1 (put_request url data) = (r2, s2) ->
       sent w' = (sent w ++ [get_request url; put_request url data])%list /\
       srv w' = s2 /\
       concluded (model_registered model) "Failed to register model"
         r2 w w' res) /\
    (status_code r1 = 400 \/ status_code r1 = 404 ->
     forall r2 s2,
       serve s1 (post_request base data) = (r2, s2) ->
       sent w' = (sent w ++ [get_request url; post_request base data])%list /\
       srv w' = s2 /\
       concluded (model_registered model) "Failed to register model"
         r2 w w' res) /\
    (status_code r1 <> 200 ->
     status_code r1 <> 400 ->
     status_code r1 <> 404 ->
     sent w' = (sent w ++ [get_request url])%list /\
     srv w' = s1 /\
     failed_with "Unknown error occurred" r1 res /\
     (loads (text r1) = None ->
      res = Raise (raw_error "Unknown error occurred" r1))).
Proof.
  intros url base data Hs.
  destruct (register_model ctx model type trait manufacturer product_name
              description w) as [res w'] eqn:Hrun.
  exists res, w'. split; [reflexivity |].
  assert (Hupd : status_code r1 = 200 ->
     forall r2 s2,
       serve s1 (put_request url data) = (r2, s2) ->
       sent w' = (sent w ++ [get_request url; put_request url data])%list /\
       srv w' = s2 /\
       concluded (model_registered model) "Failed to register model"
         r2 w w' res).
  { intros Hst r2 s2 Hp.
    rewrite (register_model_update _ _ _ _ _ _ _ w r1 s1 r2 s2 Hs Hst Hp)
      in Hrun.
    rewrite (surjective_pairing (model_outcome _ _ _)) in Hrun.
    injection Hrun as <- <-.
    rewrite sent_model_outcome, srv_model_outcome. split; [| split].
    - cbn [sent add_sent add_out]. unfold model_checked.
      rewrite sent_logged. cbn [sent add_sent]. rewrite sent_logged.
      now rewrite <- app_assoc.
    - reflexivity.
    - eapply model_outcome_concluded. cbn [out add_sent add_out].
      unfold model_checked. rewrite out_logged_eq. cbn [out add_sent].
      rewrite out_logged_eq. rewrite <- !app_assoc. reflexivity. }
  assert (Hcre : status_code r1 = 400 \/ status_code r1 = 404 ->
     forall r2 s2,
       serve s1 (post_request base data) = (r2, s2) ->
       sent w' = (sent w ++ [get_request url; post_request base data])%list /\
       srv w' = s2 /\
       concluded (model_registered model) "Failed to register model"
         r2 w w' res).
  { intros Hst r2 s2 Hp.
    rewrite (register_model_create _ _ _ _ _ _ _ w r1 s1 r2 s2 Hs Hst Hp)
      in Hrun.
    rewrite (surjective_pairing (model_outcome _ _ _)) in Hrun.
    injection Hrun as <- <-.
    rewrite sent_model_outcome, srv_model_outcome. split; [| split].
    - cbn [sent add_sent add_out]. unfold model_checked.
      rewrite sent_logged. cbn [sent add_sent]. rewrite sent_logged.
      now rewrite <- app_assoc.
    - reflexivity.
    - eapply model_outcome_concluded. cbn [out add_sent add_out].
      unfold model_checked. rewrite out_logged_eq. cbn [out add_sent].
      rewrite out_logged_eq. rewrite <- !app_assoc. reflexivity. }
  assert (Hunk : status_code r1 <> 200 ->
     status_code r1 <> 400 ->
     status_code r1 <> 404 ->
     sent w' = (sent w ++ [get_request url])%list /\
     srv w' = s1 /\
     failed_with "Unknown error occurred" r1 res /\
     (loads (text r1) = None ->
      res = Raise (raw_error "Unknown error occurred" r1))).
  { intros H200 H400 H404.
    rewrite (register_model_unknown _ _ _ _ _ _ _ w r1 s1 Hs H200 H400 H404)
      in Hrun.
    injection Hrun as <- <-. unfold model_checked.
    rewrite sent_logged, srv_logged. cbn [sent srv add_sent].
    rewrite sent_logged. repeat split.
    intros Hl. now rewrite raised_raw. }
  split; [| split; [exact Hupd | split; [exact Hcre | exact Hunk]]].
  destruct (Z.eq_dec (status_code r1) 200) as [H200 |H200].
  { destruct (serve s1 (put_request url data)) as [r2 s2] eqn:Hp.
    destruct (Hupd H200 r2 s2 eq_refl) as [-> _]. eexists. reflexivity. }
  destruct (Z.eq_dec (status_code r1) 400) as [H400 |H400].
  { destruct (serve s1 (post_request base data)) as [r2 s2] eqn:Hp.
    destruct (Hcre (or_introl H400) r2 s2 eq_refl) as [-> _].
    eexists. reflexivity. }
  destruct (Z.eq_dec (status_code r1) 404) as [H404 |H404].
  { destruct (serve s1 (post_request base data)) as [r2 s2] eqn:Hp.
    destruct (Hcre (or_intror H404) r2 s2 eq_refl) as [-> _].
    eexists. reflexivity. }
  destruct (Hunk H200 H400 H404) as [-> _]. eexists. reflexivity.
Qed.

(** The transcript of [register_device]. *)
Lemma register_device_protocol ctx device model nickname (w : world) r1 s1 :
  let url := device_url ctx device in
  let base := device_base_url ctx in
  let data := device_data device model nickname in
  serve (srv w) (get_request url) = (r1, s1) ->
  exists res w',
    register_device ctx device model nickname w = (res, w') /\
    (exists rest, sent w' = (sent w ++ get_request url :: rest)%list) /\
    (status_code r1 = 200 ->
     forall r2 s2 r3 s3,
       serve s1 (delete_request url) = (r2, s2) ->
       serve s2 (post_request base data) = (r3, s3) ->
       sent w' =
         (sent w ++ [get_request url; delete_request url;
                     post_request base data])%list /\
       srv w' = s3 /\
       concluded (device_registered device) "Failed to register device"
         r3 w w' res) /\
    (status_code r1 = 400 \/ status_code r1 = 404 ->
     forall r2 s2,
       serve s1 (post_request base data) = (r2, s2) ->
       sent w' = (sent w ++ [get_request url; post_request base data])%list /\
       srv w' = s2 /\
       concluded (device_registered device) "Failed to register device"
         r2 w w' res) /\
    (status_code r1 <> 200 ->
     status_code r1 <> 400 ->
     status_code r1 <> 404 ->
     sent w' = (sent w ++ [get_request url])%list /\
     srv w' = s1 /\
     failed_with "Failed to check existing device" r1 res /\
     (loads (text r1) = None ->
      res = Raise (raw_error "Failed to check existing device" r1))).
Proof.
  intros url base data Hs.
  destruct (register_device ctx device model nickname w)
    as [res w'] eqn:Hrun.
  exists res, w'. split; [reflexivity |].
  assert (Hupd : status_code r1 = 200 ->
     forall r2 s2 r3 s3,
       serve s1 (delete_request url) = (r2, s2) ->
       serve s2 (post_request base data) = (r3, s3) ->
       sent w' =
         (sent w ++ [get_request url; delete_request url;
                     post_request base data])%list /\
       srv w' = s3 /\
       concluded (device_registered device) "Failed to register device"
         r3 w w' res).
  { intros Hst r2 s2 r3 s3 Hd Hp.
    rewrite (register_device_update _ _ _ _ w r1 s1 r2 s2 r3 s3
               Hs Hst Hd Hp) in Hrun.
    rewrite (surjective_pairing (device_outcome _ _ _)) in Hrun.
    injection Hrun as <- <-.
    rewrite sent_device_outcome, srv_device_outcome. split; [| split].
    - cbn [sent add_sent add_out]. unfold device_checked.
      cbn [sent add_sent]. rewrite sent_logged.
      now rewrite <- !app_assoc.
    - reflexivity.
    - eapply device_outcome_concluded. cbn [out add_sent add_out].
      unfold device_checked. cbn [out add_sent].
      rewrite out_logged_eq. rewrite <- !app_assoc. reflexivity. }
  assert (Hcre : status_code r1 = 400 \/ status_code r1 = 404 ->
     forall r2 s2,
       serve s1 (post_request base data) = (r2, s2) ->
       sent w' = (sent w ++ [get_request url; post_request base data])%list /\
       srv w' = s2 /\
       concluded (device_registered device) "Failed to register device"
         r2 w w' res).
  { intros Hst r2 s2 Hp.
    rewrite (register_device_create _ _ _ _ w r1 s1 r2 s2 Hs Hst Hp)
      in Hrun.
    rewrite (surjective_pairing (device_outcome _ _ _)) in Hrun.
    injection Hrun as <- <-.
    rewrite sent_device_outcome, srv_device_outcome. split; [| split].
    - cbn [sent add_sent add_out]. unfold device_checked.
      cbn [sent add_sent]. rewrite sent_logged.
      now rewrite <- !app_assoc.
    - reflexivity.
    - eapply device_outcome_concluded. cbn [out add_sent add_out].
      unfold device_checked. cbn [out add_sent].
      rewrite out_logged_eq. rewrite <- !app_assoc. reflexivity. }
  assert (Hunk : status_code r1 <> 200 ->
     status_code r1 <> 400 ->
     status_code r1 <> 404 ->
     sent w' = (sent w ++ [get_request url])%list /\
     srv w' = s1 /\
     failed_with "Failed to check existing device" r1 res /\
     (loads (text r1) = None ->
      res = Raise (raw_error "Failed to check existing device" r1))).
  { intros H200 H400 H404.
    rewrite (register_device_unknown _ _ _ _ w r1 s1 Hs H200 H400 H404)
      in Hrun.
    injection Hrun as <- <-. unfold device_checked.
    cbn [sent srv add_sent]. rewrite sent_logged. repeat split.
    intros Hl. now rewrite raised_raw. }
  split; [| split; [exact Hupd | split; [exact Hcre | exact Hunk]]].
  destruct (Z.eq_dec (status_code r1) 200) as [H200 |H200].
  { destruct (serve s1 (delete_request url)) as [r2 s2] eqn:Hd.
    destruct (serve s2 (post_request base data)) as [r3 s3] eqn:Hp.
    destruct (Hupd H200 r2 s2 r3 s3 eq_refl Hp) as [-> _].
    eexists. reflexivity. }
  destruct (Z.eq_dec (status_code r1) 400) as [H400 |H400].
  { destruct (serve s1 (post_request base data)) as [r2 s2] eqn:Hp.
    destruct (Hcre (or_introl H400) r2 s2 eq_refl) as [-> _].
    eexists. reflexivity. }
  destruct (Z.eq_dec (status_code r1) 404) as [H404 |H404].
  { destruct (serve s1 (post_request base data)) as [r2 s2] eqn:Hp.
    destruct (Hcre (or_intror H404) r2 s2 eq_refl) as [-> _].
    eexists. reflexivity. }
  destruct (Hunk H200 H400 H404) as [-> _]. eexists. reflexivity.
Qed.

End ProtocolRuns.

Section UpsertShape.
Context {RT : PyRuntime} {ENV : Environment}.

Lemma raised_formatted message r :
  formatted message r (raised (failed_request_exception message r)).
Proof.
  split.
  - intros Hl. now rewrite raised_raw.
  - intros fields err code smsg Hl He Hc Hm Hd.
    unfold failed_request_exception. rewrite Hl.
    now rewrite (structured_error_plain message fields err code smsg).
Qed.

End UpsertShape.

(** C1 (amended).  Both upsert commands first send GET for the resource
    URL.  Answered 200, [register-model] sends PUT with the payload to the
    same URL and [register-device] sends DELETE for the URL and then POST
    with the payload to the collection URL; answered 400 or 404, both send
    POST with the payload to the collection URL; answered anything else,
    they send nothing more and raise what the error translator gives for
    the answer.  After the last changing request, status 200 ends the
    command with the confirmation line printed and any other status raises
    what the error translator gives for that answer.  What the translator
    gives shows the status and the raw body when the body does not decode,
    and the server's code and message when the body is a structured
    error. *)
Theorem upsert_protocol :
  (forall (RT : PyRuntime) (ENV : Environment) ctx model type trait
          manufacturer product_name description,
      let url := model_url ctx model in
      let data :=
        model_data ctx model type trait manufacturer product_name
          description in
      upsert
        (register_model ctx model type trait manufacturer product_name
           description)
        url (model_base_url ctx) data
        [put_request url data]
        (model_registered model)
        "Unknown error occurred" "Failed to register model")
  /\
  (forall (RT : PyRuntime) (ENV : Environment) ctx device model nickname,
      let url := device_url ctx device in
      let base := device_base_url ctx in
      let data := device_data device model nickname in
      upsert
        (register_device ctx device model nickname)
        url base data
        [delete_request url; post_request base data]
        (device_registered device)
        "Failed to check existing device" "Failed to register device")
  /\
  (forall (RT : PyRuntime) message r,
      formatted message r (raised (failed_request_exception message r))).
Proof.
  split; [| split].
  - intros RT ENV ctx model type trait manufacturer product_name
      description url data w r1 s1 Hs.
    destruct (register_model_protocol ctx model type trait manufacturer
                product_name description w r1 s1 Hs)
      as [res [w' [Hrun [Hfirst [Hupd [Hcre Hunk]]]]]].
    exists res, w'. split; [exact Hrun |]. split; [exact Hfirst |].
    split; [| split; [exact Hcre |]].
    + intros Hst r s' Hall. cbn [serve_all] in Hall.
      destruct (serve s1 (put_request url data)) as [r2 s2] eqn:Hp.
      injection Hall as <- <-. exact (Hupd Hst r2 s2 Hp).
    + intros H200 H400 H404.
      destruct (Hunk H200 H400 H404) as [H1 [H2 [H3 _]]]. auto.
  - intros RT ENV ctx device model nickname url base data w r1 s1 Hs.
    destruct (register_device_protocol ctx device model nickname w r1 s1 Hs)
      as [res [w' [Hrun [Hfirst [Hupd [Hcre Hunk]]]]]].
    exists res, w'. split; [exact Hrun |]. split; [exact Hfirst |].
    split; [| split; [exact Hcre |]].
    + intros Hst r s' Hall. cbn [serve_all] in Hall.
      destruct (serve s1 (delete_request url)) as [r2 s2] eqn:Hd.
      destruct (serve s2 (post_request base data)) as [r3 s3] eqn:Hp.
      injection Hall as <- <-. exact (Hupd Hst r2 s2 r3 s3 Hd Hp).
    + intros H200 H400 H404.
      destruct (Hunk H200 H400 H404) as [H1 [H2 [H3 _]]]. auto.
  - intros RT message r. apply raised_formatted.
Qed.

Lemma upsert_protocol_witness :
  exists w',
    @register_model Reference.runtime (scripted [] None) example_context
      "foo" LIGHT ["a"] "maker" "lamp" None
      (set_level INFO
         (@start (scripted [] None)
            [{| status_code := 404; text := "" |};
             {| status_code := 200; text := "{}" |}]))
    = (Ok tt, w') /\
    map req_method (sent w') = [GET; POST].
Proof.
  destruct (proj1 upsert_protocol Reference.runtime (scripted [] None)
              example_context "foo" LIGHT ["a"] "maker" "lamp" None
              (set_level INFO
                 (@start (scripted [] None)
                    [{| status_code := 404; text := "" |};
                     {| status_code := 200; text := "{}" |}]))
              {| status_code := 404; text := "" |}
              [{| status_code := 200; text := "{}" |}] eq_refl)
    as [res [w' [Hrun [_ [_ [Hcre _]]]]]].
  destruct (Hcre (or_intror eq_refl) {| status_code := 200; text := "{}" |}
              [] eq_refl) as [Hsent [_ [Hok _]]].
  destruct (Hok eq_refl) as [Hres _].
  exists w'. split.
  - rewrite Hrun, Hres. reflexivity.
  - rewrite Hsent. reflexivity.
Defined.

(** That fails on a structured error: answered 500 with the body of code
    500 and message [boom], the command raises
    [Unknown error occurred: 500 boom], which shows the server's code and
    message and not the body. *)
Lemma unknown_status_error_lacks_body :
  ~ unknown_status_error_includes_body.
Proof.
  intros H.
  destruct (H Reference.runtime (scripted [] None) example_context
              "foo" LIGHT [] "maker" "lamp" None
              (set_level INFO
                 (@start (scripted [] None)
                    [{| status_code := 500; text := body_boom |}]))
              {| status_code := 500; text := body_boom |} []
              eq_refl ltac:(discriminate) ltac:(discriminate)
              ltac:(discriminate))
    as [message [w' [Hrun Hsub]]].
  vm_compute in Hrun. injection Hrun as <- _.
  vm_compute in Hsub. discriminate.
Qed.

(** ** The payload of [register-model] *)

Lemma nonempty_true s : nonempty s = true <-> s <> "".
Proof.
  unfold nonempty. rewrite negb_true_iff. apply String.eqb_neq.
Qed.

Lemma register_model_payload_values ctx model type trait manufacturer
    product_name description :
  let payload :=
    register_model_payload ctx model type trait manufacturer product_name
      description in
  dict_get "device_type" payload =
    Some (JStr ("action.devices.types." ++ type_name type)) /\
  dict_get "traits" payload =
    match trait with
    | [] => None
    | _ :: _ => Some (JArr (map JStr trait))
    end /\
  manifest_field "manufacturer" payload =
    (if nonempty manufacturer then Some (JStr manufacturer) else None) /\
  manifest_field "productName" payload =
    (if nonempty product_name then Some (JStr product_name) else None) /\
  manifest_field "deviceDescription" payload =
    match description with
    | Some d => if nonempty d then Some (JStr d) else None
    | None => None
    end.
Proof.
  unfold register_model_payload.
  destruct trait as [| t ts];
    destruct (nonempty manufacturer);
    destruct (nonempty product_name);
    destruct description as [d |]; try destruct (nonempty d);
    cbn; repeat split; reflexivity.
Qed.

(** C10.  In the payload of [register-model], [device_type] is
    [action.devices.types.] followed by the chosen type; [traits] is there
    exactly when a [--trait] was given, and then lists the traits; the
    manifest has [manufacturer], [productName], [deviceDescription]
    exactly when the matching option was given and not empty, and then
    with its value.  The encoded payload is the body of the PUT sent after
    a GET answered 200 and of the POST sent after a GET answered 400 or
    404. *)
Theorem register_model_payload_fields :
  forall (RT : PyRuntime) (ENV : Environment) ctx model type trait
         manufacturer product_name description,
    let payload :=
      register_model_payload ctx model type trait manufacturer product_name
        description in
    dict_get "device_type" payload =
      Some (JStr ("action.devices.types." ++ type_name type)) /\
    (dict_get "traits" payload <> None <-> trait <> []) /\
    (trait <> [] ->
     dict_get "traits" payload = Some (JArr (map JStr trait))) /\
    (manifest_field "manufacturer" payload <> None <-> manufacturer <> "") /\
    (manufacturer <> "" ->
     manifest_field "manufacturer" payload = Some (JStr manufacturer)) /\
    (manifest_field "productName" payload <> None <-> product_name <> "") /\
    (product_name <> "" ->
     manifest_field "productName" payload = Some (JStr product_name)) /\
    (manifest_field "deviceDescription" payload <> None <->
     exists d, description = Some d /\ d <> "") /\
    (forall d,
        description = Some d -> d <> "" ->
        manifest_field "deviceDescription" payload = Some (JStr d)) /\
    (forall (w : world) r1 s1,
        serve (srv w) (get_request (model_url ctx model)) = (r1, s1) ->
        exists res w',
          register_model ctx model type trait manufacturer product_name
            description w = (res, w') /\
          (status_code r1 = 200 ->
           sent w' =
             (sent w
              ++ [get_request (model_url ctx model);
                  put_request (model_url ctx model)
                    (dumps (JObj payload))])%list) /\
          (status_code r1 = 400 \/ status_code r1 = 404 ->
           sent w' =
             (sent w
              ++ [get_request (model_url ctx model);
                  post_request (model_base_url ctx)
                    (dumps (JObj payload))])%list)).
Proof.
  intros RT ENV ctx model type trait manufacturer product_name description
    payload.
  destruct (register_model_payload_values ctx model type trait manufacturer
              product_name description)
    as [Hty [Htr [Hma [Hpr Hde]]]].
  fold payload in Hty, Htr, Hma, Hpr, Hde.
  split; [exact Hty |].
  split; [rewrite Htr; destruct trait; split; congruence |].
  split; [intros Hne; rewrite Htr; destruct trait; congruence |].
  split.
  { rewrite Hma, <- nonempty_true.
    destruct (nonempty manufacturer); split; congruence. }
  split.
  { intros Hne. apply nonempty_true in Hne. now rewrite Hma, Hne. }
  split.
  { rewrite Hpr, <- nonempty_true.
    destruct (nonempty product_name); split; congruence. }
  split.
  { intros Hne. apply nonempty_true in Hne. now rewrite Hpr, Hne. }
  split.
  { rewrite Hde. destruct description as [d |].
    - destruct (nonempty d) eqn:Hd; split.
      + intros _. exists d. split; [reflexivity |].
        now apply nonempty_true.
      + congruence.
      + congruence.
      + intros [d' [Heq Hne]]. injection Heq as <-.
        apply nonempty_true in Hne. congruence.
    - split; [congruence |]. intros [d [Heq _]]. discriminate. }
  split.
  { intros d -> Hne. apply nonempty_true in Hne. now rewrite Hde, Hne. }
  intros w r1 s1 Hs.
  destruct (register_model_protocol ctx model type trait manufacturer
              product_name description w r1 s1 Hs)
    as [res [w' [Hrun [_ [Hupd [Hcre _]]]]]].
  exists res, w'. split; [exact Hrun |]. split.
  - intros Hst.
    destruct (serve s1
                (put_request (model_url ctx model)
                   (model_data ctx model type trait manufacturer
                      product_name description))) as [r2 s2] eqn:Hp.
    exact (proj1 (Hupd Hst r2 s2 eq_refl)).
  - intros Hst.
    destruct (serve s1
                (post_request (model_base_url ctx)
                   (model_data ctx model type trait manufacturer
                      product_name description))) as [r2 s2] eqn:Hp.
    exact (proj1 (Hcre Hst r2 s2 eq_refl)).
Qed.

Lemma register_model_payload_fields_witness :
  let payload :=
    register_model_payload example_context "foo" LIGHT ["a"; "b"]
      "maker" "" (Some "a lamp") in
  dict_get "traits" payload = Some (JArr [JStr "a"; JStr "b"]) /\
  manifest_field "manufacturer" payload = Some (JStr "maker") /\
  manifest_field "productName" payload = None /\
  manifest_field "deviceDescription" payload = Some (JStr "a lamp").
Proof.
  destruct (register_model_payload_fields Reference.runtime
              (scripted [] None) example_context "foo" LIGHT ["a"; "b"]
              "maker" "" (Some "a lamp"))
    as [_ [_ [Htr [_ [Hma [_ [_ [_ [Hde _]]]]]]]]].
  split; [apply Htr; discriminate |].
  split; [apply Hma; discriminate |].
  split; [reflexivity |].
  apply (Hde "a lamp"); [reflexivity | discriminate].
Defined.

(** ** The device update is not atomic *)

(** C4.  When the first GET of [register-device] is answered 200 and the
    POST that recreates the device is answered with a status other than
    200, the command raises the error of that answer, and the requests it
    has sent are the GET, the DELETE and the POST, in that order: the
    server is left in the state it reached through the DELETE and the
    refused POST, and nothing is sent to restore the device. *)
Theorem register_device_update_not_atomic :
  forall (RT : PyRuntime) (ENV : Environment) ctx device model nickname
         (w : world) r1 s1 r2 s2 r3 s3,
    let url := device_url ctx device in
    let base := device_base_url ctx in
    let data := device_data device model nickname in
    serve (srv w) (get_request url) = (r1, s1) ->
    status_code r1 = 200 ->
    serve s1 (delete_request url) = (r2, s2) ->
    serve s2 (post_request base data) = (r3, s3) ->
    status_code r3 <> 200 ->
    exists e w',
      register_device ctx device model nickname w = (Raise e, w') /\
      e = raised (failed_request_exception "Failed to register device" r3) /\
      sent w' =
        (sent w
         ++ [get_request url; delete_request url;
             post_request base data])%list /\
      srv w' = s3.
Proof.
  intros RT ENV ctx device model nickname w r1 s1 r2 s2 r3 s3 url base data
    Hs Hst Hd Hp Hfail.
  destruct (register_device_protocol ctx device model nickname w r1 s1 Hs)
    as [res [w' [Hrun [_ [Hupd _]]]]].
  destruct (Hupd Hst r2 s2 r3 s3 Hd Hp) as [Hsent [Hsrv [_ Hres]]].
  exists (raised (failed_request_exception "Failed to register device" r3)),
    w'.
  rewrite Hrun, (Hres Hfail). auto.
Qed.

(** On the reference registry: the device [d1] is stored; registering it
    again under a model the registry does not know deletes it, the POST is
    refused, and the device is gone when the command has raised. *)
Lemma register_device_update_not_atomic_witness :
  exists e w',
    @register_device Reference.runtime example_registry example_context
      "d1" "ghost" None
      (set_level INFO (@start example_registry example_stock))
    = (Raise e, w') /\
    e = ClickException "Failed to register device: 400 unknown model" /\
    lookup "d1" (devices example_stock) <> None /\
    lookup "d1" (devices (srv w')) = None.
Proof.
  destruct (register_device_update_not_atomic Reference.runtime
              example_registry example_context "d1" "ghost" None
              (set_level INFO (@start example_registry example_stock))
              (answer 200 (Reference.encode
                             (JObj (register_device_payload "d1" "m1"
                                      None))))
              example_stock
              (answer 200 "{}")
              {| models := models example_stock; devices := [] |}
              (refuse 400 "unknown model")
              {| models := models example_stock; devices := [] |}
              eq_refl eq_refl eq_refl eq_refl ltac:(discriminate))
    as [e [w' [Hrun [He [_ Hsrv]]]]].
  exists e, w'. split; [exact Hrun |]. split; [exact He |].
  split; [discriminate |]. rewrite Hsrv. reflexivity.
Defined.

(** ** The composed command *)

Section Register.
Context {RT : PyRuntime} {ENV : Environment}.

Lemma register_model_sent ctx model type trait manufacturer product_name
    description (w : world) :
  exists lm,
    sent (snd (register_model ctx model type trait manufacturer
                 product_name description w)) = (sent w ++ lm)%list /\
    lm <> [] /\
    Forall (to_model ctx model) lm.
Proof.
  destruct (serve (srv w) (get_request (model_url ctx model)))
    as [r1 s1] eqn:Hs.
  destruct (register_model_protocol ctx model type trait manufacturer
              product_name description w r1 s1 Hs)
    as [res [w' [Hrun [_ [Hupd [Hcre Hunk]]]]]].
  rewrite Hrun. cbn [snd]. unfold to_model.
  destruct (Z.eq_dec (status_code r1) 200) as [H200 | H200].
  { destruct (serve s1 (put_request (model_url ctx model)
                          (model_data ctx model type trait manufacturer
                             product_name description)))
      as [r2 s2] eqn:Hp.
    destruct (Hupd H200 r2 s2 eq_refl) as [-> _].
    eexists. split; [reflexivity |]. split; [discriminate |].
    repeat constructor. }
  assert (Hpost : status_code r1 = 400 \/ status_code r1 = 404 ->
            exists lm,
              sent w' = (sent w ++ lm)%list /\ lm <> [] /\
              Forall (fun q => req_url q = model_url ctx model \/
                               req_url q = model_base_url ctx) lm).
  { intros Hst.
    destruct (serve s1 (post_request (model_base_url ctx)
                          (model_data ctx model type trait manufacturer
                             product_name description)))
      as [r2 s2] eqn:Hp.
    destruct (Hcre Hst r2 s2 eq_refl) as [-> _].
    eexists. split; [reflexivity |]. split; [discriminate |].
    constructor; [left; reflexivity |].
    constructor; [right; reflexivity | constructor]. }
  destruct (Z.eq_dec (status_code r1) 400) as [H400 | H400]; [auto |].
  destruct (Z.eq_dec (status_code r1) 404) as [H404 | H404]; [auto |].
  destruct (Hunk H200 H400 H404) as [-> _].
  eexists. split; [reflexivity |]. split; [discriminate |].
  repeat constructor.
Qed.

Lemma register_device_sent ctx device model nickname (w : world) :
  exists ld,
    sent (snd (register_device ctx device model nickname w))
      = (sent w ++ ld)%list /\
    Forall (to_device ctx device) ld.
Proof.
  destruct (serve (srv w) (get_request (device_url ctx device)))
    as [r1 s1] eqn:Hs.
  destruct (register_device_protocol ctx device model nickname w r1 s1 Hs)
    as [res [w' [Hrun [_ [Hupd [Hcre Hunk]]]]]].
  rewrite Hrun. cbn [snd]. unfold to_device.
  destruct (Z.eq_dec (status_code r1) 200) as [H200 | H200].
  { destruct (serve s1 (delete_request (device_url ctx device)))
      as [r2 s2] eqn:Hd.
    destruct (serve s2 (post_request (device_base_url ctx)
                          (device_data device model nickname)))
      as [r3 s3] eqn:Hp.
    destruct (Hupd H200 r2 s2 r3 s3 eq_refl Hp) as [-> _].
    eexists. split; [reflexivity |].
    constructor; [left; reflexivity |].
    constructor; [left; reflexivity |].
    constructor; [right; reflexivity | constructor]. }
  assert (Hpost : status_code r1 = 400 \/ status_code r1 = 404 ->
            exists ld,
              sent w' = (sent w ++ ld)%list /\
              Forall (fun q => req_url q = device_url ctx device \/
                               req_url q = device_base_url ctx) ld).
  { intros Hst.
    destruct (serve s1 (post_request (device_base_url ctx)
                          (device_data device model nickname)))
      as [r2 s2] eqn:Hp.
    destruct (Hcre Hst r2 s2 eq_refl) as [-> _].
    eexists. split; [reflexivity |].
    constructor; [left; reflexivity |].
    constructor; [right; reflexivity | constructor]. }
  destruct (Z.eq_dec (status_code r1) 400) as [H400 | H400]; [auto |].
  destruct (Z.eq_dec (status_code r1) 404) as [H404 | H404]; [auto |].
  destruct (Hunk H200 H400 H404) as [-> _].
  eexists. split; [reflexivity |]. repeat constructor.
Qed.

End Register.

(** C5.  [register] runs [register-model] first and [register-device] on
    the world that [register-model] leaves, and only when it has returned:
    the requests of the model upsert (at least its GET) all precede the
    requests of the device upsert, and when the model upsert raises,
    [register] raises the same exception and no device request is sent. *)
Theorem register_model_before_device :
  forall (RT : PyRuntime) (ENV : Environment) ctx model type trait
         manufacturer product_name description device nickname (w : world),
    exists res1 w1 res w' lm ld,
      register_model ctx model type trait manufacturer product_name
        description w = (res1, w1) /\
      register ctx model type trait manufacturer product_name description
        device nickname w = (res, w') /\
      sent w1 = (sent w ++ lm)%list /\
      sent w' = (sent w ++ lm ++ ld)%list /\
      lm <> [] /\
      Forall (to_model ctx model) lm /\
      Forall (to_device ctx device) ld /\
      (res1 = Ok tt ->
       (res, w') = register_device ctx device model nickname w1) /\
      (forall e, res1 = Raise e -> res = Raise e /\ w' = w1 /\ ld = []).
Proof.
  intros RT ENV ctx model type trait manufacturer product_name description
    device nickname w.
  destruct (register_model_sent ctx model type trait manufacturer
              product_name description w) as [lm [Hlm [Hne Hfm]]].
  destruct (register_model ctx model type trait manufacturer product_name
              description w) as [res1 w1] eqn:Hrun1.
  cbn [snd] in Hlm.
  destruct res1 as [[] | e].
  - destruct (register_device_sent ctx device model nickname w1)
      as [ld [Hld Hfd]].
    destruct (register_device ctx device model nickname w1)
      as [res w'] eqn:Hrun2.
    cbn [snd] in Hld.
    exists (Ok tt), w1, res, w', lm, ld.
    split; [reflexivity |]. split.
    { unfold register. rewrite (bind_ok _ _ _ _ _ Hrun1). exact Hrun2. }
    split; [exact Hlm |]. split.
    { rewrite Hld, Hlm. now rewrite <- app_assoc. }
    split; [exact Hne |]. split; [exact Hfm |]. split; [exact Hfd |].
    split; [intros _; symmetry; exact Hrun2 |]. intros e He. discriminate.
  - exists (Raise e), w1, (Raise e), w1, lm, [].
    split; [reflexivity |]. split.
    { unfold register. now rewrite (bind_raise _ _ _ _ _ Hrun1). }
    split; [exact Hlm |]. split.
    { rewrite Hlm. now rewrite app_nil_r. }
    split; [exact Hne |]. split; [exact Hfm |]. split; [constructor |].
    split; [discriminate |]. intros e' He. injection He as <-. auto.
Qed.

Lemma register_model_before_device_witness :
  exists res w' lm ld,
    @register Reference.runtime example_registry example_context
      "m2" SWITCH ["a"] "maker" "lamp" None "d2" (Some "nick")
      (set_level INFO (@start example_registry example_stock))
    = (res, w') /\
    sent w' = (lm ++ ld)%list /\
    lm <> [].
Proof.
  destruct (register_model_before_device Reference.runtime example_registry
              example_context "m2" SWITCH ["a"] "maker" "lamp" None
              "d2" (Some "nick")
              (set_level INFO (@start example_registry example_stock)))
    as [res1 [w1 [res [w' [lm [ld [_ [Hrun [_ [Hsent [Hne _]]]]]]]]]]].
  exists res, w', lm, ld. split; [exact Hrun |].
  split; [exact Hsent | exact Hne].
Defined.

(** ** Project resolution *)

Section Project.
Context {RT : PyRuntime} {ENV : Environment}.

Lemma credentials_loaded credentials (w : world) content fields client_id :
  read_file credentials = Some content ->
  loads content = Some fields ->
  authorize fields = Some client_id ->
  try_except
    (bind (open_file credentials)
       (fun content =>
          bind (lift (json_loads content))
            (fun fields =>
               match authorize fields with
               | Some client_id => ret client_id
               | None => raise (AuthError fields)
               end)))
    (fun e => raise (credentials_error e)) w =
  (Ok client_id, add_opened credentials w).
Proof.
  intros Hr Hl Ha.
  unfold try_except, bind, open_file, lift, json_loads, ret.
  rewrite Hr, Hl, Ha. reflexivity.
Qed.

Lemma cli_with_project p client_secret verbose api_endpoint credentials
    (w : world) content fields client_id :
  read_file credentials = Some content ->
  loads content = Some fields ->
  authorize fields = Some client_id ->
  cli (Some p) client_secret verbose api_endpoint credentials w =
  (Ok (context_of api_endpoint (JStr p)),
   set_level (if verbose then DEBUG else INFO)
     (add_opened credentials w)).
Proof.
  intros Hr Hl Ha. unfold cli.
  rewrite (bind_ok _ _ _ _ _ (credentials_loaded _ w _ _ _ Hr Hl Ha)).
  reflexivity.
Qed.

Lemma cli_secret_found path (w : world) id :
  secret_project path = Some id ->
  cli_secret path w = (Ok id, add_opened path w).
Proof.
  unfold secret_project, cli_secret.
  unfold try_except, bind, open_file, lift, json_loads, raise.
  destruct (read_file path) as [s |]; [| discriminate].
  destruct (loads s) as [[| b | n | t | l | secret] |]; try discriminate.
  cbn [getitem].
  destruct (dict_get "installed" secret)
    as [[| b | n | t | l | installed] |]; try discriminate.
  cbn [getitem]. now intros ->.
Qed.

Lemma cli_secret_missing path (w : world) :
  secret_project path = None ->
  exists e,
    cli_secret path w =
    (Raise (client_secret_error e path), add_opened path w).
Proof.
  unfold secret_project, cli_secret.
  unfold try_except, bind, open_file, lift, json_loads, raise.
  destruct (read_file path) as [s |]; [| eexists; reflexivity].
  destruct (loads s) as [[| b | n | t | l | secret] |];
    try (eexists; reflexivity).
  cbn [getitem].
  destruct (dict_get "installed" secret)
    as [[| b | n | t | l | installed] |]; try (eexists; reflexivity).
  cbn [getitem]. intros ->. eexists; reflexivity.
Qed.

Lemma cli_with_secret client_secret verbose api_endpoint credentials
    (w : world) content fields client_id :
  read_file credentials = Some content ->
  loads content = Some fields ->
  authorize fields = Some client_id ->
  cli None client_secret verbose api_endpoint credentials w =
  bind (cli_secret (secret_path client_secret client_id))
    (fun project =>
       bind (logging_basicConfig (if verbose then DEBUG else INFO))
         (fun _ => ret (context_of api_endpoint project)))
    (add_opened credentials w).
Proof.
  intros Hr Hl Ha. unfold cli.
  rewrite (bind_ok _ _ _ _ _ (credentials_loaded _ w _ _ _ Hr Hl Ha)).
  reflexivity.
Qed.

End Project.

(** C6.  Once the credentials are loaded: a project given with
    [--project] is used as it is and the credentials file is the only file
    opened; with no [--project], the file read is the one given with
    [--client-secret], or else [client_secret_<client_id>.json], and the
    project is the [project_id] of its [installed] object; when that file
    yields no project id, [cli] raises the client-secret [ClickException]
    and no context is built. *)
Theorem project_resolution :
  forall (RT : PyRuntime) (ENV : Environment) project client_secret verbose
         api_endpoint credentials (w : world) content fields client_id,
    read_file credentials = Some content ->
    loads content = Some fields ->
    authorize fields = Some client_id ->
    exists res w',
      cli project client_secret verbose api_endpoint credentials w
        = (res, w') /\
      (forall p,
          project = Some p ->
          res = Ok (context_of api_endpoint (JStr p)) /\
          opened w' = (opened w ++ [credentials])%list) /\
      (project = None ->
       exists path,
         (client_secret = None ->
          path = "client_secret_" ++ py_str client_id ++ ".json") /\
         (forall given_path, client_secret = Some given_path ->
                             path = given_path) /\
         opened w' = (opened w ++ [credentials; path])%list /\
         (forall id,
             secret_project path = Some id ->
             res = Ok (context_of api_endpoint id)) /\
         (secret_project path = None ->
          exists e, res = Raise (client_secret_error e path))).
Proof.
  intros RT ENV project client_secret verbose api_endpoint credentials w
    content fields client_id Hr Hl Ha.
  destruct project as [p |].
  - rewrite (cli_with_project p _ _ _ _ w _ _ _ Hr Hl Ha).
    do 2 eexists. split; [reflexivity |]. split.
    + intros p' Hp. injection Hp as <-. split; reflexivity.
    + discriminate.
  - rewrite (cli_with_secret _ _ _ _ w _ _ _ Hr Hl Ha).
    set (path := secret_path client_secret client_id).
    destruct (secret_project path) as [id |] eqn:Hsec.
    + rewrite (bind_ok _ _ _ _ _ (cli_secret_found path _ id Hsec)).
      do 2 eexists. split; [reflexivity |]. split; [discriminate |].
      intros _. exists path. split; [intros ->; reflexivity |].
      split; [intros given_path ->; reflexivity |]. split.
      { cbn. now rewrite <- app_assoc. }
      split; [| intros Hno; rewrite Hsec in Hno; discriminate].
      intros id' Hid. rewrite Hsec in Hid. injection Hid as <-.
      reflexivity.
    + destruct (cli_secret_missing path (add_opened credentials w) Hsec)
        as [e He].
      rewrite (bind_raise _ _ _ _ _ He).
      do 2 eexists. split; [reflexivity |]. split; [discriminate |].
      intros _. exists path. split; [intros ->; reflexivity |].
      split; [intros given_path ->; reflexivity |]. split.
      { cbn. now rewrite <- app_assoc. }
      split; [intros id Hid; rewrite Hsec in Hid; discriminate |].
      intros _. exists e. reflexivity.
Qed.

Lemma project_resolution_witness :
  exists w',
    @cli Reference.runtime (scripted example_files (Some (JStr "abc")))
      None None false "embeddedassistant.googleapis.com" "credentials.json"
      (@start (scripted example_files (Some (JStr "abc"))) [])
    = (Ok example_context, w') /\
    opened w' = ["credentials.json"; "client_secret_abc.json"].
Proof.
  destruct (project_resolution Reference.runtime
              (scripted example_files (Some (JStr "abc")))
              None None false "embeddedassistant.googleapis.com"
              "credentials.json"
              (@start (scripted example_files (Some (JStr "abc"))) [])
              "{}" (JObj []) (JStr "abc") eq_refl eq_refl eq_refl)
    as [res [w' [Hrun [_ Hsecret]]]].
  destruct (Hsecret eq_refl) as [path [Hdefault [_ [Hopened [Hfound _]]]]].
  exists w'. rewrite Hrun.
  rewrite (Hdefault eq_refl) in Hopened, Hfound.
  rewrite (Hfound (JStr "p") eq_refl). split; [reflexivity | exact Hopened].
Defined.

(** ** The group callback *)

Section GroupCallback.
Context {RT : PyRuntime} {ENV : Environment}.

Ltac case_split :=
  repeat match goal with
         | |- context [match read_file ?p with _ => _ end] =>
             destruct (read_file p); cbn
         | |- context [match loads ?s with _ => _ end] =>
             destruct (loads s); cbn
         | |- context [match authorize ?f with _ => _ end] =>
             destruct (authorize f); cbn
         | |- context [match dict_get ?k ?d with _ => _ end] =>
             destruct (dict_get k d); cbn
         | |- context [match ?x with _ => _ end] =>
             is_var x; destruct x; cbn
         end.

Lemma cli_outcome project client_secret verbose api_endpoint credentials
    (w : world) :
  let run := cli project client_secret verbose api_endpoint credentials w in
  sent (snd run) = sent w /\
  srv (snd run) = srv w /\
  out (snd run) = out w /\
  match fst run with
  | Ok _ => level (snd run) = (if verbose then DEBUG else INFO)
  | Raise e => level (snd run) = level w /\ exists msg, e = ClickException msg
  end.
Proof.
  unfold cli, try_except, bind, open_file, lift, json_loads, ret, raise,
    logging_basicConfig, credentials_error, client_secret_error.
  unfold getitem. cbn. case_split; repeat split; eauto.
Qed.

Lemma cli_credentials_fail project client_secret verbose api_endpoint
    credentials (w : world) :
  credentials_fail credentials ->
  exists e,
    cli project client_secret verbose api_endpoint credentials w =
    (Raise (credentials_error e), add_opened credentials w).
Proof.
  unfold credentials_fail, cli, try_except, bind, open_file, lift,
    json_loads, ret, raise.
  destruct (read_file credentials) as [content |];
    [| intros _; eexists; reflexivity].
  destruct (loads content) as [fields |];
    [| intros _; eexists; reflexivity].
  intros ->. eexists; reflexivity.
Qed.

End GroupCallback.

(** X1.  Whatever its arguments and the files of the machine, [cli] sends
    no request, leaves the server as it is and prints nothing; when it
    returns, the logging level is DEBUG with [--verbose] and INFO without;
    when it raises, the level is unchanged and the exception is a
    [ClickException]. *)
Theorem cli_leaves_registry_alone :
  forall (RT : PyRuntime) (ENV : Environment) project client_secret verbose
         api_endpoint credentials (w : world),
    let run := cli project client_secret verbose api_endpoint credentials w in
    sent (snd run) = sent w /\
    srv (snd run) = srv w /\
    out (snd run) = out w /\
    match fst run with
    | Ok _ => level (snd run) = (if verbose then DEBUG else INFO)
    | Raise e =>
        level (snd run) = level w /\ exists msg, e = ClickException msg
    end.
Proof. intros. apply cli_outcome. Qed.

(** X2.  When the credentials cannot be loaded (the file does not open,
    does not decode, or the credentials are refused), [cli] raises the
    credentials [ClickException] whether or not a project was given; the
    credentials file is the only file it has opened. *)
Theorem cli_credentials_first :
  forall (RT : PyRuntime) (ENV : Environment) project client_secret verbose
         api_endpoint credentials (w : world),
    credentials_fail credentials ->
    exists e w',
      cli project client_secret verbose api_endpoint credentials w =
      (Raise (credentials_error e), w') /\
      opened w' = (opened w ++ [credentials])%list /\
      level w' = level w.
Proof.
  intros RT ENV project client_secret verbose api_endpoint credentials w H.
  destruct (cli_credentials_fail project client_secret verbose api_endpoint
              credentials w H) as [e He].
  exists e, (add_opened credentials w). repeat split. exact He.
Qed.

Lemma cli_credentials_first_witness :
  exists e w',
    @cli Reference.runtime (scripted [] None) (Some "p") None false
      "embeddedassistant.googleapis.com" "credentials.json"
      (@start (scripted [] None) []) =
    (Raise (@credentials_error Reference.runtime e), w') /\
    opened w' = ["credentials.json"].
Proof.
  destruct (cli_credentials_first Reference.runtime (scripted [] None)
              (Some "p") None false "embeddedassistant.googleapis.com"
              "credentials.json" (@start (scripted [] None) []) I)
    as [e [w' [Hrun [Hopened _]]]].
  exists e, w'. split; [exact Hrun | exact Hopened].
Defined.

(** ** What the read commands send *)

Section Silence.
Context {RT : PyRuntime} {ENV : Environment}.

Lemma silent_ret {A} (a : A) : silent (ret a).
Proof. intros w. split; reflexivity. Qed.

Lemma silent_lift {A} (r : result A) : silent (lift r).
Proof. intros w. split; reflexivity. Qed.

Lemma silent_raise_from {A} (r : result exn) : silent (raise_from (A := A) r).
Proof. intros w. rewrite raise_from_run. split; reflexivity. Qed.

Lemma silent_log l msg : silent (log l msg).
Proof.
  intros w. rewrite log_run. cbn [snd].
  now rewrite sent_logged, srv_logged.
Qed.

Lemma silent_bind {A B} (m : M A) (k : A -> M B) :
  silent m -> (forall a, silent (k a)) -> silent (bind m k).
Proof.
  intros Hm Hk w. unfold bind. specialize (Hm w).
  destruct (m w) as [[a | e] w1]; cbn [snd] in *.
  - destruct (Hk a w1) as [H1 H2]. rewrite H1, H2. exact Hm.
  - exact Hm.
Qed.

Lemma silent_for_each {A} (l : list A) (body : A -> M unit) :
  (forall a, silent (body a)) -> silent (for_each l body).
Proof.
  intros Hb. induction l as [| a l IH]; cbn [for_each].
  - apply silent_ret.
  - apply silent_bind; [apply Hb | intros _; exact IH].
Qed.

Lemma silent_pretty_print_model v : silent (pretty_print_model v).
Proof.
  unfold pretty_print_model, logging_info.
  repeat first [ apply silent_bind; [| intros ?]
               | apply silent_lift | apply silent_log
               | apply silent_for_each; intros ? ].
Qed.

Lemma silent_pretty_print_device v : silent (pretty_print_device v).
Proof.
  unfold pretty_print_device, logging_info.
  repeat first [ apply silent_bind; [| intros ?]
               | apply silent_lift | apply silent_log | apply silent_ret
               | match goal with |- silent (if ?b then _ else _) =>
                   destruct b end ].
Qed.

(** A GET followed by silent work sends that one request. *)
Lemma get_then_silent {A} url (k : response -> M A) (w : world) :
  (forall r, silent (k r)) ->
  sent (snd (bind (session_get url) k w))
    = (sent w ++ [get_request url])%list /\
  srv (snd (bind (session_get url) k w))
    = snd (serve (srv w) (get_request url)).
Proof.
  intros Hk. unfold bind, session_get, send.
  destruct (serve (srv w) (get_request url)) as [r s].
  destruct (Hk r (add_sent (get_request url) s w)) as [H1 H2].
  rewrite H1, H2. split; reflexivity.
Qed.

Lemma get_sends_one ctx resource id (w : world) :
  let url := join "/" [API_URL ctx; resource; id] in
  sent (snd (get ctx resource id w)) = (sent w ++ [get_request url])%list /\
  srv (snd (get ctx resource id w)) = snd (serve (srv w) (get_request url)).
Proof.
  intros url. unfold get. apply get_then_silent. intros r.
  destruct (negb _); [apply silent_raise_from |].
  apply silent_bind; [apply silent_lift | intros response].
  apply silent_bind; [| intros _; apply silent_log].
  destruct (String.eqb resource "deviceModels");
    [apply silent_pretty_print_model |].
  destruct (String.eqb resource "devices");
    [apply silent_pretty_print_device | apply silent_ret].
Qed.

Lemma list_sends_one ctx resource (w : world) :
  let url := join "/" [API_URL ctx; resource] in
  sent (snd (list_resources ctx resource w))
    = (sent w ++ [get_request url])%list /\
  srv (snd (list_resources ctx resource w))
    = snd (serve (srv w) (get_request url)).
Proof.
  intros url. unfold list_resources. apply get_then_silent. intros r.
  destruct (negb _); [apply silent_raise_from |].
  apply silent_bind; [apply silent_lift | intros response].
  apply silent_bind; [apply silent_log | intros _].
  destruct (String.eqb resource "deviceModels").
  { apply silent_bind; [apply silent_lift | intros models].
    apply silent_bind; [apply silent_lift | intros items].
    apply silent_for_each. apply silent_pretty_print_model. }
  destruct (String.eqb resource "devices"); [| apply silent_ret].
  apply silent_bind; [apply silent_lift | intros devices].
  apply silent_bind; [apply silent_lift | intros items].
  apply silent_for_each. apply silent_pretty_print_device.
Qed.

End Silence.

(** X3.  [get] and [list] send exactly one request, the GET for the
    resource or the collection, whatever the answer and whatever happens
    while it is decoded and printed; the server is left as that GET left
    it. *)
Theorem read_commands_send_one_get :
  forall (RT : PyRuntime) (ENV : Environment) ctx resource id (w : world),
    (sent (snd (get ctx resource id w))
       = (sent w ++ [get_request (join "/" [API_URL ctx; resource; id])])%list
     /\
     srv (snd (get ctx resource id w))
       = snd (serve (srv w)
                (get_request (join "/" [API_URL ctx; resource; id]))))
    /\
    (sent (snd (list_resources ctx resource w))
       = (sent w ++ [get_request (join "/" [API_URL ctx; resource])])%list
     /\
     srv (snd (list_resources ctx resource w))
       = snd (serve (srv w)
                (get_request (join "/" [API_URL ctx; resource])))).
Proof.
  intros. split; [apply get_sends_one | apply list_sends_one].
Qed.

(** ** What the upsert commands send *)

Section Transcripts.
Context {RT : PyRuntime} {ENV : Environment}.

Lemma register_model_transcript ctx model type trait manufacturer
    product_name description (w : world) :
  exists l,
    sent (snd (register_model ctx model type trait manufacturer
                 product_name description w)) = (sent w ++ l)%list /\
    In l (model_transcripts ctx model
            (model_data ctx model type trait manufacturer product_name
               description)).
Proof.
  destruct (serve (srv w) (get_request (model_url ctx model)))
    as [r1 s1] eqn:Hs.
  destruct (register_model_protocol ctx model type trait manufacturer
              product_name description w r1 s1 Hs)
    as [res [w' [Hrun [_ [Hupd [Hcre Hunk]]]]]].
  rewrite Hrun. cbn [snd]. unfold model_transcripts.
  destruct (Z.eq_dec (status_code r1) 200) as [H200 | H200].
  { destruct (serve s1 (put_request (model_url ctx model)
                          (model_data ctx model type trait manufacturer
                             product_name description)))
      as [r2 s2] eqn:Hp.
    destruct (Hupd H200 r2 s2 eq_refl) as [-> _].
    eexists. split; [reflexivity |]. right; left; reflexivity. }
  assert (Hpost : status_code r1 = 400 \/ status_code r1 = 404 ->
            exists l,
              sent w' = (sent w ++ l)%list /\
              In l (model_transcripts ctx model
                      (model_data ctx model type trait manufacturer
                         product_name description))).
  { intros Hst.
    destruct (serve s1 (post_request (model_base_url ctx)
                          (model_data ctx model type trait manufacturer
                             product_name description)))
      as [r2 s2] eqn:Hp.
    destruct (Hcre Hst r2 s2 eq_refl) as [-> _].
    eexists. split; [reflexivity |]. right; right; left; reflexivity. }
  destruct (Z.eq_dec (status_code r1) 400) as [H400 | H400]; [auto |].
  destruct (Z.eq_dec (status_code r1) 404) as [H404 | H404]; [auto |].
  destruct (Hunk H200 H400 H404) as [-> _].
  eexists. split; [reflexivity |]. left; reflexivity.
Qed.

Lemma register_device_transcript ctx device model nickname (w : world) :
  exists l,
    sent (snd (register_device ctx device model nickname w))
      = (sent w ++ l)%list /\
    In l (device_transcripts ctx device
            (device_data device model nickname)).
Proof.
  destruct (serve (srv w) (get_request (device_url ctx device)))
    as [r1 s1] eqn:Hs.
  destruct (register_device_protocol ctx device model nickname w r1 s1 Hs)
    as [res [w' [Hrun [_ [Hupd [Hcre Hunk]]]]]].
  rewrite Hrun. cbn [snd]. unfold device_transcripts.
  destruct (Z.eq_dec (status_code r1) 200) as [H200 | H200].
  { destruct (serve s1 (delete_request (device_url ctx device)))
      as [r2 s2] eqn:Hd.
    destruct (serve s2 (post_request (device_base_url ctx)
                          (device_data device model nickname)))
      as [r3 s3] eqn:Hp.
    destruct (Hupd H200 r2 s2 r3 s3 eq_refl Hp) as [-> _].
    eexists. split; [reflexivity |]. right; right; left; reflexivity. }
  assert (Hpost : status_code r1 = 400 \/ status_code r1 = 404 ->
            exists l,
              sent w' = (sent w ++ l)%list /\
              In l (device_transcripts ctx device
                      (device_data device model nickname))).
  { intros Hst.
    destruct (serve s1 (post_request (device_base_url ctx)
                          (device_data device model nickname)))
      as [r2 s2] eqn:Hp.
    destruct (Hcre Hst r2 s2 eq_refl) as [-> _].
    eexists. split; [reflexivity |]. right; left; reflexivity. }
  destruct (Z.eq_dec (status_code r1) 400) as [H400 | H400]; [auto |].
  destruct (Z.eq_dec (status_code r1) 404) as [H404 | H404]; [auto |].
  destruct (Hunk H200 H400 H404) as [-> _].
  eexists. split; [reflexivity |]. left; reflexivity.
Qed.

End Transcripts.

(** X4.  Whatever the server answers, the requests of [register-model]
    are one of: the GET alone; the GET and the PUT; the GET and the POST.
    Those of [register-device] are one of: the GET alone; the GET and the
    POST; the GET, the DELETE and the POST.  So the model upsert never
    deletes, the device upsert never sends PUT, and neither sends more
    than three requests. *)
Theorem upsert_transcripts :
  forall (RT : PyRuntime) (ENV : Environment) ctx (w : world),
    (forall model type trait manufacturer product_name description,
        exists l,
          sent (snd (register_model ctx model type trait manufacturer
                       product_name description w)) = (sent w ++ l)%list /\
          In l (model_transcripts ctx model
                  (model_data ctx model type trait manufacturer
                     product_name description)) /\
          Forall (fun q => req_method q <> DELETE) l /\
          (List.length l <= 2)%nat)
    /\
    (forall device model nickname,
        exists l,
          sent (snd (register_device ctx device model nickname w))
            = (sent w ++ l)%list /\
          In l (device_transcripts ctx device
                  (device_data device model nickname)) /\
          Forall (fun q => req_method q <> PUT) l /\
          (List.length l <= 3)%nat).
Proof.
  intros RT ENV ctx w. split.
  - intros model type trait manufacturer product_name description.
    destruct (register_model_transcript ctx model type trait manufacturer
                product_name description w) as [l [Hs Hin]].
    exists l. split; [exact Hs |]. split; [exact Hin |].
    unfold model_transcripts in Hin. cbn [In] in Hin.
    destruct Hin as [<- | [<- | [<- | []]]];
      (split; [repeat constructor; discriminate | cbn; lia]).
  - intros device model nickname.
    destruct (register_device_transcript ctx device model nickname w)
      as [l [Hs Hin]].
    exists l. split; [exact Hs |]. split; [exact Hin |].
    unfold device_transcripts in Hin. cbn [In] in Hin.
    destruct Hin as [<- | [<- | [<- | []]]];
      (split; [repeat constructor; discriminate | cbn; lia]).
Qed.

(** ** The entry point *)

Section Main.
Context {RT : PyRuntime} {ENV : Environment}.

Lemma starts_with_append p s : starts_with p (p ++ s) = true.
Proof.
  induction p as [| c p IH]; cbn; [now destruct s |].
  now rewrite Ascii.eqb_refl, IH.
Qed.

Lemma cli_context project client_secret verbose api_endpoint credentials
    (w : world) ctx :
  fst (cli project client_secret verbose api_endpoint credentials w)
    = Ok ctx ->
  exists p, ctx = context_of api_endpoint p.
Proof.
  unfold cli, try_except, bind, open_file, lift, json_loads, ret, raise,
    logging_basicConfig, getitem.
  cbn.
  repeat match goal with
         | |- context [match read_file ?p with _ => _ end] =>
             destruct (read_file p); cbn
         | |- context [match loads ?s with _ => _ end] =>
             destruct (loads s); cbn
         | |- context [match authorize ?f with _ => _ end] =>
             destruct (authorize f); cbn
         | |- context [match dict_get ?k ?d with _ => _ end] =>
             destruct (dict_get k d); cbn
         | |- context [match ?x with _ => _ end] =>
             is_var x; destruct x; cbn
         end;
    intros H; try discriminate; injection H as <-;
    match goal with
    | |- exists p, {| API_URL := _; PROJECT_ID := ?x |} = _ => exists x
    end; reflexivity.
Qed.

Lemma to_model_below ctx model q : to_model ctx model q -> below ctx q.
Proof.
  unfold to_model, below, model_url, model_base_url, join.
  cbn [String.concat]. intros [-> | ->].
  - exists ("deviceModels" ++ "/" ++ model). now rewrite !append_assoc.
  - exists "deviceModels". reflexivity.
Qed.

Lemma to_device_below ctx device q : to_device ctx device q -> below ctx q.
Proof.
  unfold to_device, below, device_url, device_base_url, join.
  cbn [String.concat]. intros [-> | ->].
  - exists ("devices" ++ "/" ++ device). now rewrite !append_assoc.
  - exists "devices". reflexivity.
Qed.

Lemma invoke_sent ctx c (w : world) :
  exists l,
    sent (snd (invoke ctx c w)) = (sent w ++ l)%list /\
    Forall (below ctx) l.
Proof.
  destruct c as [model type trait manufacturer product_name description
                   device nickname
                | model type trait manufacturer product_name description
                | device model nickname
                | resource id
                | resource]; cbn [invoke].
  - destruct (register_model_sent ctx model type trait manufacturer
                product_name description w) as [lm [Hlm [_ Hfm]]].
    unfold register, bind.
    destruct (register_model ctx model type trait manufacturer product_name
                description w) as [[[] | e] w1]; cbn [snd] in *.
    + destruct (register_device_sent ctx device model nickname w1)
        as [ld [Hld Hfd]].
      exists (lm ++ ld)%list. split.
      * rewrite Hld, Hlm. now rewrite <- app_assoc.
      * apply Forall_app. split.
        -- eapply Forall_impl; [| exact Hfm]. apply to_model_below.
        -- eapply Forall_impl; [| exact Hfd]. apply to_device_below.
    + exists lm. split; [exact Hlm |].
      eapply Forall_impl; [| exact Hfm]. apply to_model_below.
  - destruct (register_model_sent ctx model type trait manufacturer
                product_name description w) as [lm [Hlm [_ Hfm]]].
    exists lm. split; [exact Hlm |].
    eapply Forall_impl; [| exact Hfm]. apply to_model_below.
  - destruct (register_device_sent ctx device model nickname w)
      as [ld [Hld Hfd]].
    exists ld. split; [exact Hld |].
    eapply Forall_impl; [| exact Hfd]. apply to_device_below.
  - eexists. split; [apply get_sends_one |].
    constructor; [| constructor].
    exists (resource ++ "/" ++ id). reflexivity.
  - eexists. split; [apply list_sends_one |].
    constructor; [| constructor].
    exists resource. reflexivity.
Qed.

Lemma below_under_api api_endpoint p q :
  below (context_of api_endpoint p) q -> under_api api_endpoint q.
Proof.
  unfold below, under_api, context_of. cbn [API_URL].
  intros [tail ->].
  replace (("https://" ++ api_endpoint ++ "/v1alpha2/projects/" ++ py_str p)
           ++ "/" ++ tail)
    with (("https://" ++ api_endpoint ++ "/v1alpha2/projects/")
          ++ py_str p ++ "/" ++ tail)
    by (now rewrite !append_assoc).
  apply starts_with_append.
Qed.

End Main.



(** X6.  Whatever the subcommand and the answers of the server, every
    request [main] sends goes to a URL that starts with
    [https://<api_endpoint>/v1alpha2/projects/]. *)
Theorem main_requests_under_api :
  forall (RT : PyRuntime) (ENV : Environment) project client_secret verbose
         api_endpoint credentials c (w : world),
    exists l,
      sent (snd (main project client_secret verbose api_endpoint
                   credentials c w)) = (sent w ++ l)%list /\
      Forall (under_api api_endpoint) l.
Proof.
  intros RT ENV project client_secret verbose api_endpoint credentials c w.
  destruct (cli_outcome project client_secret verbose api_endpoint
              credentials w) as [Hsent _].
  pose proof (cli_context project client_secret verbose api_endpoint
                credentials w) as Hctx.
  unfold main, bind.
  destruct (cli project client_secret verbose api_endpoint credentials w)
    as [[ctx | e] w1]; cbn [fst snd] in *.
  - destruct (Hctx ctx eq_refl) as [p ->].
    destruct (invoke_sent (context_of api_endpoint p) c w1) as [l [Hl Hf]].
    exists l. split; [now rewrite Hl, Hsent |].
    eapply Forall_impl; [| exact Hf]. apply below_under_api.
  - exists []. split; [now rewrite app_nil_r | constructor].
Qed.

(** ** More on the error translator *)

Section TranslatorOutcomes.
Context {RT : PyRuntime}.








End TranslatorOutcomes.


(** X8.  A body that decodes to something other than an object, an
    [error] that is not an object, or a [code] that [%d] cannot print
    (with a [message] present) makes the translator raise [TypeError] for
    that value. *)
Theorem failed_request_exception_type_error :
  forall (RT : PyRuntime) message r,
    (forall v,
        loads (text r) = Some v -> not_an_object v ->
        failed_request_exception message r = Raise (TypeError v))
    /\
    (forall fields error,
        loads (text r) = Some (JObj fields) ->
        dict_get "error" fields = Some error ->
        not_an_object error ->
        failed_request_exception message r = Raise (TypeError error))
    /\
    (forall fields err code msg,
        loads (text r) = Some (JObj fields) ->
        dict_get "error" fields = Some (JObj err) ->
        dict_get "code" err = Some code ->
        dict_get "message" err = Some msg ->
        not_a_number code ->
        failed_request_exception message r = Raise (TypeError code)).
Proof.
  intros RT message r. unfold failed_request_exception, structured_error.
  split; [| split].
  - intros v -> Hv. destruct v; cbn in Hv |- *; try reflexivity.
    contradiction.
  - intros fields error -> He Herr. cbn [getitem]. rewrite He.
    cbn [rbind]. destruct error; cbn in Herr |- *; try reflexivity.
    contradiction.
  - intros fields err code msg -> He Hc Hm Hn. cbn [getitem]. rewrite He.
    cbn [rbind getitem]. rewrite Hc. cbn [rbind]. rewrite Hm. cbn [rbind].
    destruct code; cbn in Hn |- *; try reflexivity; contradiction.
Qed.

Lemma failed_request_exception_type_error_witness :
  @failed_request_exception Reference.runtime "Failed to get resource"
    {| status_code := 500; text := "[]" |} = Raise (TypeError (JArr [])).
Proof.
  refine (proj1 (failed_request_exception_type_error Reference.runtime
                   "Failed to get resource"
                   {| status_code := 500; text := "[]" |})
            (JArr []) _ I).
  reflexivity.
Defined.

(** ** More on the read commands *)

Section ReadCommands.
Context {RT : PyRuntime} {ENV : Environment}.

Lemma pretty_print_device_item v b (w : world) :
  level w <> WARNING ->
  device_item v = Some b ->
  pretty_print_device v w = (Ok tt, add_out b w).
Proof.
  intros Hl. destruct v as [| | | | | d]; cbn [device_item]; try discriminate.
  destruct (dict_get "id" d) as [id |] eqn:Hid; [| discriminate].
  intros H. injection H as <-. now apply pretty_print_device_ok.
Qed.

Lemma pretty_print_model_item v b (w : world) :
  level w <> WARNING ->
  model_item v = Some b ->
  pretty_print_model v w = (Ok tt, add_out b w).
Proof.
  intros Hl. destruct v as [| | | | | d]; cbn [model_item]; try discriminate.
  destruct (dict_get "deviceModelId" d) as [id |] eqn:H1; [| discriminate].
  destruct (dict_get "projectId" d) as [project |] eqn:H2; [| discriminate].
  destruct (dict_get "deviceType" d) as [type |] eqn:H3; [| discriminate].
  destruct (dict_get "traits" d) as [traits |] eqn:H4; [| discriminate].
  destruct (iterate traits) as [items |] eqn:H5; [| discriminate].
  intros H. injection H as <-.
  now apply (pretty_print_model_ok d id project type traits items).
Qed.

Lemma add_out_nil (w : world) : add_out [] w = w.
Proof. destruct w. unfold add_out. cbn. now rewrite app_nil_r. Qed.

(** A loop over well-formed items prints their blocks in order. *)
Lemma for_each_blocks (printer : json -> M unit)
    (item : json -> option (list output)) :
  (forall v b (w : world),
      level w <> WARNING -> item v = Some b ->
      printer v w = (Ok tt, add_out b w)) ->
  forall items blocks (w : world),
    level w <> WARNING ->
    Forall2 (fun v b => item v = Some b) items blocks ->
    for_each items printer w = (Ok tt, add_out (List.concat blocks) w).
Proof.
  intros Hp items blocks w Hl H. revert w Hl.
  induction H as [| v b items blocks Hv _ IH]; intros w Hl.
  - cbn. unfold ret. now rewrite add_out_nil.
  - cbn [for_each List.concat].
    rewrite (bind_ok _ _ _ _ _ (Hp v b w Hl Hv)).
    rewrite IH by exact Hl. now rewrite add_out_add_out.
Qed.

(** A loop that meets a bad item has printed the blocks before it. *)
Lemma for_each_stops (printer : json -> M unit)
    (item : json -> option (list output)) :
  (forall v b (w : world),
      level w <> WARNING -> item v = Some b ->
      printer v w = (Ok tt, add_out b w)) ->
  forall good blocks bad rest e (w : world),
    level w <> WARNING ->
    Forall2 (fun v b => item v = Some b) good blocks ->
    (forall w' : world, printer bad w' = (Raise e, w')) ->
    for_each (good ++ bad :: rest) printer w =
    (Raise e, add_out (List.concat blocks) w).
Proof.
  intros Hp good blocks bad rest e w Hl H Hbad. revert w Hl.
  induction H as [| v b good blocks Hv _ IH]; intros w Hl.
  - cbn [app for_each List.concat]. rewrite (bind_raise _ _ _ _ _ (Hbad w)).
    now rewrite add_out_nil.
  - cbn [app for_each List.concat].
    rewrite (bind_ok _ _ _ _ _ (Hp v b w Hl Hv)).
    rewrite IH by exact Hl. now rewrite add_out_add_out.
Qed.

(** [list] once the 200 answer is decoded to an object. *)
Lemma list_decoded ctx resource (w : world) r s' fields :
  serve (srv w) (get_request (join "/" [API_URL ctx; resource]))
    = (r, s') ->
  status_code r = 200 ->
  loads (text r) = Some (JObj fields) ->
  list_resources ctx resource w =
  (if String.eqb resource "deviceModels" then
     bind (lift (getitem (JObj fields) "deviceModels"))
       (fun models =>
          bind (lift (iterate models))
            (fun items => for_each items pretty_print_model))
   else if String.eqb resource "devices" then
     bind (lift (getitem (JObj fields) "devices"))
       (fun devices =>
          bind (lift (iterate devices))
            (fun items => for_each items pretty_print_device))
   else ret tt)
    (logged DEBUG (text r)
       (add_sent (get_request (join "/" [API_URL ctx; resource])) s' w)).
Proof.
  intros Hs Hst Hl. rewrite (list_200 ctx resource w r s' Hs Hst).
  unfold json_loads. rewrite Hl. unfold lift at 1, bind at 1.
  unfold logging_debug. now rewrite (bind_ok _ _ _ _ _ (log_run _ _ _)).
Qed.

End ReadCommands.

(** X9.  [list --device] on a 200 answer whose [devices] is a list of
    objects that each have an [id]: the command returns and prints, after
    the raw body in verbose mode, the block of every device, in the order
    of the list, and nothing else; for an empty list it prints no block. *)
Theorem list_prints_every_device :
  forall (RT : PyRuntime) (ENV : Environment) ctx (w : world) r s' fields
         items blocks,
    level w <> WARNING ->
    serve (srv w) (get_request (join "/" [API_URL ctx; "devices"]))
      = (r, s') ->
    status_code r = 200 ->
    loads (text r) = Some (JObj fields) ->
    dict_get "devices" fields = Some (JArr items) ->
    Forall2 (fun v b => device_item v = Some b) items blocks ->
    exists w',
      list_resources ctx "devices" w = (Ok tt, w') /\
      out w' =
        (out w ++ log_lines DEBUG (text r) w ++ List.concat blocks)%list.
Proof.
  intros RT ENV ctx w r s' fields items blocks Hl Hs Hst Hld Hd Hitems.
  rewrite (list_decoded ctx _ w r s' fields Hs Hst Hld).
  cbn [String.eqb Ascii.eqb Bool.eqb getitem]. rewrite Hd.
  unfold lift at 1, bind at 1. unfold lift at 1, bind at 1. cbn [iterate].
  rewrite (for_each_blocks pretty_print_device device_item
             pretty_print_device_item items blocks)
    by (rewrite ?level_logged; assumption).
  eexists. split; [reflexivity |].
  cbn [out add_out]. rewrite out_logged_eq. cbn [out add_sent].
  unfold log_lines. cbn [level add_sent]. now rewrite <- app_assoc.
Qed.

Lemma list_prints_every_device_witness :
  exists w',
    @list_resources Reference.runtime (scripted [] None) example_context
      "devices"
      (set_level DEBUG
         (@start (scripted [] None)
            [{| status_code := 200; text := body_devices |}]))
    = (Ok tt, w') /\
    out w' =
      [Stderr body_devices;
       Stderr "Device Instance Id: d1"; Stderr "";
       Stderr "Device Instance Id: d2"; Stderr "    Nickname: n";
       Stderr ""].
Proof.
  destruct (list_prints_every_device Reference.runtime (scripted [] None)
              example_context
              (set_level DEBUG
                 (@start (scripted [] None)
                    [{| status_code := 200; text := body_devices |}]))
              {| status_code := 200; text := body_devices |} []
              [("devices",
                JArr [JObj [("id", JStr "d1")];
                      JObj [("id", JStr "d2"); ("nickname", JStr "n")]])]
              [JObj [("id", JStr "d1")];
               JObj [("id", JStr "d2"); ("nickname", JStr "n")]]
              [[Stderr "Device Instance Id: d1"; Stderr ""];
               [Stderr "Device Instance Id: d2"; Stderr "    Nickname: n";
                Stderr ""]]
              ltac:(discriminate) eq_refl eq_refl eq_refl eq_refl
              ltac:(repeat constructor))
    as [w' [Hrun Hout]].
  exists w'. split; [exact Hrun | exact Hout].
Defined.

(** X10.  [list --model] on a 200 answer whose [deviceModels] is a list of
    objects that each have the three header fields and a [traits] that
    can be iterated: the command returns and prints, after the raw body
    in verbose mode, the block of every model in the order of the list. *)
Theorem list_prints_every_model :
  forall (RT : PyRuntime) (ENV : Environment) ctx (w : world) r s' fields
         items blocks,
    level w <> WARNING ->
    serve (srv w) (get_request (join "/" [API_URL ctx; "deviceModels"]))
      = (r, s') ->
    status_code r = 200 ->
    loads (text r) = Some (JObj fields) ->
    dict_get "deviceModels" fields = Some (JArr items) ->
    Forall2 (fun v b => model_item v = Some b) items blocks ->
    exists w',
      list_resources ctx "deviceModels" w = (Ok tt, w') /\
      out w' =
        (out w ++ log_lines DEBUG (text r) w ++ List.concat blocks)%list.
Proof.
  intros RT ENV ctx w r s' fields items blocks Hl Hs Hst Hld Hd Hitems.
  rewrite (list_decoded ctx _ w r s' fields Hs Hst Hld).
  cbn [String.eqb Ascii.eqb Bool.eqb getitem]. rewrite Hd.
  unfold lift at 1, bind at 1. unfold lift at 1, bind at 1. cbn [iterate].
  rewrite (for_each_blocks pretty_print_model model_item
             pretty_print_model_item items blocks)
    by (rewrite ?level_logged; assumption).
  eexists. split; [reflexivity |].
  cbn [out add_out]. rewrite out_logged_eq. cbn [out add_sent].
  unfold log_lines. cbn [level add_sent]. now rewrite <- app_assoc.
Qed.

Lemma list_prints_every_model_witness :
  exists w',
    @list_resources Reference.runtime (scripted [] None) example_context
      "deviceModels"
      (set_level INFO
         (@start (scripted [] None)
            [{| status_code := 200;
                text := "{" ++ Reference.quoted "deviceModels" ++ ":["
                        ++ body_model ++ "]}" |}]))
    = (Ok tt, w') /\
    List.length (out w') = 4%nat.
Proof.
  destruct (list_prints_every_model Reference.runtime (scripted [] None)
              example_context
              (set_level INFO
                 (@start (scripted [] None)
                    [{| status_code := 200;
                        text := "{" ++ Reference.quoted "deviceModels"
                                ++ ":[" ++ body_model ++ "]}" |}]))
              {| status_code := 200;
                 text := "{" ++ Reference.quoted "deviceModels" ++ ":["
                         ++ body_model ++ "]}" |} []
              [("deviceModels",
                JArr [JObj [("deviceModelId", JStr "foo");
                            ("projectId", JStr "p");
                            ("deviceType", JStr "t");
                            ("traits", JArr [JStr "a"; JStr "b"])]])]
              [JObj [("deviceModelId", JStr "foo");
                     ("projectId", JStr "p");
                     ("deviceType", JStr "t");
                     ("traits", JArr [JStr "a"; JStr "b"])]]
              [@model_block Reference.runtime (JStr "foo") (JStr "p")
                 (JStr "t") [JStr "a"; JStr "b"]]
              ltac:(discriminate) eq_refl eq_refl eq_refl eq_refl
              ltac:(repeat constructor))
    as [w' [Hrun Hout]].
  exists w'. split; [exact Hrun |]. rewrite Hout. reflexivity.
Defined.

(** X11.  [list --device] prints as it goes: when an item of the list is
    no object or has no [id], the command raises [KeyError] or
    [TypeError] after it has printed the blocks of the devices before that
    item; the devices after it are not printed. *)
Theorem list_devices_stops_at_bad_item :
  forall (RT : PyRuntime) (ENV : Environment) ctx (w : world) r s' fields
         good blocks bad rest,
    level w <> WARNING ->
    serve (srv w) (get_request (join "/" [API_URL ctx; "devices"]))
      = (r, s') ->
    status_code r = 200 ->
    loads (text r) = Some (JObj fields) ->
    dict_get "devices" fields = Some (JArr (good ++ bad :: rest)) ->
    Forall2 (fun v b => device_item v = Some b) good blocks ->
    device_item bad = None ->
    exists e w',
      list_resources ctx "devices" w = (Raise e, w') /\
      key_or_type_error e /\
      out w' =
        (out w ++ log_lines DEBUG (text r) w ++ List.concat blocks)%list.
Proof.
  intros RT ENV ctx w r s' fields good blocks bad rest Hl Hs Hst Hld Hd
    Hgood Hbad.
  rewrite (list_decoded ctx _ w r s' fields Hs Hst Hld).
  cbn [String.eqb Ascii.eqb Bool.eqb getitem]. rewrite Hd.
  unfold lift at 1, bind at 1. unfold lift at 1, bind at 1. cbn [iterate].
  assert (Hraise : exists e,
             key_or_type_error e /\
             forall w1 : world, pretty_print_device bad w1 = (Raise e, w1)).
  { destruct bad as [| | | | | d]; cbn [device_item] in Hbad;
      try (eexists; split; [| intros w1; reflexivity]; exact I).
    destruct (dict_get "id" d) eqn:Hid; [discriminate |].
    exists (KeyError "id"). split; [exact I |]. intros w1.
    unfold pretty_print_device, bind, lift. cbn [getitem].
    now rewrite Hid. }
  destruct Hraise as [e [He Hw]].
  rewrite (for_each_stops pretty_print_device device_item
             pretty_print_device_item good blocks bad rest e)
    by (rewrite ?level_logged; assumption).
  exists e. eexists. split; [reflexivity |]. split; [exact He |].
  cbn [out add_out]. rewrite out_logged_eq. cbn [out add_sent].
  unfold log_lines. cbn [level add_sent]. now rewrite <- app_assoc.
Qed.

Lemma list_devices_stops_at_bad_item_witness :
  exists e w',
    @list_resources Reference.runtime (scripted [] None) example_context
      "devices"
      (set_level INFO
         (@start (scripted [] None)
            [{| status_code := 200;
                text := "{" ++ Reference.quoted "devices" ++ ":[{"
                        ++ Reference.quoted "id" ++ ":"
                        ++ Reference.quoted "d1" ++ "},{}]}" |}]))
    = (Raise e, w') /\
    out w' = [Stderr "Device Instance Id: d1"; Stderr ""].
Proof.
  destruct (list_devices_stops_at_bad_item Reference.runtime
              (scripted [] None) example_context
              (set_level INFO
                 (@start (scripted [] None)
                    [{| status_code := 200;
                        text := "{" ++ Reference.quoted "devices" ++ ":[{"
                                ++ Reference.quoted "id" ++ ":"
                                ++ Reference.quoted "d1" ++ "},{}]}" |}]))
              {| status_code := 200;
                 text := "{" ++ Reference.quoted "devices" ++ ":[{"
                         ++ Reference.quoted "id" ++ ":"
                         ++ Reference.quoted "d1" ++ "},{}]}" |} []
              [("devices", JArr [JObj [("id", JStr "d1")]; JObj []])]
              [JObj [("id", JStr "d1")]]
              [[Stderr "Device Instance Id: d1"; Stderr ""]]
              (JObj []) []
              ltac:(discriminate) eq_refl eq_refl eq_refl eq_refl
              ltac:(repeat constructor) eq_refl)
    as [e [w' [Hrun [_ Hout]]]].
  exists e, w'. split; [exact Hrun | exact Hout].
Defined.

(** X12.  On a 200 answer that decodes to an object without the
    collection field ([deviceModels] for [list --model], [devices] for
    [list --device]), [list] raises [KeyError] for that field and prints
    no block. *)
Theorem list_missing_collection :
  forall (RT : PyRuntime) (ENV : Environment) ctx resource (w : world) r s'
         fields,
    resource = "deviceModels" \/ resource = "devices" ->
    serve (srv w) (get_request (join "/" [API_URL ctx; resource]))
      = (r, s') ->
    status_code r = 200 ->
    loads (text r) = Some (JObj fields) ->
    dict_get resource fields = None ->
    exists w',
      list_resources ctx resource w = (Raise (KeyError resource), w') /\
      out w' = (out w ++ log_lines DEBUG (text r) w)%list.
Proof.
  intros RT ENV ctx resource w r s' fields Hres Hs Hst Hld Hd.
  rewrite (list_decoded ctx _ w r s' fields Hs Hst Hld).
  destruct Hres as [-> | ->];
    cbn [String.eqb Ascii.eqb Bool.eqb getitem]; rewrite Hd;
    unfold lift at 1, bind at 1;
    (eexists; split; [reflexivity |]);
    rewrite out_logged_eq; cbn [out add_sent];
    unfold log_lines; cbn [level add_sent]; reflexivity.
Qed.

Lemma list_missing_collection_witness :
  exists w',
    @list_resources Reference.runtime (scripted [] None) example_context
      "devices"
      (set_level INFO
         (@start (scripted [] None)
            [{| status_code := 200; text := "{}" |}]))
    = (Raise (KeyError "devices"), w') /\
    out w' = [].
Proof.
  destruct (list_missing_collection Reference.runtime (scripted [] None)
              example_context "devices"
              (set_level INFO
                 (@start (scripted [] None)
                    [{| status_code := 200; text := "{}" |}]))
              {| status_code := 200; text := "{}" |} [] []
              (or_intror eq_refl) eq_refl eq_refl eq_refl eq_refl)
    as [w' [Hrun Hout]].
  exists w'. split; [exact Hrun | exact Hout].
Defined.

(** X13.  On an answer whose status is not 200, [get] and [list] raise
    what the error translator gives for the answer, under the messages
    [Failed to get resource] and [Failed to list resources], and print
    nothing; the body is not decoded for printing. *)
Theorem read_commands_fail_on_status :
  forall (RT : PyRuntime) (ENV : Environment) ctx resource id (w : world),
    (forall r s',
        serve (srv w) (get_request (join "/" [API_URL ctx; resource; id]))
          = (r, s') ->
        status_code r <> 200 ->
        exists w',
          get ctx resource id w =
          (Raise (raised (failed_request_exception
                            "Failed to get resource" r)), w') /\
          out w' = out w)
    /\
    (forall r s',
        serve (srv w) (get_request (join "/" [API_URL ctx; resource]))
          = (r, s') ->
        status_code r <> 200 ->
        exists w',
          list_resources ctx resource w =
          (Raise (raised (failed_request_exception
                            "Failed to list resources" r)), w') /\
          out w' = out w).
Proof.
  intros RT ENV ctx resource id w. split; intros r s' Hs Hst.
  - unfold get. rewrite (bind_ok _ _ _ _ _ (session_get_run _ _ _ _ Hs)).
    apply Z.eqb_neq in Hst. rewrite Hst. cbn [negb].
    rewrite raise_from_run. eexists. split; reflexivity.
  - unfold list_resources.
    rewrite (bind_ok _ _ _ _ _ (session_get_run _ _ _ _ Hs)).
    apply Z.eqb_neq in Hst. rewrite Hst. cbn [negb].
    rewrite raise_from_run. eexists. split; reflexivity.
Qed.

Lemma read_commands_fail_on_status_witness :
  exists w',
    @get Reference.runtime (scripted [] None) example_context
      "devices" "d1"
      (set_level INFO
         (@start (scripted [] None)
            [{| status_code := 404; text := body_not_found |}]))
    = (Raise (ClickException "Failed to get resource: 404 not found"), w')
    /\ out w' = [].
Proof.
  destruct (proj1 (read_commands_fail_on_status Reference.runtime
                     (scripted [] None) example_context "devices" "d1"
                     (set_level INFO
                        (@start (scripted [] None)
                           [{| status_code := 404;
                               text := body_not_found |}])))
              {| status_code := 404; text := body_not_found |} []
              eq_refl ltac:(discriminate))
    as [w' [Hrun Hout]].
  exists w'. split; [exact Hrun | exact Hout].
Defined.

(** X14.  [get] on a 200 answer that decodes to a well-formed item prints
    the block of the item and then, in verbose mode, the raw body: for
    [--device] an object with an [id], for [--model] an object with the
    three header fields and a [traits] that can be iterated. *)
Theorem get_prints_block_then_body :
  forall (RT : PyRuntime) (ENV : Environment) ctx id (w : world) r s' v b,
    level w <> WARNING ->
    status_code r = 200 ->
    loads (text r) = Some v ->
    (serve (srv w) (get_request (join "/" [API_URL ctx; "devices"; id]))
       = (r, s') ->
     device_item v = Some b ->
     exists w',
       get ctx "devices" id w = (Ok tt, w') /\
       out w' = (out w ++ b ++ log_lines DEBUG (text r) w)%list)
    /\
    (serve (srv w) (get_request (join "/" [API_URL ctx; "deviceModels"; id]))
       = (r, s') ->
     model_item v = Some b ->
     exists w',
       get ctx "deviceModels" id w = (Ok tt, w') /\
       out w' = (out w ++ b ++ log_lines DEBUG (text r) w)%list).
Proof.
  intros RT ENV ctx id w r s' v b Hl Hst Hld. split; intros Hs Hitem.
  - rewrite (get_200 ctx _ _ w r s' Hs Hst).
    unfold json_loads. rewrite Hld. unfold lift at 1, bind at 1.
    cbn [String.eqb Ascii.eqb Bool.eqb].
    erewrite bind_ok
      by (apply pretty_print_device_item; [exact Hl | exact Hitem]).
    unfold logging_debug. rewrite log_run.
    eexists. split; [reflexivity |].
    rewrite out_logged_eq. cbn [out add_out add_sent].
    unfold log_lines. cbn [level add_out add_sent].
    now rewrite <- app_assoc.
  - rewrite (get_200 ctx _ _ w r s' Hs Hst).
    unfold json_loads. rewrite Hld. unfold lift at 1, bind at 1.
    cbn [String.eqb Ascii.eqb Bool.eqb].
    erewrite bind_ok
      by (apply pretty_print_model_item; [exact Hl | exact Hitem]).
    unfold logging_debug. rewrite log_run.
    eexists. split; [reflexivity |].
    rewrite out_logged_eq. cbn [out add_out add_sent].
    unfold log_lines. cbn [level add_out add_sent].
    now rewrite <- app_assoc.
Qed.

Lemma get_prints_block_then_body_witness :
  exists w',
    @get Reference.runtime (scripted [] None) example_context
      "deviceModels" "foo"
      (set_level DEBUG
         (@start (scripted [] None)
            [{| status_code := 200; text := body_model |}]))
    = (Ok tt, w') /\
    out w' =
      (@model_block Reference.runtime (JStr "foo") (JStr "p") (JStr "t")
         [JStr "a"; JStr "b"] ++ [Stderr body_model])%list.
Proof.
  destruct (proj2 (get_prints_block_then_body Reference.runtime
                     (scripted [] None) example_context "foo"
                     (set_level DEBUG
                        (@start (scripted [] None)
                           [{| status_code := 200; text := body_model |}]))
                     {| status_code := 200; text := body_model |} []
                     (JObj [("deviceModelId", JStr "foo");
                            ("projectId", JStr "p");
                            ("deviceType", JStr "t");
                            ("traits", JArr [JStr "a"; JStr "b"])])
                     (@model_block Reference.runtime (JStr "foo")
                        (JStr "p") (JStr "t") [JStr "a"; JStr "b"])
                     ltac:(discriminate) eq_refl eq_refl)
              eq_refl eq_refl)
    as [w' [Hrun Hout]].
  exists w'. split; [exact Hrun | exact Hout].
Defined.

(** ** What the upsert commands print *)

Section UpsertOutput.
Context {RT : PyRuntime} {ENV : Environment}.

Lemma out_model_outcome model r (w : world) :
  out (snd (model_outcome model r w)) =
  (out w ++ if status_code r =? 200 then [model_registered model] else [])%list.
Proof.
  unfold model_outcome. destruct (_ =? _); cbn; [reflexivity |].
  now rewrite app_nil_r.
Qed.

Lemma out_device_outcome device r (w : world) :
  out (snd (device_outcome device r w)) =
  (out w ++ if status_code r =? 200
            then device_registered device :: log_lines DEBUG (text r) w
            else [])%list.
Proof.
  unfold device_outcome. destruct (_ =? _); cbn [snd].
  - rewrite out_logged_eq. cbn [out add_out]. unfold log_lines.
    cbn [level add_out]. now rewrite <- app_assoc.
  - now rewrite app_nil_r.
Qed.

Lemma out_model_checked ctx model type trait manufacturer product_name
    description (w : world) r1 s1 :
  out (model_checked ctx model type trait manufacturer product_name
         description w r1 s1) =
  (out w
   ++ log_lines DEBUG
        (model_data ctx model type trait manufacturer product_name
           description) w
   ++ log_lines DEBUG (text r1) w)%list.
Proof.
  unfold model_checked. rewrite out_logged_eq. cbn [out add_sent].
  rewrite out_logged_eq. unfold log_lines at 2. cbn [level add_sent].
  rewrite level_logged. now rewrite <- app_assoc.
Qed.

Lemma out_device_checked ctx device model nickname (w : world) s1 :
  out (device_checked ctx device model nickname w s1) =
  (out w ++ log_lines DEBUG (device_data device model nickname) w)%list.
Proof.
  unfold device_checked. cbn [out add_sent]. apply out_logged_eq.
Qed.

End UpsertOutput.

(** X15.  What [register-model] prints.  In verbose mode it first logs the
    encoded payload and the body of the answer to the GET.  A GET
    answered 200 prints [Updating existing device model: <model>], one
    answered 400 or 404 prints [Creating new device model], each before
    the changing request is sent, so the line is there even when that
    request is then refused; the confirmation follows only when the
    changing request is answered 200.  Any other answer to the GET prints
    no line. *)
Theorem register_model_prints :
  forall (RT : PyRuntime) (ENV : Environment) ctx model type trait
         manufacturer product_name description (w : world) r1 s1,
    let url := model_url ctx model in
    let data :=
      model_data ctx model type trait manufacturer product_name
        description in
    let run :=
      register_model ctx model type trait manufacturer product_name
        description w in
    let logs := (log_lines DEBUG data w ++ log_lines DEBUG (text r1) w)%list in
    serve (srv w) (get_request url) = (r1, s1) ->
    (status_code r1 = 200 ->
     forall r2 s2,
       serve s1 (put_request url data) = (r2, s2) ->
       out (snd run) =
         (out w ++ logs
          ++ Stdout ("Updating existing device model: " ++ model)
             :: (if status_code r2 =? 200 then [model_registered model]
                 else []))%list)
    /\
    (status_code r1 = 400 \/ status_code r1 = 404 ->
     forall r2 s2,
       serve s1 (post_request (model_base_url ctx) data) = (r2, s2) ->
       out (snd run) =
         (out w ++ logs
          ++ Stdout "Creating new device model"
             :: (if status_code r2 =? 200 then [model_registered model]
                 else []))%list)
    /\
    (status_code r1 <> 200 ->
     status_code r1 <> 400 ->
     status_code r1 <> 404 ->
     out (snd run) = (out w ++ logs)%list).
Proof.
  intros RT ENV ctx model type trait manufacturer product_name description
    w r1 s1 url data run logs Hs.
  split; [| split].
  - intros Hst r2 s2 Hp. unfold run.
    rewrite (register_model_update _ _ _ _ _ _ _ w r1 s1 r2 s2 Hs Hst Hp).
    rewrite out_model_outcome. cbn [out add_sent add_out].
    rewrite out_model_checked. unfold logs.
    rewrite <- !app_assoc. reflexivity.
  - intros Hst r2 s2 Hp. unfold run.
    rewrite (register_model_create _ _ _ _ _ _ _ w r1 s1 r2 s2 Hs Hst Hp).
    rewrite out_model_outcome. cbn [out add_sent add_out].
    rewrite out_model_checked. unfold logs.
    rewrite <- !app_assoc. reflexivity.
  - intros H200 H400 H404. unfold run.
    rewrite (register_model_unknown _ _ _ _ _ _ _ w r1 s1 Hs H200 H400
               H404).
    cbn [snd]. apply out_model_checked.
Qed.

Lemma register_model_prints_witness :
  out (snd (@register_model Reference.runtime (scripted [] None)
              example_context "foo" LIGHT [] "maker" "lamp" None
              (set_level INFO
                 (@start (scripted [] None)
                    [{| status_code := 200; text := "{}" |};
                     {| status_code := 500; text := "oops" |}]))))
  = [Stdout "Updating existing device model: foo"].
Proof.
  exact (proj1 (register_model_prints Reference.runtime (scripted [] None)
                  example_context "foo" LIGHT [] "maker" "lamp" None
                  (set_level INFO
                     (@start (scripted [] None)
                        [{| status_code := 200; text := "{}" |};
                         {| status_code := 500; text := "oops" |}]))
                  {| status_code := 200; text := "{}" |}
                  [{| status_code := 500; text := "oops" |}] eq_refl)
           eq_refl {| status_code := 500; text := "oops" |} [] eq_refl).
Defined.

(** X16.  What [register-device] prints.  In verbose mode it first logs
    the encoded payload.  A GET answered 200 prints
    [Updating existing device: <device>] and one answered 400 or 404
    prints [Creating new device], before the device is deleted or posted;
    the confirmation, followed in verbose mode by the body of the last
    answer, comes only when the POST is answered 200.  Any other answer
    to the GET prints no line. *)
Theorem register_device_prints :
  forall (RT : PyRuntime) (ENV : Environment) ctx device model nickname
         (w : world) r1 s1,
    let url := device_url ctx device in
    let base := device_base_url ctx in
    let data := device_data device model nickname in
    let run := register_device ctx device model nickname w in
    let logs := log_lines DEBUG data w in
    serve (srv w) (get_request url) = (r1, s1) ->
    (status_code r1 = 200 ->
     forall r2 s2 r3 s3,
       serve s1 (delete_request url) = (r2, s2) ->
       serve s2 (post_request base data) = (r3, s3) ->
       out (snd run) =
         (out w ++ logs
          ++ Stdout ("Updating existing device: " ++ device)
             :: (if status_code r3 =? 200
                 then device_registered device
                      :: log_lines DEBUG (text r3) w
                 else []))%list)
    /\
    (status_code r1 = 400 \/ status_code r1 = 404 ->
     forall r2 s2,
       serve s1 (post_request base data) = (r2, s2) ->
       out (snd run) =
         (out w ++ logs
          ++ Stdout "Creating new device"
             :: (if status_code r2 =? 200
                 then device_registered device
                      :: log_lines DEBUG (text r2) w
                 else []))%list)
    /\
    (status_code r1 <> 200 ->
     status_code r1 <> 400 ->
     status_code r1 <> 404 ->
     out (snd run) = (out w ++ logs)%list).
Proof.
  intros RT ENV ctx device model nickname w r1 s1 url base data run logs Hs.
  split; [| split].
  - intros Hst r2 s2 r3 s3 Hd Hp. unfold run.
    rewrite (register_device_update _ _ _ _ w r1 s1 r2 s2 r3 s3
               Hs Hst Hd Hp).
    rewrite out_device_outcome. cbn [out add_sent add_out].
    rewrite out_device_checked. unfold log_lines at 2.
    cbn [level add_sent add_out]. unfold device_checked.
    cbn [level add_sent]. rewrite level_logged. unfold logs.
    rewrite <- !app_assoc. reflexivity.
  - intros Hst r2 s2 Hp. unfold run.
    rewrite (register_device_create _ _ _ _ w r1 s1 r2 s2 Hs Hst Hp).
    rewrite out_device_outcome. cbn [out add_sent add_out].
    rewrite out_device_checked. unfold log_lines at 2.
    cbn [level add_sent add_out]. unfold device_checked.
    cbn [level add_sent]. rewrite level_logged. unfold logs.
    rewrite <- !app_assoc. reflexivity.
  - intros H200 H400 H404. unfold run.
    rewrite (register_device_unknown _ _ _ _ w r1 s1 Hs H200 H400 H404).
    cbn [snd]. apply out_device_checked.
Qed.

Lemma register_device_prints_witness :
  out (snd (@register_device Reference.runtime example_registry
              example_context "d1" "ghost" None
              (set_level INFO (@start example_registry example_stock))))
  = [Stdout "Updating existing device: d1"].
Proof.
  exact (proj1 (register_device_prints Reference.runtime example_registry
                  example_context "d1" "ghost" None
                  (set_level INFO (@start example_registry example_stock))
                  (answer 200 (Reference.encode
                                 (JObj (register_device_payload "d1" "m1"
                                          None))))
                  example_stock eq_refl)
           eq_refl (answer 200 "{}")
           {| models := models example_stock; devices := [] |}
           (refuse 400 "unknown model")
           {| models := models example_stock; devices := [] |}
           eq_refl eq_refl).
Defined.

(** ** The payloads *)

Section Payloads.

Lemma dict_get_set_same k v d : dict_get k (dict_set k v d) = Some v.
Proof.
  induction d as [| [k' v'] d IH]; cbn.
  - now rewrite String.eqb_refl.
  - destruct (String.eqb k k') eqn:E; cbn; rewrite E; [reflexivity | exact IH].
Qed.

Lemma dict_get_set_other k k' v d :
  k' <> k -> dict_get k' (dict_set k v d) = dict_get k' d.
Proof.
  intros Hne. induction d as [| [k0 v0] d IH]; cbn.
  - apply String.eqb_neq in Hne. now rewrite Hne.
  - destruct (String.eqb k k0) eqn:E; cbn.
    + apply String.eqb_eq in E. subst k0.
      apply String.eqb_neq in Hne. now rewrite Hne.
    + now rewrite IH.
Qed.

End Payloads.

(** X17.  In the payload of [register-device], [id] is the device and
    [model_id] the model; [nickname] is there exactly when a nickname was
    given and is not empty, and then has its value; the keys come in the
    order [id], [model_id], [nickname]. *)
Theorem register_device_payload_fields :
  forall device model nickname,
    let payload := register_device_payload device model nickname in
    dict_get "id" payload = Some (JStr device) /\
    dict_get "model_id" payload = Some (JStr model) /\
    (dict_get "nickname" payload <> None <->
     exists n, nickname = Some n /\ n <> "") /\
    (forall n,
        nickname = Some n -> n <> "" ->
        dict_get "nickname" payload = Some (JStr n)) /\
    map fst payload =
      ("id" :: "model_id" :: if given nickname then ["nickname"] else [])%list.
Proof.
  intros device model nickname payload. unfold payload,
    register_device_payload, given.
  destruct nickname as [n |]; [destruct (nonempty n) eqn:Hn |]; cbn.
  - split; [reflexivity |]. split; [reflexivity |]. split.
    { split; [| discriminate]. intros _. exists n.
      split; [reflexivity | now apply nonempty_true]. }
    split; [| reflexivity]. intros n' H _. now injection H as <-.
  - split; [reflexivity |]. split; [reflexivity |]. split.
    { split; [congruence |]. intros [n' [H Hne]]. injection H as <-.
      apply nonempty_true in Hne. congruence. }
    split; [| reflexivity]. intros n' H Hne. injection H as <-.
    apply nonempty_true in Hne. congruence.
  - split; [reflexivity |]. split; [reflexivity |]. split.
    { split; [congruence |]. intros [n' [H _]]. discriminate. }
    split; [| reflexivity]. intros n' H. discriminate.
Qed.

Lemma register_device_payload_fields_witness :
  dict_get "nickname" (register_device_payload "d1" "m1" (Some "lamp"))
    = Some (JStr "lamp") /\
  dict_get "nickname" (register_device_payload "d1" "m1" (Some "")) = None.
Proof.
  split.
  - destruct (register_device_payload_fields "d1" "m1" (Some "lamp"))
      as [_ [_ [_ [H _]]]].
    apply (H "lamp"); [reflexivity | discriminate].
  - reflexivity.
Defined.

(** X18.  [payload.setdefault('manifest', {})[key] = value], on a payload
    whose [manifest] is absent or an object: afterwards the manifest has
    [value] under [key], its other fields are as before, and so is every
    other field of the payload. *)
Theorem manifest_set_fields :
  forall key value payload,
    (dict_get "manifest" payload = None \/
     exists m, dict_get "manifest" payload = Some (JObj m)) ->
    manifest_field key (manifest_set key value payload) = Some value /\
    (forall other,
        other <> key ->
        manifest_field other (manifest_set key value payload)
          = manifest_field other payload) /\
    (forall field,
        field <> "manifest" ->
        dict_get field (manifest_set key value payload)
          = dict_get field payload).
Proof.
  intros key value payload H.
  unfold manifest_set, manifest_field, setdefault.
  destruct H as [Hnone | [m Hm]].
  - rewrite Hnone. split; [| split].
    + rewrite dict_get_set_same. cbn. now rewrite String.eqb_refl.
    + intros other Hne. rewrite dict_get_set_same. cbn.
      apply String.eqb_neq in Hne. now rewrite Hne.
    + intros field Hne. now rewrite !dict_get_set_other.
  - rewrite Hm. split; [| split].
    + rewrite dict_get_set_same. apply dict_get_set_same.
    + intros other Hne. rewrite dict_get_set_same.
      now apply dict_get_set_other.
    + intros field Hne. now rewrite dict_get_set_other.
Qed.

Lemma manifest_set_fields_witness :
  manifest_field "productName"
    (manifest_set "productName" (JStr "lamp")
       (manifest_set "manufacturer" (JStr "maker")
          [("device_model_id", JStr "foo")])) = Some (JStr "lamp") /\
  manifest_field "manufacturer"
    (manifest_set "productName" (JStr "lamp")
       (manifest_set "manufacturer" (JStr "maker")
          [("device_model_id", JStr "foo")])) = Some (JStr "maker").
Proof.
  destruct (manifest_set_fields "productName" (JStr "lamp")
              (manifest_set "manufacturer" (JStr "maker")
                 [("device_model_id", JStr "foo")])
              (or_intror (ex_intro _ [("manufacturer", JStr "maker")]
                            eq_refl)))
    as [Hset [Hother _]].
  split; [exact Hset |].
  rewrite (Hother "manufacturer") by discriminate. reflexivity.
Defined.

(** X19.  The payload of [register-model] always starts with
    [device_model_id] (the model), [project_id] (the project of the
    context) and [device_type]; [traits] and [manifest] follow in that
    order when they are there, and [manifest] is there exactly when one
    of manufacturer, product name and description was given and is not
    empty. *)
Theorem register_model_payload_shape :
  forall ctx model type trait manufacturer product_name description,
    let payload :=
      register_model_payload ctx model type trait manufacturer product_name
        description in
    dict_get "device_model_id" payload = Some (JStr model) /\
    dict_get "project_id" payload = Some (PROJECT_ID ctx) /\
    map fst payload =
      ("device_model_id" :: "project_id" :: "device_type"
       :: (match trait with [] => [] | _ :: _ => ["traits"] end)
       ++ (if nonempty manufacturer || nonempty product_name
              || given description
           then ["manifest"] else []))%list.
Proof.
  intros ctx model type trait manufacturer product_name description payload.
  unfold payload, register_model_payload, given.
  destruct trait as [| t ts];
    destruct (nonempty manufacturer);
    destruct (nonempty product_name);
    destruct description as [d |]; try destruct (nonempty d);
    cbn; repeat split; reflexivity.
Qed.

(** ** More on the formatter and the device upsert *)

(** X20.  [pretty_print_model] formats its three-line header in one go:
    for an object that lacks [deviceModelId], [projectId] or [deviceType]
    it raises [KeyError] for the first of them that is missing and prints
    nothing; for a value that is not an object it raises [TypeError] and
    prints nothing. *)
Theorem pretty_print_model_header_is_atomic :
  forall (RT : PyRuntime) (ENV : Environment) v (w : world),
    (not_an_object v ->
     pretty_print_model v w = (Raise (TypeError v), w))
    /\
    (forall d,
        v = JObj d ->
        (dict_get "deviceModelId" d = None ->
         pretty_print_model v w = (Raise (KeyError "deviceModelId"), w)) /\
        (dict_get "deviceModelId" d <> None ->
         dict_get "projectId" d = None ->
         pretty_print_model v w = (Raise (KeyError "projectId"), w)) /\
        (dict_get "deviceModelId" d <> None ->
         dict_get "projectId" d <> None ->
         dict_get "deviceType" d = None ->
         pretty_print_model v w = (Raise (KeyError "deviceType"), w))).
Proof.
  intros RT ENV v w. unfold pretty_print_model, bind, lift. split.
  - destruct v; cbn; try reflexivity. contradiction.
  - intros d ->. cbn [getitem]. repeat split.
    + intros ->. reflexivity.
    + intros H1 ->. destruct (dict_get "deviceModelId" d);
        [reflexivity | contradiction].
    + intros H1 H2 ->.
      destruct (dict_get "deviceModelId" d); [| contradiction].
      destruct (dict_get "projectId" d); [reflexivity | contradiction].
Qed.

Lemma pretty_print_model_header_is_atomic_witness :
  @pretty_print_model Reference.runtime (scripted [] None)
    (JObj [("deviceModelId", JStr "foo")])
    (set_level INFO (@start (scripted [] None) []))
  = (Raise (KeyError "projectId"),
     set_level INFO (@start (scripted [] None) [])).
Proof.
  refine (proj1 (proj2 (proj2 (pretty_print_model_header_is_atomic
                                 Reference.runtime (scripted [] None)
                                 (JObj [("deviceModelId", JStr "foo")])
                                 (set_level INFO
                                    (@start (scripted [] None) [])))
                          [("deviceModelId", JStr "foo")] eq_refl))
            _ eq_refl).
  discriminate.
Defined.

(** X21.  [register-device] does not look at the answer to its DELETE:
    when the GET is answered 200 and the DELETE is refused, the POST is
    sent all the same, and when it is answered 200 the command returns
    with the confirmation printed. *)
Theorem register_device_ignores_delete_answer :
  forall (RT : PyRuntime) (ENV : Environment) ctx device model nickname
         (w : world) r1 s1 r2 s2 r3 s3,
    let url := device_url ctx device in
    let base := device_base_url ctx in
    let data := device_data device model nickname in
    serve (srv w) (get_request url) = (r1, s1) ->
    status_code r1 = 200 ->
    serve s1 (delete_request url) = (r2, s2) ->
    status_code r2 <> 200 ->
    serve s2 (post_request base data) = (r3, s3) ->
    status_code r3 = 200 ->
    exists w',
      register_device ctx device model nickname w = (Ok tt, w') /\
      sent w' =
        (sent w
         ++ [get_request url; delete_request url;
             post_request base data])%list /\
      In (device_registered device) (out w').
Proof.
  intros RT ENV ctx device model nickname w r1 s1 r2 s2 r3 s3 url base data
    Hs Hst Hd Hrefused Hp Hok.
  destruct (register_device_protocol ctx device model nickname w r1 s1 Hs)
    as [res [w' [Hrun [_ [Hupd _]]]]].
  destruct (Hupd Hst r2 s2 r3 s3 Hd Hp) as [Hsent [_ [Hsucc _]]].
  destruct (Hsucc Hok) as [-> [before [after Hout]]].
  exists w'. split; [exact Hrun |]. split; [exact Hsent |].
  rewrite Hout. apply in_or_app. right. apply in_or_app. right.
  left. reflexivity.
Qed.

Lemma register_device_ignores_delete_answer_witness :
  exists w',
    @register_device Reference.runtime (scripted [] None) example_context
      "d1" "m1" None
      (set_level INFO
         (@start (scripted [] None)
            [{| status_code := 200; text := "{}" |};
             {| status_code := 500; text := "oops" |};
             {| status_code := 200; text := "{}" |}]))
    = (Ok tt, w') /\
    map req_method (sent w') = [GET; DELETE; POST].
Proof.
  destruct (register_device_ignores_delete_answer Reference.runtime
              (scripted [] None) example_context "d1" "m1" None
              (set_level INFO
                 (@start (scripted [] None)
                    [{| status_code := 200; text := "{}" |};
                     {| status_code := 500; text := "oops" |};
                     {| status_code := 200; text := "{}" |}]))
              {| status_code := 200; text := "{}" |}
              [{| status_code := 500; text := "oops" |};
               {| status_code := 200; text := "{}" |}]
              {| status_code := 500; text := "oops" |}
              [{| status_code := 200; text := "{}" |}]
              {| status_code := 200; text := "{}" |} []
              eq_refl eq_refl eq_refl ltac:(discriminate) eq_refl eq_refl)
    as [w' [Hrun [Hsent _]]].
  exists w'. split; [exact Hrun |]. rewrite Hsent. reflexivity.
Defined.
